(** * Panda particle-filter models and training loops

    A shallow embedding of [lib/panda_models.py] and [lib/panda_training.py].

    Tensors are nested lists of reals together with the shape PyTorch stores
    for them; Python exceptions are an explicit error result; the draws of the
    random number generator are an explicit argument; the learned layer stacks
    ([torch.nn.Sequential] objects built from [nn.Linear], [nn.Conv2d] and the
    residual blocks of [fannypack]) are per-sample functions with the input and
    output widths the constructors give them. *)

From Stdlib Require Import Reals Lra Lia List String Bool Arith.
From stdpp Require Import gmap strings.
Import ListNotations.

Local Open Scope R_scope.

(** ** Python exceptions *)

Inductive PyError :=
| AssertionError (msg : string)
| KeyError (key : string)
| IndexError
| ValueError
| RuntimeError
| ZeroDivisionError
| UnboundLocalError (name : string)
| StopIteration.

Inductive result (A : Type) :=
| Returns (a : A)
| Raises (e : PyError).
Arguments Returns {A} a.
Arguments Raises {A} e.

Definition bind {A B} (r : result A) (k : A -> result B) : result B :=
  match r with
  | Returns a => k a
  | Raises e => Raises e
  end.

Notation "'let*' x ':=' e 'in' k" := (bind e (fun x => k))
  (at level 10, x pattern, e at level 200, k at level 200).
Notation "'check' e 'in' k" := (bind e (fun _ => k))
  (at level 10, e at level 200, k at level 200).

(** [assert cond, msg] *)
Definition assert (cond : bool) (msg : string) : result unit :=
  if cond then Returns tt else Raises (AssertionError msg).

Definition raised {A} (r : result A) : Prop := exists e, r = Raises e.

(** ** Tensors

    A tensor of rank 1, 2 or 3: its shape and its entries.  The shape is kept
    beside the entries because a dimension of size 0 leaves no entry to read
    the later dimensions from. *)

Inductive Tensor :=
| T1 (d0 : nat) (v : list R)
| T2 (d0 d1 : nat) (v : list (list R))
| T3 (d0 d1 d2 : nat) (v : list (list (list R))).

Definition shape (x : Tensor) : list nat :=
  match x with
  | T1 d0 _ => [d0]
  | T2 d0 d1 _ => [d0; d1]
  | T3 d0 d1 d2 _ => [d0; d1; d2]
  end.

Definition wf1 (d0 : nat) (v : list R) : bool := (length v =? d0)%nat.
Definition wf2 (d0 d1 : nat) (v : list (list R)) : bool :=
  (length v =? d0)%nat && forallb (wf1 d1) v.
Definition wf3 (d0 d1 d2 : nat) (v : list (list (list R))) : bool :=
  (length v =? d0)%nat && forallb (wf2 d1 d2) v.

(** The entries fill the shape: the invariant of every tensor PyTorch builds. *)
Definition wf (x : Tensor) : bool :=
  match x with
  | T1 d0 v => wf1 d0 v
  | T2 d0 d1 v => wf2 d0 d1 v
  | T3 d0 d1 d2 v => wf3 d0 d1 d2 v
  end.

(** [l[a:b]] for [0 <= a <= b] *)
Definition slice {A} (a b : nat) (l : list A) : list A := firstn (b - a) (skipn a l).

(** Entry-wise sum of two vectors of one length. *)
Definition vadd (x y : list R) : list R := zip_with Rplus x y.

Definition sum (l : list R) : R := fold_right Rplus 0 l.
Definition mean (l : list R) : R := sum l / INR (length l).

(** [torch.norm(x)] with no [dim]: the 2-norm of all the entries of [x]. *)
Definition norm (entries : list R) : R := sqrt (sum (map (fun x => x * x) entries)).

(** ** Random draws

    [z n m d] is the standard normal draw used for entry [(n, m, d)] of a
    sample. *)
Definition Draws := nat -> nat -> nat -> R.

Definition tabulate {A} (n : nat) (f : nat -> A) : list A := map f (seq 0 n).

(** [torch.distributions.Normal(torch.tensor([0.]), torch.tensor(stddev)).sample((N, M))]:
    the location [(1,)] broadcasts against the scale [(len(stddev),)], so the
    sample has shape [(N, M, len(stddev))]. *)
Definition normal_sample (stddev : list R) (N M : nat) (z : Draws) : Tensor :=
  T3 N M (length stddev)
     (tabulate N (fun n => tabulate M (fun m => imap (fun d s => 0 + s * z n m d) stddev))).

(** ** Layer stacks

    A [torch.nn.Sequential] whose first layer reads [i] features and whose
    last layer writes [o] features.  It acts on the last axis of its input,
    one sample at a time, and PyTorch raises a [RuntimeError] when that axis
    does not have [i] entries. *)

Record Net (i o : nat) := {
  net_fun :> list R -> list R;
  net_len : forall v, length v = i -> length (net_fun v) = o
}.
Arguments net_fun {i o} n v.
Arguments net_len {i o} n v.

Definition apply_net {i o} (f : Net i o) (x : Tensor) : result Tensor :=
  match x with
  | T1 d0 v => if (d0 =? i)%nat then Returns (T1 o (f v)) else Raises RuntimeError
  | T2 d0 d1 v => if (d1 =? i)%nat then Returns (T2 d0 o (map f v)) else Raises RuntimeError
  | T3 d0 d1 d2 v =>
      if (d2 =? i)%nat then Returns (T3 d0 d1 o (map (map f) v)) else Raises RuntimeError
  end.

(** ** Tensor operations used by the models *)

(** Growing a dimension of size [d] to size [n]: unchanged when [d = n],
    the single entry repeated when [d = 1]. *)
Definition expand_to {A} (n d : nat) (l : list A) : list A :=
  if (d =? n)%nat then l else flat_map (fun x => repeat x n) l.

Definition expandable (n d : nat) : bool := (d =? n)%nat || (d =? 1)%nat.

(** [x[:, np.newaxis, :].expand(N, M, F)] *)
Definition unsqueeze_expand (x : Tensor) (N M F : nat) : result Tensor :=
  match x with
  | T1 _ _ => Raises IndexError
  | T2 d0 d1 v =>
      if expandable N d0 && expandable F d1 then
        Returns (T3 N M F (map (fun r => repeat (expand_to F d1 r) M) (expand_to N d0 v)))
      else Raises RuntimeError
  | T3 _ _ _ _ => Raises RuntimeError
  end.

(** [torch.cat((x, y), dim=2)] *)
Definition cat_dim2 (x y : Tensor) : result Tensor :=
  match x, y with
  | T3 a b c u, T3 a' b' c' v =>
      if (a =? a')%nat && (b =? b')%nat then
        Returns (T3 a b (c + c') (zip_with (zip_with app) u v))
      else Raises RuntimeError
  | _, _ => Raises RuntimeError
  end.

(** [torch.cat((x, y, w), dim=1)] of matrices *)
Definition cat_dim1 (x y w : Tensor) : result Tensor :=
  match x, y, w with
  | T2 a b u, T2 a' b' v, T2 a'' b'' s =>
      if (a =? a')%nat && (a =? a'')%nat then
        Returns (T2 a (b + b' + b'') (zip_with app (zip_with app u v) s))
      else Raises RuntimeError
  | _, _, _ => Raises RuntimeError
  end.

(** [x + y] and [x - y] for two tensors of one shape (the only use the code
    makes of them: the shapes have been compared by an assertion before). *)
Definition tensor_zip (f : R -> R -> R) (x y : Tensor) : result Tensor :=
  match x, y with
  | T1 a u, T1 a' v =>
      if (a =? a')%nat then Returns (T1 a (zip_with f u v)) else Raises RuntimeError
  | T2 a b u, T2 a' b' v =>
      if (a =? a')%nat && (b =? b')%nat
      then Returns (T2 a b (zip_with (zip_with f) u v))
      else Raises RuntimeError
  | T3 a b c u, T3 a' b' c' v =>
      if (a =? a')%nat && (b =? b')%nat && (c =? c')%nat
      then Returns (T3 a b c (zip_with (zip_with (zip_with f)) u v))
      else Raises RuntimeError
  | _, _ => Raises RuntimeError
  end.

Definition tensor_add : Tensor -> Tensor -> result Tensor := tensor_zip Rplus.
Definition tensor_sub : Tensor -> Tensor -> result Tensor := tensor_zip Rminus.

(** [torch.squeeze(x, dim=2)] *)
Definition squeeze_dim2 (x : Tensor) : result Tensor :=
  match x with
  | T3 a b 1 v => Returns (T2 a b (map (map (fun r => nth 0 r 0)) v))
  | T3 a b c v => Returns (T3 a b c v)
  | _ => Raises IndexError
  end.

Definition shape_is (x : Tensor) (s : list nat) : bool := bool_decide (shape x = s).

(** ** [PandaSimpleDynamicsModel] *)

Module PandaSimpleDynamicsModel.

Record t := { state_noise_stddev : list R }.

Definition default_state_noise_stddev : list R := [0.05; 0.05].

Definition init (state_noise_stddev : option (list R)) : t :=
  match state_noise_stddev with
  | Some s => {| state_noise_stddev := s |}
  | None => {| state_noise_stddev := default_state_noise_stddev |}
  end.

(** [torch.norm(states_new[:, :, 2:4], keepdim=True)]: no [dim] is given, so
    the norm runs over the whole slice, all trajectories and particles
    together, and has shape [(1, 1, 1)]. *)
Definition cos_sin_norm (states_new : Tensor) : R :=
  match states_new with
  | T3 _ _ _ v => norm (concat (concat (map (map (slice 2 4)) v)))
  | _ => 0
  end.

(** [p[2:4] /= scale] on one particle [p] *)
Definition scale_cos_sin (scale : R) (p : list R) : list R :=
  firstn 2 p ++ map (fun x => x / scale) (slice 2 4 p) ++ skipn 4 p.

(** [states_new[:, :, 2:4] /= scale] *)
Definition divide_cos_sin (states_new : Tensor) (scale : R) : Tensor :=
  match states_new with
  | T3 N M D v => T3 N M D (map (map (scale_cos_sin scale)) v)
  | x => x
  end.

Definition forward (self : t) (states_prev controls : Tensor) (noisy : bool)
    (z : Draws) : result Tensor :=
  check assert (length (shape states_prev) =? 3)%nat "" in
  match shape states_prev with
  | [N; M; state_dim] =>
      check assert (state_dim =? length (state_noise_stddev self))%nat "" in
      let states_new := states_prev in
      if noisy then
        let noise := normal_sample (state_noise_stddev self) N M z in
        check assert (shape_is noise [N; M; state_dim]) "" in
        let* states_new := tensor_add states_new noise in
        let scale := cos_sin_norm states_new in
        Returns (divide_cos_sin states_new scale)
      else Returns states_new
  | _ => Raises (AssertionError "")
  end.

End PandaSimpleDynamicsModel.

(** ** [PandaDynamicsModel] *)

Module PandaDynamicsModel.

Definition state_dim : nat := 2.
Definition control_dim : nat := 7.

Record t := {
  state_noise_stddev : list R;
  units : nat;
  (** [nn.Linear(state_dim, units // 2), resblocks.Linear(units // 2)] *)
  state_layers : Net state_dim (units / 2);
  (** [nn.Linear(control_dim, units // 2), resblocks.Linear(units // 2)] *)
  control_layers : Net control_dim (units / 2);
  (** three [resblocks.Linear(units)], then [nn.Linear(units, state_dim)] *)
  shared_layers : Net units state_dim
}.

Definition default_state_noise_stddev : list R := [0.05; 0.05].

Definition forward (self : t) (states_prev controls : Tensor) (noisy : bool)
    (z : Draws) : result Tensor :=
  check assert (length (shape states_prev) =? 3)%nat "" in
  check assert (length (shape controls) =? 2)%nat "" in
  match shape states_prev with
  | [N; M; state_dim] =>
      let* control_features := apply_net (control_layers self) controls in
      check assert (shape_is control_features [N; units self / 2]%nat) "" in
      let* control_features :=
        unsqueeze_expand control_features N M (units self / 2) in
      check assert (shape_is control_features [N; M; units self / 2]%nat) "" in
      let* state_features := apply_net (state_layers self) states_prev in
      check assert (shape_is state_features [N; M; units self / 2]%nat) "" in
      let* merged_features := cat_dim2 control_features state_features in
      check assert (shape_is merged_features [N; M; units self]) "" in
      let* state_update := apply_net (shared_layers self) merged_features in
      check assert (shape_is state_update [N; M; state_dim]) "" in
      let* states_new := tensor_add states_prev state_update in
      check assert (shape_is states_new [N; M; state_dim]) "" in
      if noisy then
        let noise := normal_sample (state_noise_stddev self) N M z in
        check assert (shape_is noise [N; M; state_dim]) "" in
        tensor_add states_new noise
      else Returns states_new
  | _ => Raises (AssertionError "")
  end.

End PandaDynamicsModel.

(** ** [PandaMeasurementModel] *)

Module PandaMeasurementModel.

Definition obs_pos_dim : nat := 3.
Definition obs_sensors_dim : nat := 7.
Definition state_dim : nat := 2.

Record t := {
  units : nat;
  (** The convolutional part of [observation_image_layers]:
      [Conv2d(1, 3, 3, padding=1), ReLU, resblocks.Conv2d(3),
      Conv2d(3, 1, 3, padding=1), ReLU], on one single-channel image.
      Kernel 3 with padding 1 keeps height and width. *)
  image_conv : list (list R) -> list (list R);
  image_conv_shape : forall H W img, wf2 H W img = true -> wf2 H W (image_conv img) = true;
  (** The rest of it after [nn.Flatten()]:
      [nn.Linear(1024, units), ReLU, resblocks.Linear(units)] *)
  image_linear : Net 1024 units;
  observation_pos_layers : Net obs_pos_dim units;
  observation_sensors_layers : Net obs_sensors_dim units;
  state_layers : Net state_dim units;
  shared_layers : Net (units * 4) 1
}.

(** [observations[key]] *)
Definition getitem (observations : gmap string Tensor) (key : string) : result Tensor :=
  match observations !! key with
  | Some x => Returns x
  | None => Raises (KeyError key)
  end.

(** [self.observation_image_layers(image[:, np.newaxis, :, :])] *)
Definition observation_image_layers (self : t) (image : Tensor) : result Tensor :=
  match image with
  | T3 N H W imgs =>
      let flat := map (fun img => concat (image_conv self img)) imgs in
      apply_net (image_linear self) (T2 N (1 * H * W) flat)
  | _ => Raises IndexError
  end.

Definition forward (self : t) (observations : gmap string Tensor) (states : Tensor)
    : result Tensor :=
  check assert (length (shape states) =? 3)%nat "" in
  match shape states with
  | [N; M; _] =>
      let* image := getitem observations "image" in
      let* image_features := observation_image_layers self image in
      let* gripper_pos := getitem observations "gripper_pos" in
      let* pos_features := apply_net (observation_pos_layers self) gripper_pos in
      let* gripper_sensors := getitem observations "gripper_sensors" in
      let* sensors_features :=
        apply_net (observation_sensors_layers self) gripper_sensors in
      let* observation_features :=
        cat_dim1 image_features pos_features sensors_features in
      let* observation_features :=
        unsqueeze_expand observation_features N M (units self * 3) in
      check assert (shape_is observation_features [N; M; units self * 3]%nat) "" in
      let* state_features := apply_net (state_layers self) states in
      check assert (shape_is state_features [N; M; units self]) "" in
      let* merged_features := cat_dim2 observation_features state_features in
      check assert (shape_is merged_features [N; M; units self * 4]%nat) "" in
      let* log_likelihoods := apply_net (shared_layers self) merged_features in
      check assert (shape_is log_likelihoods [N; M; 1%nat]) "" in
      squeeze_dim2 log_likelihoods
  | _ => Raises (AssertionError "")
  end.

End PandaMeasurementModel.


(** ** What the training code uses of its collaborators *)

(** A [torch] tensor with the one autograd attribute the training loops can
    change: [detach()] clears [requires_grad], which cuts the gradient path
    through the tensor. *)
Record Var := { data : Tensor; requires_grad : bool }.

Definition detach (x : Var) : Var := {| data := data x; requires_grad := false |}.

(** A tensor that comes from the data loader or from numpy. *)
Definition constant (x : Tensor) : Var := {| data := x; requires_grad := false |}.

(** [dpf.ParticleFilterNetwork] as a caller sees it at one call: its
    parameters, its dynamics model run with [noisy=False], and
    [forward(states_prev, log_weights_prev, observations, controls, resample,
    noisy_dynamics, know_image_blackout)], which returns
    [(state_estimates, new_states, new_log_weights)].  The last argument is
    [None] when the keyword is not passed. *)
Record ParticleFilterNetwork (Obs : Type) := {
  parameters : list Tensor;
  dynamics_model : Tensor -> Tensor -> bool -> result Tensor;
  forward : Var -> Var -> Obs -> Tensor -> bool -> bool -> option bool
            -> result (Var * Var * Var)
}.
Arguments parameters {Obs} p.
Arguments dynamics_model {Obs} p states_prev controls noisy.
Arguments forward {Obs} p states_prev log_weights_prev observations controls
  resample noisy_dynamics know_image_blackout.

(** [fannypack]'s [Buddy]: the optimizer steps taken, the loss and optimizer
    name of each [minimize] call, and the scope and name of each logged
    scalar (the logged values are not kept). *)
Record Buddy := {
  optimizer_steps : nat;
  minimized : list (string * R);
  logged : list (string * string)
}.

Definition minimize (buddy : Buddy) (loss : R) (optimizer_name : string) : Buddy :=
  {| optimizer_steps := S (optimizer_steps buddy);
     minimized := minimized buddy ++ [(optimizer_name, loss)];
     logged := logged buddy |}.

Definition log_scalars (buddy : Buddy) (scope : string) (names : list string) : Buddy :=
  {| optimizer_steps := optimizer_steps buddy;
     minimized := minimized buddy;
     logged := logged buddy ++ map (fun n => (scope, n)) names |}.

(** [if buddy.optimizer_steps % log_interval == 0: <log names>] *)
Definition log_every (buddy : Buddy) (log_interval : nat) (scope : string)
    (names : list string) : Buddy * result unit :=
  match log_interval with
  | O => (buddy, Raises ZeroDivisionError)
  | S _ =>
      if (optimizer_steps buddy mod log_interval =? 0)%nat
      then (log_scalars buddy scope names, Returns tt)
      else (buddy, Returns tt)
  end.

(** ** Loops *)

(** [for x in xs: st = body(st, x)], stopping at the first exception. *)
Fixpoint for_each {S A} (body : S -> A -> result S) (st : S) (xs : list A) : result S :=
  match xs with
  | [] => Returns st
  | x :: rest => let* st' := body st x in for_each body st' rest
  end.

(** The same for a body that also changes the [Buddy]; the [Buddy] survives
    an exception. *)
Fixpoint for_each_batch {S A} (body : Buddy -> S -> A -> Buddy * result S)
    (buddy : Buddy) (st : S) (xs : list A) : Buddy * result S :=
  match xs with
  | [] => (buddy, Returns st)
  | x :: rest =>
      match body buddy st x with
      | (buddy', Returns st') => for_each_batch body buddy' st' rest
      | (buddy', Raises e) => (buddy', Raises e)
      end
  end.

(** [range(a, b)] *)
Definition range (a b : nat) : list nat := seq a (b - a).

(** ** More tensor operations, used by the training loops *)

(** [x[:, t, :]] *)
Definition select_dim1 (x : Tensor) (t : nat) : result Tensor :=
  match x with
  | T3 a b c v =>
      if (t <? b)%nat then Returns (T2 a c (map (fun r => nth t r []) v))
      else Raises IndexError
  | _ => Raises IndexError
  end.

(** [x[:, np.newaxis, :]] of a matrix (the callers assert rank 2 before). *)
Definition unsqueeze_dim1 (x : Tensor) : result Tensor :=
  match x with
  | T2 a b v => Returns (T3 a 1 b (map (fun r => [r]) v))
  | T1 _ _ => Raises IndexError
  | T3 _ _ _ _ => Raises RuntimeError
  end.

(** [x.squeeze(dim=1)] *)
Definition squeeze_dim1 (x : Tensor) : result Tensor :=
  match x with
  | T3 a 1 c v => Returns (T2 a c (map (fun r => nth 0 r []) v))
  | T2 a 1 v => Returns (T1 a (map (fun r => nth 0 r 0) v))
  | T1 _ _ => Raises IndexError
  | x => Returns x
  end.

Definition flatten (x : Tensor) : list R :=
  match x with
  | T1 _ v => v
  | T2 _ _ v => concat v
  | T3 _ _ _ v => concat (concat v)
  end.

(** Mean over all entries of [f(x, y)] taken entry by entry, for [x] and [y]
    of one shape. *)
Definition mean_of (f : R -> R -> R) (x y : Tensor) : R :=
  mean (zip_with f (flatten x) (flatten y)).

(** [F.l1_loss], [F.mse_loss], [F.smooth_l1_loss] with their defaults *)
Definition l1_loss : Tensor -> Tensor -> R := mean_of (fun a b => Rabs (a - b)).
Definition mse_loss : Tensor -> Tensor -> R := mean_of (fun a b => (a - b) * (a - b)).
Definition smooth_l1_loss : Tensor -> Tensor -> R :=
  mean_of (fun a b => if Rlt_dec (Rabs (a - b)) 1
                      then 0.5 * ((a - b) * (a - b)) else Rabs (a - b) - 0.5).

(** [torch.ones((N, M)) * (-np.log(M))] *)
Definition uniform_log_weights (N M : nat) : Tensor :=
  T2 N M (repeat (repeat (1 * - ln (INR M)) M) N).

(** [torch.mean(torch.stack(losses))] *)
Definition mean_stack (losses : list R) : result R :=
  match losses with
  | [] => Raises RuntimeError
  | _ => Returns (mean losses)
  end.

(** ** [train_dynamics_recurrent] *)

Module TrainDynamicsRecurrent.
Section WithModel.

Context {Obs BatchObs : Type}.

(** [pf_model] with the parameters that the given number of optimizer steps
    has left it. *)
Variable pf_model : nat -> ParticleFilterNetwork Obs.

(** A batch: [(batch_states, batch_obs, batch_controls)]. *)
Definition Batch : Type := Tensor * BatchObs * Tensor.

(** The variables that the loop over [t] updates. *)
Record Timesteps := {
  prev_states : Tensor;
  losses : list R;
  magnitude_losses : list R;
  direction_losses : list R;
  pred_deltas : list R
}.

Definition square (x : R) : R := x * x.

(** [np.mean(utils.to_numpy(batch_states[:, 1:, :] - batch_states[:, :-1, :]) ** 2, axis=(0, 2))] *)
Definition label_deltas (batch_states : Tensor) : list R :=
  match batch_states with
  | T3 _ timesteps _ v =>
      tabulate (timesteps - 1) (fun t =>
        mean (concat (map (fun traj =>
          zip_with (fun a b => square (a - b)) (nth (S t) traj []) (nth t traj [])) v)))
  | _ => []
  end.

Definition timestep (loss_type : string) (model : ParticleFilterNetwork Obs)
    (batch_states batch_controls : Tensor) (N state_dim : nat)
    (st : Timesteps) (t : nat) : result Timesteps :=
  let* controls := select_dim1 batch_controls t in
  let* with_particle_dim := unsqueeze_dim1 (prev_states st) in
  let* out := dynamics_model model with_particle_dim controls false in
  let* new_states := squeeze_dim1 out in
  check assert (shape_is new_states [N; state_dim]) "" in
  let* pred_delta := tensor_sub (prev_states st) new_states in
  let* before := select_dim1 batch_states (t - 1) in
  let* target := select_dim1 batch_states t in
  let* label_delta := tensor_sub before target in
  check assert (shape_is pred_delta [N; state_dim]) "" in
  check assert (shape_is label_delta [N; state_dim]) "" in
  let* timestep_loss :=
    if (loss_type =? "l1")%string then Returns (l1_loss new_states target)
    else if (loss_type =? "l2")%string then Returns (mse_loss new_states target)
    else if (loss_type =? "huber")%string then Returns (smooth_l1_loss target new_states)
    else if (loss_type =? "peter")%string then
      (* Use a Peter loss; currently broken *)
      Raises (AssertionError "")
    else Raises (AssertionError "") in
  let* moved := tensor_sub new_states (prev_states st) in
  Returns {| prev_states := new_states;
             losses := losses st ++ [timestep_loss];
             magnitude_losses := magnitude_losses st;
             direction_losses := direction_losses st;
             pred_deltas := pred_deltas st ++ [mean (map square (flatten moved))] |}.

(** One batch up to [loss = torch.mean(torch.stack(losses))]. *)
Definition batch_loss (loss_type : string) (model : ParticleFilterNetwork Obs)
    (batch : Batch) : result (R * Timesteps) :=
  let '(batch_states, batch_obs, batch_controls) := batch in
  match shape batch_controls with
  | [_; _; control_dim] =>
      match shape batch_states with
      | [N; timesteps; state_dim] =>
          check assert (shape_is batch_controls [N; timesteps; control_dim]) "" in
          let* first_states := select_dim1 batch_states 0 in
          check assert (shape_is first_states [N; state_dim]) "" in
          check assert (length (label_deltas batch_states) =? timesteps - 1)%nat "" in
          let* st := for_each (timestep loss_type model batch_states batch_controls N state_dim)
                       {| prev_states := first_states; losses := [];
                          magnitude_losses := []; direction_losses := [];
                          pred_deltas := [] |}
                       (range 1 timesteps) in
          check assert (length (pred_deltas st) =? timesteps - 1)%nat "" in
          let* loss := mean_stack (losses st) in
          Returns (loss, st)
      | _ => Raises ValueError
      end
  | _ => Raises ValueError
  end.

Definition nonempty {A} (l : list A) : bool := match l with [] => false | _ => true end.

Definition batch_body (log_interval : nat) (loss_type optim_name : string)
    (buddy : Buddy) (epoch_losses : list R) (batch : Batch) : Buddy * result (list R) :=
  match batch_loss loss_type (pf_model (optimizer_steps buddy)) batch with
  | Raises e => (buddy, Raises e)
  | Returns (loss, st) =>
      let buddy := minimize buddy loss optim_name in
      let names :=
        ["Training loss"; "Label delta mean"; "Label delta std";
         "Pred delta mean"; "Pred delta std"]
        ++ (if nonempty (magnitude_losses st) then ["Magnitude loss"] else [])
        ++ (if nonempty (direction_losses st) then ["Direction loss"] else []) in
      match log_every buddy log_interval optim_name names with
      | (buddy, Returns _) => (buddy, Returns (epoch_losses ++ [loss]))
      | (buddy, Raises e) => (buddy, Raises e)
      end
  end.

Definition loss_types : list string := ["l1"; "l2"; "huber"; "peter"].

(** Defaults: [log_interval=10], [loss_type="l1"],
    [optim_name="dynamics_recurrent"]. *)
Definition train_dynamics_recurrent (buddy : Buddy) (dataloader : list Batch)
    (log_interval : nat) (loss_type optim_name : string) : Buddy * result unit :=
  if negb (existsb (String.eqb loss_type) loss_types)
  then (buddy, Raises (AssertionError ""))
  else
    match for_each_batch (batch_body log_interval loss_type optim_name)
            buddy [] dataloader with
    | (buddy, Returns epoch_losses) => (buddy, Returns tt)
    | (buddy, Raises e) => (buddy, Raises e)
    end.

End WithModel.
End TrainDynamicsRecurrent.

(** ** [train_e2e] *)

Module TrainE2E.
Section WithModel.

Context {Obs BatchObs : Type}.

(** [pf_model] as it is after [k] optimizer steps when called for timestep
    [t]: its parameters change with every optimizer step and its random
    draws with every call. *)
Variable pf_model : nat -> nat -> ParticleFilterNetwork Obs.
(** [utils.DictIterator(batch_obs)[:, t, :]] *)
Variable dict_slice : BatchObs -> nat -> result Obs.
(** [dpf.gmm_loss(particles_states, log_weights, true_states, gmm_variances)] *)
Variable gmm_loss : Var -> Var -> Tensor -> list R -> result R.
(** [torch.mean((state_estimates - true_states) ** 2)] *)
Variable squared_error : Var -> Tensor -> result R.

(** The keyword arguments of [train_e2e]. *)
Record Args := {
  log_interval : nat;
  loss_type : string;
  optim_name : string;
  resample : bool;
  know_image_blackout : bool
}.

Definition defaults : Args :=
  {| log_interval := 2; loss_type := "mse"; optim_name := "e2e";
     resample := false; know_image_blackout := false |}.

(** A batch: [(batch_particles, batch_states, batch_obs, batch_controls)]. *)
Definition Batch : Type := Tensor * Tensor * BatchObs * Tensor.

(** The variables that the loop over [t] updates. *)
Record Carried := {
  particles : Var;
  log_weights : Var;
  losses : list R
}.

Definition timestep (args : Args) (model_at : nat -> ParticleFilterNetwork Obs)
    (batch_states : Tensor) (batch_obs : BatchObs) (batch_controls : Tensor)
    (st : Carried) (t : nat) : result Carried :=
  let prev_particles := particles st in
  let prev_log_weights := log_weights st in
  let* observations := dict_slice batch_obs (t - 1) in
  let* controls := select_dim1 batch_controls t in
  let* (state_estimates, new_particles, new_log_weights) :=
    forward (model_at t) prev_particles prev_log_weights observations controls
      (resample args) true
      (if know_image_blackout args then Some true else None) in
  let* loss :=
    if (loss_type args =? "gmm")%string then
      let* true_states := select_dim1 batch_states t in
      gmm_loss new_particles new_log_weights true_states [0.1]
    else if (loss_type args =? "mse")%string then
      let* true_states := select_dim1 batch_states t in
      squared_error state_estimates true_states
    else Raises (AssertionError "Invalid loss") in
  (* Enable backprop through time *)
  Returns {| particles := new_particles;
             log_weights := new_log_weights;
             losses := losses st ++ [loss] |}.

(** One batch up to the end of the loop over [t]. *)
Definition batch_steps (args : Args) (model_at : nat -> ParticleFilterNetwork Obs)
    (batch : Batch) : result Carried :=
  let '(batch_particles, batch_states, batch_obs, batch_controls) := batch in
  match shape batch_controls with
  | [_; _; control_dim] =>
      match shape batch_states with
      | [_; timesteps; _] =>
          match shape batch_particles with
          | [N; M; state_dim] =>
              check assert (shape_is batch_controls [N; timesteps; control_dim]) "" in
              for_each (timestep args model_at batch_states batch_obs batch_controls)
                {| particles := constant batch_particles;
                   log_weights := constant (uniform_log_weights N M);
                   losses := [] |}
                (range 1 timesteps)
          | _ => Raises ValueError
          end
      | _ => Raises ValueError
      end
  | _ => Raises ValueError
  end.

(** The state between batches is the binding of the local variable
    [losses]: [None] until a first batch has assigned it. *)
Definition batch_body (args : Args) (buddy : Buddy) (bound : option (list R))
    (batch : Batch) : Buddy * result (option (list R)) :=
  match batch_steps args (pf_model (optimizer_steps buddy)) batch with
  | Raises e => (buddy, Raises e)
  | Returns st =>
      match mean_stack (losses st) with
      | Raises e => (buddy, Raises e)
      | Returns loss =>
          let buddy := minimize buddy loss (optim_name args) in
          match log_every buddy (log_interval args) (optim_name args)
                  ["Training loss"; "Log weights mean"; "Log weights std";
                   "Particle states mean"; "particle states std"] with
          | (buddy, Returns _) => (buddy, Returns (Some (losses st)))
          | (buddy, Raises e) => (buddy, Raises e)
          end
      end
  end.

Definition train_e2e (buddy : Buddy) (dataloader : list Batch) (args : Args)
    : Buddy * result unit :=
  match for_each_batch (batch_body args) buddy None dataloader with
  | (buddy, Returns (Some losses)) => (buddy, Returns tt)
  | (buddy, Returns None) => (buddy, Raises (UnboundLocalError "losses"))
  | (buddy, Raises e) => (buddy, Raises e)
  end.

End WithModel.
End TrainE2E.

(** ** [rollout] *)

Module Rollout.
Section WithModel.

Context {ObsT Obs TrajObs : Type}.

(** [pf_model] at the call made for timestep [t] (its random draws differ
    from call to call). *)
Variable pf_model : nat -> ParticleFilterNetwork Obs.
(** [utils.DictIterator(observations)[t]] *)
Variable obs_at : TrajObs -> nat -> result ObsT.
(** The observations of the [N] trajectories at one timestep, appended to
    the dictionary [o] one by one, then converted to numpy and to torch. *)
Variable collate : list ObsT -> Obs.

(** A trajectory: [(states, observations, controls)], the states and the
    controls one row per timestep. *)
Definition Trajectory : Type := list (list R) * TrajObs * list (list R).

(** [l[i]] *)
Definition item {A} (l : list A) (i : nat) : result A :=
  match nth_error l i with
  | Some x => Returns x
  | None => Raises IndexError
  end.

(** [np.array(rows)] for a list of vectors *)
Definition np_array2 (rows : list (list R)) : result Tensor :=
  match rows with
  | [] => Returns (T1 0 [])
  | r :: _ =>
      if wf2 (length rows) (length r) rows
      then Returns (T2 (length rows) (length r) rows)
      else Raises ValueError
  end.

(** [np.array(seqs)] for a list of lists of vectors *)
Definition np_array3 (seqs : list (list (list R))) : result Tensor :=
  match seqs with
  | [] => Returns (T1 0 [])
  | [] :: _ =>
      if forallb (fun q => (length q =? 0)%nat) seqs
      then Returns (T2 (length seqs) 0 (map (fun _ => []) seqs))
      else Raises ValueError
  | (r :: _) :: _ =>
      if wf3 (length seqs) (length (hd [] seqs)) (length r) seqs
      then Returns (T3 (length seqs) (length (hd [] seqs)) (length r) seqs)
      else Raises ValueError
  end.

(** [np.random.normal(0, scale, size=(N, M, D))] *)
Definition normal (scale : R) (N M D : nat) (z : Draws) : list (list (list R)) :=
  tabulate N (fun n => tabulate M (fun m => tabulate D (fun d => 0 + scale * z n m d))).

(** [np.zeros((N, M, D))] *)
Definition zeros (N M D : nat) : list (list (list R)) := repeat (repeat (repeat 0 D) M) N.

(** [particles[i, :] = trajectories[i][0][0]]: the first state of the
    trajectory, broadcast over the [M] particles. *)
Definition set_initial (trajectories : list Trajectory) (M state_dim : nat)
    (particles : list (list (list R))) (i : nat) : result (list (list (list R))) :=
  let* traj := item trajectories i in
  let* first := item (fst (fst traj)) 0 in
  if expandable state_dim (length first)
  then Returns (<[i := repeat (expand_to state_dim (length first) first) M]> particles)
  else Raises ValueError.

Definition add3 (x y : list (list (list R))) : list (list (list R)) :=
  zip_with (zip_with vadd) x y.

Definition initial_particles (trajectories : list Trajectory) (N M state_dim : nat)
    (true_initial : bool) (z : Draws) : result (list (list (list R))) :=
  let particles := zeros N M state_dim in
  if true_initial then
    let* particles := for_each (set_initial trajectories M state_dim) particles (range 0 N) in
    Returns (add3 particles (normal 0.1 N M state_dim z))
  else
    (* Distribute initial particles randomly *)
    Returns (add3 particles (normal 1.0 N M state_dim z)).

(** [np.mean(ps, axis=0)] for the [(M, D)] particles [ps] of one trajectory *)
Definition particle_mean (state_dim : nat) (ps : list (list R)) : list R :=
  tabulate state_dim (fun d => mean (map (fun p => nth d p 0) ps)).

(** The variables that the loop over [t] updates. *)
Record Filtering := {
  particles : Var;
  log_weights : Var;
  predicted_states : list (list (list R))
}.

(** The loop over the trajectories that fills [s], [o] and [c]. *)
Definition gather (start_time t : nat) (predicted_states : list (list (list R)))
    (acc : list (list R) * list ObsT * list (list R)) (it : nat * Trajectory)
    : result (list (list R) * list ObsT * list (list R)) :=
  let '(s, o, c) := acc in
  let '(i, (states, observations, controls)) := it in
  let* predicted_i := item predicted_states i in
  let* s_i := item predicted_i (t - start_time - 1) in
  let* o_t := obs_at observations t in
  let* c_t := item controls t in
  Returns (s ++ [s_i], o ++ [o_t], c ++ [c_t]).

(** [utils.to_numpy(state_estimates[i])]; an estimate that is not a matrix
    has no vector rows, and [np.array(predicted_states)] could not stack
    what it would contribute. *)
Definition estimate_row (state_estimates : Var) (i : nat) : result (list R) :=
  match data state_estimates with
  | T2 _ _ v => item v i
  | _ => Raises ValueError
  end.

(** [predicted_states[i].append(utils.to_numpy(state_estimates[i]))] *)
Definition append_estimate (state_estimates : Var)
    (predicted_states : list (list (list R))) (i : nat)
    : result (list (list (list R))) :=
  let* row := estimate_row state_estimates i in
  let* predicted_i := item predicted_states i in
  Returns (<[i := predicted_i ++ [row]]> predicted_states).

Definition enumerate {A} (l : list A) : list (nat * A) := imap (fun i x => (i, x)) l.

Definition timestep (trajectories : list Trajectory) (start_time : nat)
    (noisy_dynamics : bool) (st : Filtering) (t : nat) : result Filtering :=
  let* (s, o, c) := for_each (gather start_time t (predicted_states st))
                      ([], [], []) (enumerate trajectories) in
  let* s := np_array2 s in
  let* c := np_array2 c in
  let* (state_estimates, new_particles, new_log_weights) :=
    forward (pf_model t) (particles st) (log_weights st) (collate o) c
      true noisy_dynamics None in
  let* extended :=
    for_each (append_estimate state_estimates) (predicted_states st)
      (range 0 (length trajectories)) in
  Returns {| particles := new_particles;
             log_weights := new_log_weights;
             predicted_states := extended |}.

(** [np.min([len(s) for s, _, _ in trajectories] + [start_time + max_timesteps])] *)
Definition end_time_of (trajectories : list Trajectory) (start_time max_timesteps : nat) : nat :=
  fold_right Nat.min (start_time + max_timesteps)%nat
    (map (fun traj : Trajectory => length (fst (fst traj))) trajectories).

(** Defaults: [start_time=0], [max_timesteps=300], [particle_count=100],
    [noisy_dynamics=True], [true_initial=False].  The times and the particle
    count are taken as natural numbers. *)
Definition rollout (trajectories : list Trajectory)
    (start_time max_timesteps particle_count : nat)
    (noisy_dynamics true_initial : bool) (z : Draws) : result (Tensor * Tensor) :=
  (* To make things easier, we're going to cut all our trajectories to the
     same length *)
  let end_time := end_time_of trajectories start_time max_timesteps in
  let actual_states :=
    map (fun traj : Trajectory => slice start_time end_time (fst (fst traj))) trajectories in
  let* first_trajectory := item actual_states 0 in
  let* first_state := item first_trajectory 0 in
  let state_dim := length first_state in
  let N := length trajectories in
  let M := particle_count in
  let* device := match parameters (pf_model start_time) with
                 | [] => Raises StopIteration
                 | p :: _ => Returns tt
                 end in
  let* particles := initial_particles trajectories N M state_dim true_initial z in
  (* Populate the initial state estimate as just the estimate of our particles *)
  let initial_estimates :=
    map (fun i => [particle_mean state_dim (nth i particles [])]) (range 0 (length trajectories)) in
  let* st := for_each (timestep trajectories start_time noisy_dynamics)
               {| particles := constant (T3 N M state_dim particles);
                  log_weights := constant (uniform_log_weights N M);
                  predicted_states := initial_estimates |}
               (range (start_time + 1) end_time) in
  let* predicted := np_array3 (predicted_states st) in
  let* actual := np_array3 actual_states in
  Returns (predicted, actual).

End WithModel.
End Rollout.

(** ** [train_dynamics] and [train_measurement]

    [torch.mean((x - y) ** 2)] and [F.mse_loss(x, y)]: for two tensors of
    one shape, the mean of the squared differences; for two shapes that
    differ PyTorch broadcasts them or raises, which is left to
    [broadcast]. *)
Definition mean_squared_error (broadcast : Tensor -> Tensor -> result R)
    (x y : Tensor) : result R :=
  if bool_decide (shape x = shape y) then Returns (mse_loss x y) else broadcast x y.

Module TrainDynamics.
Section WithModel.

Context {Obs BatchObs : Type}.
Variable broadcast : Tensor -> Tensor -> result R.

(** A batch: [(prev_states, _unused_observations, controls, new_states)],
    the previous states a matrix given by its shape [(N, state_dim)] and its
    rows. *)
Definition Batch : Type := (nat * nat * list (list R)) * BatchObs * Tensor * Tensor.

(** [prev_states += np.random.normal(0, 0.05, size=prev_states.shape)],
    with [z n d] the standard normal draw for entry [(n, d)]. *)
Definition add_noise (N D : nat) (prev_states : list (list R)) (z : nat -> nat -> R)
    : list (list R) :=
  zip_with (zip_with Rplus) prev_states
    (tabulate N (fun n => tabulate D (fun d => 0 + 0.05 * z n d))).

(** One batch up to [loss = mse_pos]: the prediction and the loss. *)
Definition batch_loss (model : ParticleFilterNetwork Obs) (z : nat -> nat -> R)
    (batch : Batch) : result (Tensor * R) :=
  let '((N, D, prev_states), _unused_observations, controls, new_states) := batch in
  let prev_states := T2 N D (add_noise N D prev_states z) in
  let* prev_states := unsqueeze_dim1 prev_states in
  let* new_states_pred := dynamics_model model prev_states controls false in
  let* new_states_pred := squeeze_dim1 new_states_pred in
  let* mse_pos := mean_squared_error broadcast new_states_pred new_states in
  Returns (new_states_pred, mse_pos).

End WithModel.
End TrainDynamics.

Module TrainMeasurement.
Section WithModel.

Context {Obs Extra : Type}.

(** [pf_model.measurement_model] with the parameters that the given number
    of optimizer steps has left it. *)
Variable measurement_model : nat -> Obs -> Tensor -> result Tensor.
Variable broadcast : Tensor -> Tensor -> result R.

(** A batch: [(noisy_states, observations, log_likelihoods, _)], the noisy
    states a matrix given by its shape [(N, state_dim)] and its rows. *)
Definition Batch : Type := (nat * nat * list (list R)) * Obs * Tensor * Extra.

(** One batch up to [loss = torch.mean(...)]: the predictions and the loss. *)
Definition batch_loss (steps : nat) (batch : Batch) : result (Tensor * R) :=
  let '((N, D, noisy_states), observations, log_likelihoods, _) := batch in
  let* noisy_states := unsqueeze_dim1 (T2 N D noisy_states) in
  let* pred_likelihoods := measurement_model steps observations noisy_states in
  check assert (length (shape pred_likelihoods) =? 2)%nat "" in
  let* pred_likelihoods := squeeze_dim1 pred_likelihoods in
  let* loss := mean_squared_error broadcast pred_likelihoods log_likelihoods in
  Returns (pred_likelihoods, loss).

Definition log_names : list string :=
  ["Training loss"; "Pred likelihoods mean"; "Pred likelihoods std";
   "Label likelihoods mean"; "Label likelihoods std"].

Definition batch_body (log_interval : nat) (optim_name : string)
    (buddy : Buddy) (losses : list R) (batch : Batch) : Buddy * result (list R) :=
  match batch_loss (optimizer_steps buddy) batch with
  | Raises e => (buddy, Raises e)
  | Returns (_, loss) =>
      let buddy := minimize buddy loss optim_name in
      match log_every buddy log_interval optim_name log_names with
      | (buddy, Returns _) => (buddy, Returns (losses ++ [loss]))
      | (buddy, Raises e) => (buddy, Raises e)
      end
  end.

(** Defaults: [log_interval=10], [optim_name="measurement"]. *)
Definition train_measurement (buddy : Buddy) (dataloader : list Batch)
    (log_interval : nat) (optim_name : string) : Buddy * result unit :=
  match for_each_batch (batch_body log_interval optim_name) buddy [] dataloader with
  | (buddy, Returns losses) => (buddy, Returns tt)
  | (buddy, Raises e) => (buddy, Raises e)
  end.

End WithModel.
End TrainMeasurement.

(** ** Small models and data, used to run the definitions *)

(** A layer stack whose every output is the sum of its inputs (linear
    layers with all weights 1 and no bias). *)
Definition sum_layers (i o : nat) : Net i o :=
  {| net_fun := fun v => repeat (sum v) o;
     net_len := fun v _ => repeat_length (sum v) o |}.

(** A layer stack with all weights and biases 0. *)
Definition zero_layers (i o : nat) : Net i o :=
  {| net_fun := fun _ => repeat 0 o;
     net_len := fun v _ => repeat_length 0 o |}.

Definition small_dynamics : PandaDynamicsModel.t :=
  {| PandaDynamicsModel.state_noise_stddev := PandaDynamicsModel.default_state_noise_stddev;
     PandaDynamicsModel.units := 4;
     PandaDynamicsModel.state_layers := sum_layers _ _;
     PandaDynamicsModel.control_layers := sum_layers _ _;
     PandaDynamicsModel.shared_layers := sum_layers _ _ |}.

Definition small_measurement : PandaMeasurementModel.t :=
  {| PandaMeasurementModel.units := 2;
     PandaMeasurementModel.image_conv := fun img => img;
     PandaMeasurementModel.image_conv_shape := fun H W img ok => ok;
     PandaMeasurementModel.image_linear := zero_layers _ _;
     PandaMeasurementModel.observation_pos_layers := zero_layers _ _;
     PandaMeasurementModel.observation_sensors_layers := zero_layers _ _;
     PandaMeasurementModel.state_layers := sum_layers _ _;
     PandaMeasurementModel.shared_layers := sum_layers _ _ |}.

(** A particle whose entries 2 and 3 are a (cos, sin) pair, within 1e-6. *)
Definition cos_sin_unit (p : list R) : Prop :=
  Rabs (nth 2 p 0 * nth 2 p 0 + nth 3 p 0 * nth 3 p 0 - 1) <= 1e-6.

(** The state delta that the learned dynamics predicts for one particle [p]
    of a trajectory with control [c]. *)
Definition predicted_delta (self : PandaDynamicsModel.t) (c p : list R) : list R :=
  PandaDynamicsModel.shared_layers self
    (PandaDynamicsModel.control_layers self c ++ PandaDynamicsModel.state_layers self p).

(** The observation features of one trajectory, and the score the
    measurement model gives one particle [p] against them. *)
Definition trajectory_features (self : PandaMeasurementModel.t)
    (image : list (list R)) (gripper_pos gripper_sensors : list R) : list R :=
  (PandaMeasurementModel.image_linear self
     (concat (PandaMeasurementModel.image_conv self image))
   ++ PandaMeasurementModel.observation_pos_layers self gripper_pos)
  ++ PandaMeasurementModel.observation_sensors_layers self gripper_sensors.

Definition particle_score (self : PandaMeasurementModel.t) (features p : list R) : R :=
  nth 0 (PandaMeasurementModel.shared_layers self
           (features ++ PandaMeasurementModel.state_layers self p)) 0.

Definition zip3 {A B C D} (f : A -> B -> C -> D) (x : list A) (y : list B) (w : list C)
    : list D :=
  zip_with (fun ab c => f (fst ab) (snd ab) c) (zip_with pair x y) w.

(** The size of the last axis. *)
Definition last_dim (x : Tensor) : nat :=
  match x with
  | T1 d0 _ => d0
  | T2 _ d1 _ => d1
  | T3 _ _ d2 _ => d2
  end.

Definition blank_image (H W : nat) : list (list R) := repeat (repeat 0 W) H.

(** One trajectory's observation with a blank [H] by [W] image. *)
Definition blank_observations (H W : nat) : gmap string Tensor :=
  {[ "image"%string := T3 1 H W [blank_image H W];
     "gripper_pos"%string := T2 1 3 [[0; 0; 0]];
     "gripper_sensors"%string := T2 1 7 [[0; 0; 0; 0; 0; 0; 0]] ]}.

(** A filter that keeps the particles and weights it is given and estimates
    the state by the plain particle mean; its outputs are part of the
    autograd graph.  Its dynamics model is the simple one. *)
Definition mean_filter : ParticleFilterNetwork (gmap string Tensor) :=
  {| parameters := [T1 1 [0]];
     dynamics_model := fun states_prev controls noisy =>
       PandaSimpleDynamicsModel.forward (PandaSimpleDynamicsModel.init None)
         states_prev controls noisy (fun _ _ _ => 0);
     forward := fun states_prev log_weights_prev observations controls
                    resample noisy_dynamics know_image_blackout =>
       match data states_prev with
       | T3 N M D v =>
           Returns ({| data := T2 N D (map (Rollout.particle_mean D) v);
                       requires_grad := true |},
                    {| data := data states_prev; requires_grad := true |},
                    {| data := data log_weights_prev; requires_grad := true |})
       | _ => Raises (AssertionError "")
       end |}.

(** Two trajectories, three timesteps, two state dimensions, seven controls. *)
Definition sample_states : Tensor :=
  T3 2 3 2 [[[0; 0]; [1; 0]; [2; 0]]; [[0; 1]; [0; 2]; [0; 3]]].
Definition sample_controls : Tensor :=
  T3 2 3 7 (repeat (repeat (repeat 0 7) 3) 2).
Definition sample_particles : Tensor :=
  T3 2 2 2 [[[0; 0]; [1; 1]]; [[0; 1]; [1; 0]]].

Definition fresh_buddy : Buddy := {| optimizer_steps := 0; minimized := []; logged := [] |}.

(** Collaborators of [train_e2e] for the runs below: every timestep sees the
    same observation, the GMM loss is constantly 0 and the squared error is
    that of the estimate. *)
Definition same_observations (batch_obs : gmap string Tensor) (t : nat)
    : result (gmap string Tensor) := Returns batch_obs.
Definition zero_gmm_loss (particles_states log_weights : Var) (true_states : Tensor)
    (gmm_variances : list R) : result R := Returns 0.
Definition estimate_squared_error (state_estimates : Var) (true_states : Tensor)
    : result R := Returns (mse_loss (data state_estimates) true_states).

(** The keyword arguments of [train_e2e(..., loss_type='l1')], a loss type
    that [train_e2e] does not know, and a first batch. *)
Definition l1_args : TrainE2E.Args :=
  {| TrainE2E.log_interval := 2; TrainE2E.loss_type := "l1";
     TrainE2E.optim_name := "e2e"; TrainE2E.resample := false;
     TrainE2E.know_image_blackout := false |}.

Definition sample_e2e_batch : TrainE2E.Batch :=
  (sample_particles, sample_states, blank_observations 32 32, sample_controls).

(** A batch with a single timestep. *)
Definition single_timestep_batch : TrainE2E.Batch :=
  (sample_particles, T3 2 1 2 [[[0; 0]]; [[0; 1]]], blank_observations 32 32,
   T3 2 1 7 (repeat (repeat (repeat 0 7) 1) 2)).

(** The loop variables of [train_e2e] before the first timestep of
    [sample_e2e_batch]. *)
Definition first_carried : TrainE2E.Carried :=
  {| TrainE2E.particles := constant sample_particles;
     TrainE2E.log_weights := constant (uniform_log_weights 2 2);
     TrainE2E.losses := [] |}.

(** ** The rollout as the filter's estimates, one per timestep

    The filter applied over the timesteps [ts] with [resample=True], each
    time to the particles and log-weights of the step before, and the
    estimates it returns collected in order. *)
Fixpoint filter_estimates {Obs} (pf_model : nat -> ParticleFilterNetwork Obs)
    (inputs : nat -> Obs * Tensor) (noisy_dynamics : bool)
    (particles log_weights : Var) (ts : list nat) : result (list Var) :=
  match ts with
  | [] => Returns []
  | t :: rest =>
      let* (state_estimates, new_particles, new_log_weights) :=
        forward (pf_model t) particles log_weights (fst (inputs t)) (snd (inputs t))
          true noisy_dynamics None in
      let* later := filter_estimates pf_model inputs noisy_dynamics
                      new_particles new_log_weights rest in
      Returns (state_estimates :: later)
  end.

(** Row [i] of an estimate of shape [(N, D)]. *)
Definition row_of (state_estimates : Var) (i : nat) : list R :=
  match data state_estimates with
  | T2 _ _ v => nth i v []
  | _ => []
  end.

(** The predicted sequence of every trajectory: its initial particle mean,
    then its row of each estimate. *)
Definition predicted_from (means : list (list R)) (estimates : list Var)
    : list (list (list R)) :=
  imap (fun i m => m :: map (fun est => row_of est i) estimates) means.

(** States of [D] entries, one control of [C] entries for each state. *)
Definition wf_trajectory {TrajObs} (D C : nat)
    (traj : list (list R) * TrajObs * list (list R)) : bool :=
  forallb (wf1 D) (fst (fst traj))
  && (length (snd traj) =? length (fst (fst traj)))%nat
  && forallb (wf1 C) (snd traj).

(** The observations and controls of all trajectories at timestep [t], as
    the filter receives them. *)
Definition inputs_at {ObsT Obs TrajObs} (collate : list ObsT -> Obs)
    (observation : Rollout.Trajectory (TrajObs := TrajObs) -> nat -> ObsT)
    (trajectories : list (Rollout.Trajectory (TrajObs := TrajObs)))
    (C t : nat) : Obs * Tensor :=
  (collate (map (fun traj => observation traj t) trajectories),
   T2 (length trajectories) C
      (map (fun traj : Rollout.Trajectory => nth t (snd traj) []) trajectories)).

(** An estimate of shape [(N, D)], and well-formed particles of shape
    [(N, M, D)]. *)
Definition estimate_ok (N D : nat) (est : Var) : Prop :=
  exists e, data est = T2 N D e /\ wf2 N D e = true.

Definition particles_ok (N M D : nat) (p : Var) : Prop :=
  shape (data p) = [N; M; D] /\ wf (data p) = true.

(** Two trajectories for [rollout], of 3 and 4 timesteps, with the same
    observation at every timestep; the filter is shown the observation of
    the first trajectory. *)
Definition sample_trajectories : list (Rollout.Trajectory (TrajObs := gmap string Tensor)) :=
  [([[0; 0]; [1; 0]; [2; 0]], blank_observations 32 32, [[0]; [0]; [0]]);
   ([[0; 1]; [0; 2]; [0; 3]; [0; 4]], blank_observations 32 32, [[1]; [1]; [1]; [1]])].

Definition first_of (l : list (gmap string Tensor)) : gmap string Tensor :=
  match l with
  | [] => empty
  | o :: _ => o
  end.

(** The sum of the squares of the entries 2 and 3 of all particles: the
    square of the norm that the simple dynamics model divides by. *)
Definition cos_sin_energy (x : Tensor) : R :=
  match x with
  | T3 _ _ _ v => sum (map (fun e => e * e) (concat (concat (map (map (slice 2 4)) v))))
  | _ => 0
  end.

(** The scalars that [train_e2e] logs at one logging step. *)
Definition e2e_log_names : list string :=
  ["Training loss"; "Log weights mean"; "Log weights std";
   "Particle states mean"; "particle states std"].

(** A filter whose dynamics model is the learned one with the layers of
    [small_dynamics]; its filtering step is that of [mean_filter]. *)
Definition learned_filter : ParticleFilterNetwork (gmap string Tensor) :=
  {| parameters := [T1 1 [0]];
     dynamics_model := fun states_prev controls noisy =>
       PandaDynamicsModel.forward small_dynamics states_prev controls noisy
         (fun _ _ _ => 0);
     forward := forward mean_filter |}.

(** Broadcasting left out: the runs below compare tensors of one shape. *)
Definition no_broadcast (x y : Tensor) : result R := Raises RuntimeError.

(** A batch of [train_dynamics] and a batch of [train_measurement], two
    samples each. *)
Definition sample_dynamics_batch : TrainDynamics.Batch (BatchObs := gmap string Tensor) :=
  ((2%nat, 2%nat, [[0; 0]; [1; 1]]), blank_observations 32 32,
   T2 2 7 (repeat (repeat 0 7) 2), T2 2 2 [[1; 0]; [0; 2]]).

Definition sample_measurement_batch
    : TrainMeasurement.Batch (Obs := gmap string Tensor) (Extra := unit) :=
  ((2%nat, 2%nat, [[0; 0]; [1; 1]]), blank_observations 32 32, T1 2 [0; 0], tt).

(** The loss that [train_dynamics_recurrent] takes at one timestep between
    the propagated states and the states of the batch, for the three loss
    types that are implemented. *)
Definition recurrent_timestep_loss (loss_type : string) (new_states target : Tensor) : R :=
  if (loss_type =? "l1")%string then l1_loss new_states target
  else if (loss_type =? "l2")%string then mse_loss new_states target
  else smooth_l1_loss target new_states.

(** A filter that honours [resample]: its new particles are computed from the
    learned models and are part of the autograd graph; its log-weights are
    part of the graph too, unless it resamples, which resets them to the
    constant [-log(M)]. *)
Definition resampling_filter : ParticleFilterNetwork (gmap string Tensor) :=
  {| parameters := [T1 1 [0]];
     dynamics_model := dynamics_model mean_filter;
     forward := fun states_prev log_weights_prev observations controls
                    resample noisy_dynamics know_image_blackout =>
       match data states_prev with
       | T3 N M D v =>
           Returns ({| data := T2 N D (map (Rollout.particle_mean D) v);
                       requires_grad := true |},
                    {| data := data states_prev; requires_grad := true |},
                    if resample then constant (uniform_log_weights N M)
                    else {| data := data log_weights_prev; requires_grad := true |})
       | _ => Raises (AssertionError "")
       end |}.

(** * Properties *)

Lemma shape_is_true x s : shape x = s -> shape_is x s = true.
Proof. intros H. unfold shape_is. now apply bool_decide_eq_true_2. Qed.

Lemma shape_is_false x s : shape x <> s -> shape_is x s = false.
Proof. intros H. unfold shape_is. now apply bool_decide_eq_false_2. Qed.

Lemma expand_to_same {A} n (l : list A) : expand_to n n l = l.
Proof. unfold expand_to. now rewrite Nat.eqb_refl. Qed.

Lemma expandable_same n : expandable n n = true.
Proof. unfold expandable. now rewrite Nat.eqb_refl. Qed.

(** ** The simple dynamics model *)

(** C8: with [noisy=False] the identity-plus-noise model returns
    [states_prev] itself, whatever the controls, as soon as the state
    dimension is the length of the noise tuple. *)
Theorem simple_forward_noiseless_identity
    (self : PandaSimpleDynamicsModel.t) (states_prev controls : Tensor)
    (N M D : nat) (z : Draws) :
  shape states_prev = [N; M; D] ->
  D = length (PandaSimpleDynamicsModel.state_noise_stddev self) ->
  PandaSimpleDynamicsModel.forward self states_prev controls false z = Returns states_prev.
Proof.
  intros Hshape HD. unfold PandaSimpleDynamicsModel.forward.
  rewrite Hshape. cbn [length Nat.eqb assert bind].
  subst D. now rewrite Nat.eqb_refl.
Qed.

Lemma simple_forward_noiseless_identity_witness :
  PandaSimpleDynamicsModel.forward (PandaSimpleDynamicsModel.init None)
    (T3 1 2 2 [[[1; 2]; [3; 4]]]) (T2 1 7 [[0; 0; 0; 0; 0; 0; 0]]) false (fun _ _ _ => 1)
  = Returns (T3 1 2 2 [[[1; 2]; [3; 4]]]).
Proof.
  apply (simple_forward_noiseless_identity _ _ _ 1%nat 2%nat 2%nat); reflexivity.
Defined.

Lemma half_of_global_norm (a b s : R) :
  0 < a * a + b * b -> s = sqrt (a * a + b * b + (a * a + b * b)) ->
  (a / s) * (a / s) + (b / s) * (b / s) = 1 / 2.
Proof.
  intros Hpos Hs.
  assert (Hss : s * s = a * a + b * b + (a * a + b * b)).
  { subst s. apply sqrt_sqrt. lra. }
  assert (Hne : s <> 0).
  { intros H0. rewrite H0 in Hss. lra. }
  replace (a / s * (a / s) + b / s * (b / s)) with ((a * a + b * b) / (s * s))
    by (field; exact Hne).
  rewrite Hss. field. lra.
Qed.

(** C1 at a failing input: two particles of one trajectory, both with the
    angle encoding (0.6, 0.8), noise standard deviations (0.05, 0.05, 0.1, 0.1)
    and every standard normal draw equal to 1.  The forward pass returns, and
    because it divides by one norm taken over both particles, each comes out
    with [cos^2 + sin^2 = 1/2], not 1 within 1e-6. *)
Theorem simple_forward_cos_sin_not_unit :
  exists out,
    PandaSimpleDynamicsModel.forward
      (PandaSimpleDynamicsModel.init (Some [0.05; 0.05; 0.1; 0.1]))
      (T3 1 2 4 [[[0; 0; 0.6; 0.8]; [0; 0; 0.6; 0.8]]])
      (T2 1 7 [[0; 0; 0; 0; 0; 0; 0]]) true (fun _ _ _ => 1)
    = Returns (T3 1 2 4 [out])
    /\ (forall p, In p out -> nth 2 p 0 * nth 2 p 0 + nth 3 p 0 * nth 3 p 0 = 1 / 2)
    /\ (forall p, In p out -> ~ cos_sin_unit p)
    /\ length out = 2%nat.
Proof.
  eexists. split; [reflexivity|].
  assert (Hhalf : forall p,
    In p [PandaSimpleDynamicsModel.scale_cos_sin
            (PandaSimpleDynamicsModel.cos_sin_norm
               (T3 1 2 4 [[[0 + (0 + 0.05 * 1); 0 + (0 + 0.05 * 1);
                            0.6 + (0 + 0.1 * 1); 0.8 + (0 + 0.1 * 1)];
                           [0 + (0 + 0.05 * 1); 0 + (0 + 0.05 * 1);
                            0.6 + (0 + 0.1 * 1); 0.8 + (0 + 0.1 * 1)]]]))
            [0 + (0 + 0.05 * 1); 0 + (0 + 0.05 * 1);
             0.6 + (0 + 0.1 * 1); 0.8 + (0 + 0.1 * 1)];
          PandaSimpleDynamicsModel.scale_cos_sin
            (PandaSimpleDynamicsModel.cos_sin_norm
               (T3 1 2 4 [[[0 + (0 + 0.05 * 1); 0 + (0 + 0.05 * 1);
                            0.6 + (0 + 0.1 * 1); 0.8 + (0 + 0.1 * 1)];
                           [0 + (0 + 0.05 * 1); 0 + (0 + 0.05 * 1);
                            0.6 + (0 + 0.1 * 1); 0.8 + (0 + 0.1 * 1)]]]))
            [0 + (0 + 0.05 * 1); 0 + (0 + 0.05 * 1);
             0.6 + (0 + 0.1 * 1); 0.8 + (0 + 0.1 * 1)]] ->
    nth 2 p 0 * nth 2 p 0 + nth 3 p 0 * nth 3 p 0 = 1 / 2).
  { intros p [<- | [<- | []]];
      cbn [PandaSimpleDynamicsModel.scale_cos_sin firstn skipn slice Nat.sub
           map app nth];
      apply half_of_global_norm;
      try lra;
      cbn; unfold norm, sum; cbn [map fold_right]; f_equal; lra. }
  split; [exact Hhalf|]. split; [|reflexivity].
  intros p Hp Hunit. unfold cos_sin_unit in Hunit.
  rewrite (Hhalf p Hp) in Hunit.
  replace (1 / 2 - 1) with (- (1 / 2)) in Hunit by lra.
  rewrite Rabs_Ropp, Rabs_pos_eq in Hunit; lra.
Qed.

(** C2, as the code has it: the learned dynamics model raises as soon as the
    batch size of [controls] is not the [N] of [states_prev] (an assertion
    failure after the control layers, or their own shape error when the
    controls are not 7 wide), while the simple model never reads [controls]
    and returns the same result for any two of them. *)
Theorem dynamics_forward_rejects_batch_mismatch
    (self : PandaDynamicsModel.t) (simple : PandaSimpleDynamicsModel.t)
    (states_prev controls other_controls : Tensor) (noisy : bool) (z : Draws)
    (N M D Nc C : nat) :
  shape states_prev = [N; M; D] ->
  shape controls = [Nc; C] ->
  Nc <> N ->
  PandaDynamicsModel.forward self states_prev controls noisy z
    = Raises (if (C =? PandaDynamicsModel.control_dim)%nat
              then AssertionError "" else RuntimeError)
  /\ PandaSimpleDynamicsModel.forward simple states_prev controls noisy z
     = PandaSimpleDynamicsModel.forward simple states_prev other_controls noisy z.
Proof.
  intros Hs Hc Hne. split; [|reflexivity].
  unfold PandaDynamicsModel.forward. rewrite Hs, Hc.
  cbn [length Nat.eqb assert bind].
  destruct controls as [? ?|Nc' C' c|? ? ? ?]; try discriminate.
  cbn in Hc. injection Hc as -> ->.
  cbn [apply_net].
  destruct (C =? PandaDynamicsModel.control_dim)%nat; [|reflexivity].
  cbn [bind]. rewrite shape_is_false; [reflexivity|].
  cbn. congruence.
Qed.

Lemma dynamics_forward_rejects_batch_mismatch_witness :
  PandaDynamicsModel.forward small_dynamics (T3 2 1 2 [[[1; 2]]; [[3; 4]]])
    (T2 5 7 (repeat (repeat 0 7) 5)) false (fun _ _ _ => 0)
    = Raises (AssertionError "")
  /\ PandaSimpleDynamicsModel.forward (PandaSimpleDynamicsModel.init None)
       (T3 2 1 2 [[[1; 2]]; [[3; 4]]]) (T2 5 7 (repeat (repeat 0 7) 5)) false
       (fun _ _ _ => 0)
     = PandaSimpleDynamicsModel.forward (PandaSimpleDynamicsModel.init None)
         (T3 2 1 2 [[[1; 2]]; [[3; 4]]]) (T1 0 []) false (fun _ _ _ => 0).
Proof.
  apply (dynamics_forward_rejects_batch_mismatch small_dynamics
           (PandaSimpleDynamicsModel.init None) _ _ _ false _
           2%nat 1%nat 2%nat 5%nat 7%nat);
    [reflexivity | reflexivity | lia].
Defined.

(** Against C2 as stated: the simple model given controls for 5
    trajectories and states for 2 returns normally. *)
Lemma simple_forward_accepts_mismatched_controls :
  PandaSimpleDynamicsModel.forward (PandaSimpleDynamicsModel.init None)
    (T3 2 1 2 [[[1; 2]]; [[3; 4]]]) (T2 5 7 (repeat (repeat 0 7) 5)) false
    (fun _ _ _ => 0)
  = Returns (T3 2 1 2 [[[1; 2]]; [[3; 4]]]).
Proof. reflexivity. Qed.

(** ** The learned dynamics model *)

Lemma wf3_rows N M D (v : list (list (list R))) :
  wf3 N M D v = true -> Forall (fun ps => length ps = M) v.
Proof.
  unfold wf3. intros H. apply andb_true_iff in H as [_ H].
  rewrite forallb_forall in H. apply List.Forall_forall. intros ps Hin.
  specialize (H ps Hin). unfold wf2 in H.
  apply andb_true_iff in H as [H _]. now apply Nat.eqb_eq in H.
Qed.

(** One trajectory: the control features repeated over its [M] particles,
    joined to the state features, passed through the trunk and added to the
    particles. *)
Lemma fuse_one_trajectory (trunk embed : list R -> list R) (cf : list R) (M : nat)
    (ps : list (list R)) :
  length ps = M ->
  zip_with (zip_with Rplus) ps
    (map trunk (zip_with app (repeat cf M) (map embed ps)))
  = map (fun p => vadd p (trunk (cf ++ embed p))) ps.
Proof.
  revert M. induction ps as [|p ps IH]; intros [|M] Hlen; try discriminate; [reflexivity|].
  cbn. f_equal. apply IH. now injection Hlen.
Qed.

Lemma fuse_all_trajectories (trunk embed control : list R -> list R) (M : nat)
    (c : list (list R)) (sp : list (list (list R))) :
  Forall (fun ps => length ps = M) sp ->
  zip_with (zip_with (zip_with Rplus)) sp
    (map (map trunk)
       (zip_with (zip_with app) (map (fun r => repeat r M) (map control c))
          (map (map embed) sp)))
  = zip_with (fun cn ps => map (fun p => vadd p (trunk (control cn ++ embed p))) ps) c sp.
Proof.
  intros Hsp. revert c. induction Hsp as [|ps sp Hps Hsp IH]; intros [|cn c];
    try reflexivity.
  cbn. f_equal; [|apply IH]. now apply fuse_one_trajectory.
Qed.

(** C4: the learned dynamics adds to every particle the delta predicted from
    the control features of its trajectory (one embedding, repeated over the
    [M] particles) joined to the particle's own state features; with
    [noisy=False] that sum is the output, and with [noisy=True] the output is
    that sum plus one draw per particle and dimension. *)
Theorem dynamics_forward_adds_delta_then_noise
    (self : PandaDynamicsModel.t) (N M : nat)
    (sp : list (list (list R))) (c : list (list R)) (z : Draws) :
  (PandaDynamicsModel.units self / 2 + PandaDynamicsModel.units self / 2
   = PandaDynamicsModel.units self)%nat ->
  wf3 N M 2 sp = true ->
  let updated :=
    zip_with (fun cn ps => map (fun p => vadd p (predicted_delta self cn p)) ps) c sp in
  let noise :=
    tabulate N (fun n => tabulate M (fun m =>
      imap (fun d s => 0 + s * z n m d) (PandaDynamicsModel.state_noise_stddev self))) in
  PandaDynamicsModel.forward self (T3 N M 2 sp) (T2 N 7 c) false z
    = Returns (T3 N M 2 updated)
  /\ (length (PandaDynamicsModel.state_noise_stddev self) = 2%nat ->
      PandaDynamicsModel.forward self (T3 N M 2 sp) (T2 N 7 c) true z
      = Returns (T3 N M 2 (zip_with (zip_with (zip_with Rplus)) updated noise)))
  /\ (forall n m cn ps p,
        c !! n = Some cn -> sp !! n = Some ps -> ps !! m = Some p ->
        exists row, updated !! n = Some row
                    /\ row !! m = Some (vadd p (predicted_delta self cn p))).
Proof.
  intros Heven Hwf updated noise.
  assert (Hdet : forall noisy,
    PandaDynamicsModel.forward self (T3 N M 2 sp) (T2 N 7 c) noisy z
    = if noisy
      then (check assert (shape_is (normal_sample
                (PandaDynamicsModel.state_noise_stddev self) N M z) [N; M; 2%nat]) "" in
            tensor_add (T3 N M 2 updated)
              (normal_sample (PandaDynamicsModel.state_noise_stddev self) N M z))
      else Returns (T3 N M 2 updated)).
  { intros noisy. unfold PandaDynamicsModel.forward.
    cbn [shape length Nat.eqb assert bind apply_net PandaDynamicsModel.control_dim].
    rewrite shape_is_true by reflexivity. cbn [assert bind unsqueeze_expand].
    rewrite !expandable_same. cbn [andb bind].
    rewrite shape_is_true by reflexivity.
    cbn [assert bind apply_net PandaDynamicsModel.state_dim Nat.eqb].
    rewrite shape_is_true by reflexivity. cbn [assert bind cat_dim2].
    rewrite !Nat.eqb_refl. cbn [andb bind].
    rewrite shape_is_true by (cbn [shape]; now rewrite Heven).
    cbn [assert bind apply_net].
    replace (_ + _ =? _)%nat with true by (symmetry; now apply Nat.eqb_eq).
    cbn [bind]. rewrite shape_is_true by reflexivity.
    cbn [assert bind]. unfold tensor_add at 1. cbn [tensor_zip].
    rewrite !Nat.eqb_refl. cbn [andb bind].
    rewrite shape_is_true by reflexivity. cbn [assert bind].
    rewrite expand_to_same.
    rewrite (map_ext (fun r => repeat (expand_to _ _ r) M) (fun r => repeat r M))
      by (intros r; now rewrite expand_to_same).
    rewrite fuse_all_trajectories by (eapply wf3_rows; eassumption).
    reflexivity. }
  split; [apply (Hdet false)|]. split.
  - intros Hlen. rewrite (Hdet true). unfold normal_sample. rewrite Hlen.
    rewrite shape_is_true by reflexivity. cbn [assert bind].
    unfold tensor_add. cbn [tensor_zip]. now rewrite !Nat.eqb_refl.
  - intros n m cn ps p Hc Hs Hp. exists (map (fun q => vadd q (predicted_delta self cn q)) ps).
    split.
    + unfold updated. rewrite lookup_zip_with, Hc. cbn. now rewrite Hs.
    + now rewrite list_lookup_fmap, Hp.
Qed.

Lemma dynamics_forward_adds_delta_then_noise_witness :
  PandaDynamicsModel.forward small_dynamics (T3 1 2 2 [[[1; 2]; [3; 4]]])
    (T2 1 7 [[1; 1; 1; 1; 1; 1; 1]]) false (fun _ _ _ => 1)
  = Returns (T3 1 2 2
      (zip_with (fun cn ps => map (fun p => vadd p (predicted_delta small_dynamics cn p)) ps)
         [[1; 1; 1; 1; 1; 1; 1]] [[[1; 2]; [3; 4]]])).
Proof.
  exact (proj1 (dynamics_forward_adds_delta_then_noise small_dynamics 1 2
                  [[[1; 2]; [3; 4]]] [[1; 1; 1; 1; 1; 1; 1]] (fun _ _ _ => 1)
                  eq_refl eq_refl)).
Defined.

(** The learned dynamics only takes 2-dimensional states: its state layers
    read 2 features. *)
Lemma dynamics_forward_needs_two_dims
    (self : PandaDynamicsModel.t) (N M D : nat)
    (sp : list (list (list R))) (c : list (list R)) (noisy : bool) (z : Draws) :
  D <> 2%nat ->
  PandaDynamicsModel.forward self (T3 N M D sp) (T2 N 7 c) noisy z = Raises RuntimeError.
Proof.
  intros HD. unfold PandaDynamicsModel.forward.
  cbn [shape length Nat.eqb assert bind apply_net PandaDynamicsModel.control_dim].
  rewrite shape_is_true by reflexivity. cbn [assert bind unsqueeze_expand].
  rewrite !expandable_same. cbn [andb bind].
  rewrite shape_is_true by reflexivity.
  cbn [assert bind apply_net PandaDynamicsModel.state_dim].
  unfold PandaDynamicsModel.state_dim.
  apply Nat.eqb_neq in HD. now rewrite HD.
Qed.

(** ** The measurement model *)

Lemma score_one_trajectory (trunk embed : list R -> list R) (f : list R) (M : nat)
    (ps : list (list R)) :
  length ps = M ->
  map (fun r => nth 0 r 0) (map trunk (zip_with app (repeat f M) (map embed ps)))
  = map (fun p => nth 0 (trunk (f ++ embed p)) 0) ps.
Proof.
  revert M. induction ps as [|p ps IH]; intros [|M] Hlen; try discriminate; [reflexivity|].
  cbn. f_equal. apply IH. now injection Hlen.
Qed.

Lemma score_all_trajectories (trunk embed : list R -> list R) (M : nat)
    (fs : list (list R)) (st : list (list (list R))) :
  Forall (fun ps => length ps = M) st ->
  map (map (fun r => nth 0 r 0))
    (map (map trunk)
       (zip_with (zip_with app) (map (fun r => repeat r M) fs) (map (map embed) st)))
  = zip_with (fun f ps => map (fun p => nth 0 (trunk (f ++ embed p)) 0) ps) fs st.
Proof.
  intros Hst. revert fs. induction Hst as [|ps st Hps Hst IH]; intros [|f fs];
    try reflexivity.
  cbn. f_equal; [|apply IH]. now apply score_one_trajectory.
Qed.

Lemma zip_with_app_map3 {A B C} (f : A -> list R) (g : B -> list R) (h : C -> list R)
    (x : list A) (y : list B) (w : list C) :
  zip_with app (zip_with app (map f x) (map g y)) (map h w)
  = zip3 (fun a b c => (f a ++ g b) ++ h c) x y w.
Proof.
  unfold zip3. revert y w. induction x as [|a x IH]; intros [|b y] [|c w];
    try reflexivity.
  cbn. f_equal. apply IH.
Qed.

(** The forward pass on inputs of the shapes it is built for. *)
Lemma measurement_forward_scores
    (self : PandaMeasurementModel.t) (observations : gmap string Tensor)
    (N M H W : nat) (st imgs : list (list (list R))) (pos sens : list (list R)) :
  observations !! "image"%string = Some (T3 N H W imgs) ->
  observations !! "gripper_pos"%string = Some (T2 N 3 pos) ->
  observations !! "gripper_sensors"%string = Some (T2 N 7 sens) ->
  (H * W = 1024)%nat ->
  wf3 N M 2 st = true ->
  PandaMeasurementModel.forward self observations (T3 N M 2 st)
  = Returns (T2 N M
      (zip_with (fun f ps => map (particle_score self f) ps)
         (zip3 (trajectory_features self) imgs pos sens) st)).
Proof.
  intros Hi Hp Hs HW Hwf.
  set (u := PandaMeasurementModel.units self).
  unfold PandaMeasurementModel.forward.
  cbn [shape length Nat.eqb assert bind].
  unfold PandaMeasurementModel.getitem. rewrite Hi, Hp, Hs.
  cbn [bind PandaMeasurementModel.observation_image_layers apply_net
       PandaMeasurementModel.obs_pos_dim PandaMeasurementModel.obs_sensors_dim].
  replace (1 * H * W)%nat with 1024%nat by lia.
  rewrite !Nat.eqb_refl. cbn [bind cat_dim1].
  rewrite !Nat.eqb_refl. cbn [andb bind unsqueeze_expand]. fold u.
  replace (u + u + u)%nat with (u * 3)%nat by lia.
  rewrite !expandable_same. cbn [andb bind].
  rewrite shape_is_true by reflexivity.
  cbn [assert bind apply_net PandaMeasurementModel.state_dim Nat.eqb].
  rewrite shape_is_true by reflexivity. cbn [assert bind cat_dim2].
  rewrite !Nat.eqb_refl. cbn [andb bind].
  replace (u * 3 + u)%nat with (u * 4)%nat by lia.
  rewrite shape_is_true by reflexivity. cbn [assert bind apply_net].
  rewrite Nat.eqb_refl. cbn [bind].
  rewrite shape_is_true by reflexivity. cbn [assert bind squeeze_dim2].
  rewrite expand_to_same.
  rewrite (map_ext (fun r => repeat (expand_to _ _ r) M) (fun r => repeat r M))
    by (intros r; now rewrite expand_to_same).
  rewrite score_all_trajectories by (eapply wf3_rows; eassumption).
  rewrite map_map.
  rewrite (zip_with_app_map3
             (fun img => PandaMeasurementModel.image_linear self
                           (concat (PandaMeasurementModel.image_conv self img)))).
  reflexivity.
Qed.

Lemma wf2_length N D (v : list (list R)) : wf2 N D v = true -> length v = N.
Proof.
  unfold wf2. intros H. apply andb_true_iff in H as [H _]. now apply Nat.eqb_eq in H.
Qed.

Lemma wf3_length N M D (v : list (list (list R))) : wf3 N M D v = true -> length v = N.
Proof.
  unfold wf3. intros H. apply andb_true_iff in H as [H _]. now apply Nat.eqb_eq in H.
Qed.

Lemma zip3_length {A B C D} (f : A -> B -> C -> D) x y w n :
  length x = n -> length y = n -> length w = n -> length (zip3 f x y w) = n.
Proof.
  intros Hx Hy Hw. unfold zip3. rewrite !length_zip_with. lia.
Qed.

Lemma zip3_lookup {A B C D} (f : A -> B -> C -> D) x y w n a b c :
  x !! n = Some a -> y !! n = Some b -> w !! n = Some c ->
  zip3 f x y w !! n = Some (f a b c).
Proof.
  intros Hx Hy Hw. unfold zip3. rewrite !lookup_zip_with, Hx. cbn.
  rewrite Hy. cbn. now rewrite Hw.
Qed.

Lemma scored_rows_wf (g : list R -> list R -> R) (M : nat) (fs : list (list R))
    (st : list (list (list R))) :
  Forall (fun ps => length ps = M) st ->
  forallb (wf1 M) (zip_with (fun f ps => map (g f) ps) fs st) = true.
Proof.
  intros Hst. revert fs. induction Hst as [|ps st Hps Hst IH]; intros [|f fs];
    try reflexivity.
  cbn. rewrite IH. unfold wf1. rewrite length_map, Hps, Nat.eqb_refl. reflexivity.
Qed.

(** C3: on states of shape [(N, M, 2)] the measurement model returns
    log-likelihoods of shape [(N, M)]; row [n] scores each particle of
    trajectory [n] against one feature vector, computed from the observation
    of trajectory [n] alone and shared by its [M] particles, so two
    particles of a trajectory with equal states get equal log-likelihoods. *)
Theorem measurement_forward_shares_observation_features
    (self : PandaMeasurementModel.t) (observations : gmap string Tensor)
    (N M H W : nat) (st imgs : list (list (list R))) (pos sens : list (list R)) :
  observations !! "image"%string = Some (T3 N H W imgs) ->
  observations !! "gripper_pos"%string = Some (T2 N 3 pos) ->
  observations !! "gripper_sensors"%string = Some (T2 N 7 sens) ->
  (H * W = 1024)%nat ->
  wf3 N H W imgs = true -> wf2 N 3 pos = true -> wf2 N 7 sens = true ->
  wf3 N M 2 st = true ->
  exists ll,
    PandaMeasurementModel.forward self observations (T3 N M 2 st) = Returns (T2 N M ll)
    /\ shape (T2 N M ll) = [N; M]
    /\ wf (T2 N M ll) = true
    /\ (forall n img p s ps,
          imgs !! n = Some img -> pos !! n = Some p -> sens !! n = Some s ->
          st !! n = Some ps ->
          ll !! n = Some (map (particle_score self (trajectory_features self img p s)) ps))
    /\ (forall n ps row m1 m2 x,
          st !! n = Some ps -> ll !! n = Some row ->
          ps !! m1 = Some x -> ps !! m2 = Some x ->
          is_Some (row !! m1) /\ row !! m1 = row !! m2).
Proof.
  intros Hi Hp Hs HW Hwi Hwp Hws Hwf.
  eexists. split; [apply (measurement_forward_scores self observations N M H W); eassumption|].
  assert (Hrow : forall n img p s ps,
    imgs !! n = Some img -> pos !! n = Some p -> sens !! n = Some s ->
    st !! n = Some ps ->
    zip_with (fun f ps => map (particle_score self f) ps)
      (zip3 (trajectory_features self) imgs pos sens) st !! n
    = Some (map (particle_score self (trajectory_features self img p s)) ps)).
  { intros n img p s ps Hn1 Hn2 Hn3 Hn4.
    rewrite lookup_zip_with, (zip3_lookup _ _ _ _ _ _ _ _ Hn1 Hn2 Hn3). cbn.
    now rewrite Hn4. }
  split; [reflexivity|]. split; [|split; [exact Hrow|]].
  - cbn [wf]. unfold wf2. apply andb_true_iff. split.
    + apply Nat.eqb_eq. rewrite length_zip_with.
      rewrite (zip3_length _ _ _ _ N)
        by eauto using wf3_length, wf2_length.
      rewrite (wf3_length _ _ _ _ Hwf). lia.
    + apply scored_rows_wf. eapply wf3_rows; eassumption.
  - intros n ps row m1 m2 x Hps Hrow' H1 H2.
    assert (Hn : (n < N)%nat).
    { rewrite <- (wf3_length _ _ _ _ Hwf). eapply lookup_lt_Some; eassumption. }
    destruct (lookup_lt_is_Some_2 imgs n) as [img Himg];
      [rewrite (wf3_length _ _ _ _ Hwi); exact Hn|].
    destruct (lookup_lt_is_Some_2 pos n) as [p Hpos];
      [rewrite (wf2_length _ _ _ Hwp); exact Hn|].
    destruct (lookup_lt_is_Some_2 sens n) as [s Hsens];
      [rewrite (wf2_length _ _ _ Hws); exact Hn|].
    rewrite (Hrow n img p s ps Himg Hpos Hsens Hps) in Hrow'.
    injection Hrow' as <-.
    rewrite !list_lookup_fmap, H1, H2. cbn. split; [eexists|]; reflexivity.
Qed.

Lemma measurement_forward_shares_observation_features_witness :
  exists ll,
    PandaMeasurementModel.forward small_measurement (blank_observations 32 32)
      (T3 1 2 2 [[[1; 2]; [1; 2]]]) = Returns (T2 1 2 ll)
    /\ (forall row, ll !! 0%nat = Some row -> row !! 0%nat = row !! 1%nat).
Proof.
  destruct (measurement_forward_shares_observation_features small_measurement
              (blank_observations 32 32) 1 2 32 32 [[[1; 2]; [1; 2]]]
              [blank_image 32 32] [[0; 0; 0]] [[0; 0; 0; 0; 0; 0; 0]]
              eq_refl eq_refl eq_refl eq_refl eq_refl eq_refl eq_refl eq_refl)
    as (ll & Hfw & _ & _ & _ & Heq).
  exists ll. split; [exact Hfw|].
  intros row Hrow.
  exact (proj2 (Heq 0%nat [[1; 2]; [1; 2]] row 0%nat 1%nat [1; 2]
                  eq_refl Hrow eq_refl eq_refl)).
Defined.

Lemma apply_net_returns {i o} (f : Net i o) (x : Tensor) :
  last_dim x = i -> exists y, apply_net f x = Returns y.
Proof.
  intros H. destruct x; cbn in *; subst; rewrite Nat.eqb_refl; eauto.
Qed.

(** C10, as the code has it: with rank-3 states the forward pass returns only
    for a dictionary that has the three keys and a rank-3 image of
    [H * W = 1024] pixels per trajectory; an image with another pixel count
    raises the shape error of [Linear(1024, units)], and a missing key raises
    its [KeyError] once what is evaluated before the lookup has succeeded. *)
Theorem measurement_forward_input_contract
    (self : PandaMeasurementModel.t) (observations : gmap string Tensor)
    (states : Tensor) :
  length (shape states) = 3%nat ->
  (forall out,
     PandaMeasurementModel.forward self observations states = Returns out ->
     exists N H W imgs,
       observations !! "image"%string = Some (T3 N H W imgs)
       /\ (H * W = 1024)%nat
       /\ is_Some (observations !! "gripper_pos"%string)
       /\ is_Some (observations !! "gripper_sensors"%string))
  /\ (observations !! "image"%string = None ->
      PandaMeasurementModel.forward self observations states = Raises (KeyError "image"))
  /\ (forall N H W imgs,
        observations !! "image"%string = Some (T3 N H W imgs) ->
        (H * W <> 1024)%nat ->
        PandaMeasurementModel.forward self observations states = Raises RuntimeError)
  /\ (forall N H W imgs,
        observations !! "image"%string = Some (T3 N H W imgs) ->
        (H * W = 1024)%nat ->
        observations !! "gripper_pos"%string = None ->
        PandaMeasurementModel.forward self observations states
        = Raises (KeyError "gripper_pos"))
  /\ (forall N H W imgs pos,
        observations !! "image"%string = Some (T3 N H W imgs) ->
        (H * W = 1024)%nat ->
        observations !! "gripper_pos"%string = Some pos ->
        last_dim pos = 3%nat ->
        observations !! "gripper_sensors"%string = None ->
        PandaMeasurementModel.forward self observations states
        = Raises (KeyError "gripper_sensors")).
Proof.
  intros Hrank.
  destruct states as [? ?|? ? ?|N M D st]; try discriminate.
  unfold PandaMeasurementModel.forward.
  cbn [shape length Nat.eqb assert bind].
  unfold PandaMeasurementModel.getitem.
  split; [|split; [|split; [|split]]].
  - intros out Hout.
    destruct (observations !! "image"%string) as [[? ?|? ? ?|N' H W imgs]|];
      try discriminate.
    cbn [bind PandaMeasurementModel.observation_image_layers apply_net] in Hout.
    destruct (1 * H * W =? 1024)%nat eqn:HW; [|discriminate].
    apply Nat.eqb_eq in HW.
    exists N', H, W, imgs. split; [reflexivity|]. split; [lia|].
    cbn [bind] in Hout.
    destruct (observations !! "gripper_pos"%string) as [pos|]; [|discriminate].
    split; [eauto|]. cbn [bind] in Hout.
    destruct (apply_net (PandaMeasurementModel.observation_pos_layers self) pos);
      [|discriminate].
    cbn [bind] in Hout.
    destruct (observations !! "gripper_sensors"%string); [eauto|discriminate].
  - intros ->. reflexivity.
  - intros N' H W imgs -> HW.
    cbn [bind PandaMeasurementModel.observation_image_layers apply_net].
    replace (1 * H * W =? 1024)%nat with false; [reflexivity|].
    symmetry. apply Nat.eqb_neq. lia.
  - intros N' H W imgs -> HW ->.
    cbn [bind PandaMeasurementModel.observation_image_layers apply_net].
    replace (1 * H * W =? 1024)%nat with true; [reflexivity|].
    symmetry. apply Nat.eqb_eq. lia.
  - intros N' H W imgs pos -> HW -> Hpos ->.
    cbn [bind PandaMeasurementModel.observation_image_layers apply_net].
    replace (1 * H * W =? 1024)%nat with true
      by (symmetry; apply Nat.eqb_eq; lia).
    cbn [bind].
    destruct (apply_net_returns (PandaMeasurementModel.observation_pos_layers self) pos Hpos)
      as [y ->].
    reflexivity.
Qed.

Lemma measurement_forward_input_contract_witness :
  PandaMeasurementModel.forward small_measurement
    (delete "gripper_sensors"%string (blank_observations 32 32))
    (T3 1 2 2 [[[1; 2]; [1; 2]]])
  = Raises (KeyError "gripper_sensors").
Proof.
  exact (proj2 (proj2 (proj2 (proj2
    (measurement_forward_input_contract small_measurement
       (delete "gripper_sensors"%string (blank_observations 32 32))
       (T3 1 2 2 [[[1; 2]; [1; 2]]]) eq_refl))))
    1%nat 32%nat 32%nat [blank_image 32 32] (T2 1 3 [[0; 0; 0]])
    eq_refl eq_refl eq_refl eq_refl eq_refl).
Defined.

(** Against C10 as stated: a 16 by 64 image is not 32 by 32, and the
    forward pass takes it. *)
Lemma measurement_forward_accepts_16_by_64 :
  exists ll,
    PandaMeasurementModel.forward small_measurement (blank_observations 16 64)
      (T3 1 2 2 [[[1; 2]; [1; 2]]]) = Returns (T2 1 2 ll).
Proof.
  eexists.
  apply (measurement_forward_scores small_measurement (blank_observations 16 64)
           1 2 16 64 [[[1; 2]; [1; 2]]] [blank_image 16 64]
           [[0; 0; 0]] [[0; 0; 0; 0; 0; 0; 0]]); reflexivity.
Qed.

(** ** [train_dynamics_recurrent] *)

Lemma for_each_first_raises {S A} (body : S -> A -> result S) st x xs e :
  body st x = Raises e -> for_each body st (x :: xs) = Raises e.
Proof. intros H. cbn. now rewrite H. Qed.

Lemma range_cons a b : (a < b)%nat -> range a b = a :: range (S a) b.
Proof.
  intros H. unfold range. replace (b - a)%nat with (S (b - S a)) by lia. reflexivity.
Qed.

(** Case analysis on the next step of a computation that may raise. *)
Ltac next_step :=
  match goal with
  | |- context [bind ?r _] =>
      lazymatch r with
      | Returns _ => fail
      | Raises _ => fail
      | if _ then _ else _ => fail
      | for_each _ _ _ => fail
      | _ => destruct r eqn:?
      end
  | |- context [assert ?b _] => destruct b eqn:?
  end; cbn [bind assert].

Section Recurrent.

Context {Obs BatchObs : Type}.
Variable pf_model : nat -> ParticleFilterNetwork Obs.

(** With the Peter loss no timestep of the loop returns. *)
Lemma peter_timestep_raises model batch_states batch_controls N state_dim st t :
  exists e, TrainDynamicsRecurrent.timestep (Obs := Obs) "peter" model
              batch_states batch_controls N state_dim st t = Raises e.
Proof.
  unfold TrainDynamicsRecurrent.timestep.
  repeat (next_step; [|eauto]).
  cbn. eauto.
Qed.

Lemma peter_batch_raises model (batch : TrainDynamicsRecurrent.Batch (BatchObs := BatchObs)) :
  exists e, TrainDynamicsRecurrent.batch_loss (Obs := Obs) "peter" model batch = Raises e.
Proof.
  destruct batch as [[batch_states batch_obs] batch_controls].
  unfold TrainDynamicsRecurrent.batch_loss.
  destruct (shape batch_controls) as [|? [|? [|control_dim [|]]]]; eauto.
  destruct (shape batch_states) as [|N [|timesteps [|state_dim [|]]]]; eauto.
  repeat (next_step; [|eauto]).
  destruct (range 1 timesteps) as [|t ts] eqn:Hrange.
  - cbn [for_each bind TrainDynamicsRecurrent.pred_deltas
         TrainDynamicsRecurrent.losses mean_stack].
    next_step; eauto.
  - match goal with
    | |- context [for_each ?body ?st0 _] =>
        destruct (peter_timestep_raises model batch_states batch_controls N state_dim st0 t)
          as [e He]
    end.
    rewrite (for_each_first_raises _ _ _ _ _ He). cbn. eauto.
Qed.

Lemma peter_batches_leave_buddy log_interval optim_name buddy epoch_losses dataloader :
  fst (for_each_batch
         (TrainDynamicsRecurrent.batch_body (BatchObs := BatchObs) pf_model
            log_interval "peter" optim_name)
         buddy epoch_losses dataloader) = buddy
  /\ (dataloader <> [] ->
      raised (snd (for_each_batch
                     (TrainDynamicsRecurrent.batch_body (BatchObs := BatchObs) pf_model
                        log_interval "peter" optim_name)
                     buddy epoch_losses dataloader))).
Proof.
  destruct dataloader as [|batch rest]; [split; [reflexivity|congruence]|].
  cbn [for_each_batch]. unfold TrainDynamicsRecurrent.batch_body.
  destruct (peter_batch_raises (pf_model (optimizer_steps buddy)) batch) as [e ->].
  split; [reflexivity|]. intros _. now exists e.
Qed.

Lemma tabulate_length {A} n (f : nat -> A) : length (tabulate n f) = n.
Proof. unfold tabulate. now rewrite length_map, length_seq. Qed.


End Recurrent.


(** ** [train_e2e] *)

Section E2E.

Context {Obs BatchObs : Type}.
Variable pf_model : nat -> nat -> ParticleFilterNetwork Obs.
Variable dict_slice : BatchObs -> nat -> result Obs.
Variable gmm_loss : Var -> Var -> Tensor -> list R -> result R.
Variable squared_error : Var -> Tensor -> result R.

(** A timestep that returns has called the filter, and carries on with the
    very particles and log-weights the filter returned. *)
Lemma e2e_timestep_inversion args model_at batch_states batch_obs batch_controls st t st' :
  TrainE2E.timestep dict_slice gmm_loss squared_error args model_at
    batch_states batch_obs batch_controls st t = Returns st' ->
  exists observations controls state_estimates loss,
    dict_slice batch_obs (t - 1) = Returns observations
    /\ select_dim1 batch_controls t = Returns controls
    /\ forward (model_at t) (TrainE2E.particles st) (TrainE2E.log_weights st)
         observations controls (TrainE2E.resample args) true
         (if TrainE2E.know_image_blackout args then Some true else None)
       = Returns (state_estimates, TrainE2E.particles st', TrainE2E.log_weights st')
    /\ TrainE2E.losses st' = TrainE2E.losses st ++ [loss]
    /\ ((TrainE2E.loss_type args =? "gmm")%string = true
        \/ (TrainE2E.loss_type args =? "mse")%string = true).
Proof.
  unfold TrainE2E.timestep. intros H. cbn zeta in H.
  destruct (dict_slice batch_obs (t - 1)) as [observations|] eqn:Hobs; [|discriminate].
  destruct (select_dim1 batch_controls t) as [controls|] eqn:Hctl; [|discriminate].
  cbn [bind] in H.
  destruct (forward (model_at t) _ _ observations controls _ _ _)
    as [[[state_estimates new_particles] new_log_weights]|] eqn:Hfw; [|discriminate].
  cbn [bind] in H.
  match type of H with
  | bind ?l _ = _ => destruct l as [loss|] eqn:Hloss; [|discriminate]
  end.
  cbn [bind] in H. injection H as <-.
  exists observations, controls, state_estimates, loss.
  split; [reflexivity|]. split; [reflexivity|]. split; [exact Hfw|].
  split; [reflexivity|].
  destruct (TrainE2E.loss_type args =? "gmm")%string; [now left|].
  destruct (TrainE2E.loss_type args =? "mse")%string; [now right|discriminate].
Qed.

Lemma unsupported_timestep_raises args model_at batch_states batch_obs batch_controls st t :
  (TrainE2E.loss_type args =? "gmm")%string = false ->
  (TrainE2E.loss_type args =? "mse")%string = false ->
  exists e, TrainE2E.timestep dict_slice gmm_loss squared_error args model_at
              batch_states batch_obs batch_controls st t = Raises e.
Proof.
  intros Hgmm Hmse.
  destruct (TrainE2E.timestep dict_slice gmm_loss squared_error args model_at
              batch_states batch_obs batch_controls st t) as [st'|e] eqn:H; [|eauto].
  apply e2e_timestep_inversion in H as (? & ? & ? & ? & _ & _ & _ & _ & [H|H]);
    congruence.
Qed.

Lemma unsupported_batch_raises args buddy bound batch :
  (TrainE2E.loss_type args =? "gmm")%string = false ->
  (TrainE2E.loss_type args =? "mse")%string = false ->
  exists e, TrainE2E.batch_body pf_model dict_slice gmm_loss squared_error
              args buddy bound batch = (buddy, Raises e).
Proof.
  intros Hgmm Hmse.
  destruct batch as [[[batch_particles batch_states] batch_obs] batch_controls].
  unfold TrainE2E.batch_body, TrainE2E.batch_steps.
  destruct (shape batch_controls) as [|? [|? [|control_dim [|]]]]; eauto.
  destruct (shape batch_states) as [|? [|timesteps [|? [|]]]]; eauto.
  destruct (shape batch_particles) as [|N [|M [|state_dim [|]]]]; eauto.
  destruct (shape_is batch_controls [N; timesteps; control_dim]); cbn [assert bind];
    eauto.
  destruct (range 1 timesteps) as [|t ts].
  - cbn. eauto.
  - match goal with
    | |- context [for_each ?body ?st0 _] =>
        destruct (unsupported_timestep_raises args (pf_model (optimizer_steps buddy))
                    batch_states batch_obs batch_controls st0 t Hgmm Hmse) as [e He]
    end.
    rewrite (for_each_first_raises _ _ _ _ _ He). eauto.
Qed.


(** C6, as the code has it: whatever the arguments of [train_e2e], a
    timestep of its loop that returns hands to the next timestep exactly the
    particles and log-weights that [pf_model.forward] returned; when these
    are part of the autograd graph, what is carried is not their detached
    copy. *)
Theorem e2e_timestep_keeps_gradient_path
    (args : TrainE2E.Args) (model_at : nat -> ParticleFilterNetwork Obs)
    (batch_states : Tensor) (batch_obs : BatchObs) (batch_controls : Tensor)
    (st st' : TrainE2E.Carried) (t : nat) :
  TrainE2E.timestep dict_slice gmm_loss squared_error args model_at
    batch_states batch_obs batch_controls st t = Returns st' ->
  exists observations controls state_estimates new_particles new_log_weights,
    forward (model_at t) (TrainE2E.particles st) (TrainE2E.log_weights st)
      observations controls (TrainE2E.resample args) true
      (if TrainE2E.know_image_blackout args then Some true else None)
    = Returns (state_estimates, new_particles, new_log_weights)
    /\ TrainE2E.particles st' = new_particles
    /\ TrainE2E.log_weights st' = new_log_weights
    /\ (requires_grad new_particles = true ->
        TrainE2E.particles st' <> detach new_particles)
    /\ (requires_grad new_log_weights = true ->
        TrainE2E.log_weights st' <> detach new_log_weights).
Proof.
  intros H.
  apply e2e_timestep_inversion in H
    as (observations & controls & state_estimates & loss & _ & _ & Hfw & _ & _).
  exists observations, controls, state_estimates,
    (TrainE2E.particles st'), (TrainE2E.log_weights st').
  split; [exact Hfw|]. split; [reflexivity|]. split; [reflexivity|].
  split; intros Hgrad Heq; apply (f_equal requires_grad) in Heq;
    cbn in Heq; congruence.
Qed.

End E2E.



Lemma e2e_timestep_keeps_gradient_path_witness :
  exists observations controls state_estimates new_particles new_log_weights,
    forward mean_filter (constant sample_particles) (constant (uniform_log_weights 2 2))
      observations controls false true None
    = Returns (state_estimates, new_particles, new_log_weights)
    /\ {| data := sample_particles; requires_grad := true |} = new_particles
    /\ {| data := uniform_log_weights 2 2; requires_grad := true |} = new_log_weights
    /\ (requires_grad new_particles = true ->
        {| data := sample_particles; requires_grad := true |} <> detach new_particles)
    /\ (requires_grad new_log_weights = true ->
        {| data := uniform_log_weights 2 2; requires_grad := true |}
        <> detach new_log_weights).
Proof.
  exact (e2e_timestep_keeps_gradient_path same_observations zero_gmm_loss
           estimate_squared_error TrainE2E.defaults (fun _ => mean_filter)
           sample_states (blank_observations 32 32) sample_controls
           first_carried
           {| TrainE2E.particles := {| data := sample_particles; requires_grad := true |};
              TrainE2E.log_weights :=
                {| data := uniform_log_weights 2 2; requires_grad := true |};
              TrainE2E.losses :=
                [mse_loss (T2 2 2 (map (Rollout.particle_mean 2)
                                     [[[0; 0]; [1; 1]]; [[0; 1]; [1; 0]]]))
                   (T2 2 2 [[1; 0]; [0; 2]])] |}
           1%nat eq_refl).
Defined.

(** Against C6 as stated: take a filter that honours [resample] (resampling
    resets the log-weights to the constant [-log(M)]) and whose new particles
    are part of the autograd graph.  A timestep of [train_e2e] returns with
    it, with and without resampling, and no choice of the arguments of
    [train_e2e] makes the timestep carry detached particles (particles with
    [requires_grad] cleared, as [detach] leaves them) into the next one: the
    caller has no way to sever the gradient path through the particles. *)
Lemma e2e_no_argument_detaches_particles :
  (forall resample,
     exists st',
       TrainE2E.timestep same_observations zero_gmm_loss estimate_squared_error
         {| TrainE2E.log_interval := 2; TrainE2E.loss_type := "mse";
            TrainE2E.optim_name := "e2e"; TrainE2E.resample := resample;
            TrainE2E.know_image_blackout := false |}
         (fun _ => resampling_filter) sample_states (blank_observations 32 32)
         sample_controls first_carried 1 = Returns st'
       /\ requires_grad (TrainE2E.particles st') = true
       /\ requires_grad (TrainE2E.log_weights st') = negb resample)
  /\ ~ (exists args st',
          TrainE2E.timestep same_observations zero_gmm_loss estimate_squared_error
            args (fun _ => resampling_filter) sample_states (blank_observations 32 32)
            sample_controls first_carried 1 = Returns st'
          /\ requires_grad (TrainE2E.particles st') = false).
Proof.
  split.
  - intros [|]; eexists; (split; [reflexivity|]); split; reflexivity.
  - intros (args & st' & H & Hdetached).
    apply e2e_timestep_inversion in H
      as (observations & controls & state_estimates & loss & _ & _ & Hfw & _ & _).
    cbn in Hfw. injection Hfw as _ Hp _.
    rewrite <- Hp in Hdetached. discriminate.
Qed.

(** ** [rollout] *)

Lemma forallb_wf1 D (rows : list (list R)) :
  forallb (wf1 D) rows = true <-> Forall (fun r => length r = D) rows.
Proof.
  rewrite forallb_forall, List.Forall_forall. unfold wf1.
  split; intros H r Hr; specialize (H r Hr); now apply Nat.eqb_eq.
Qed.

Lemma item_lookup {A} (l : list A) i x :
  l !! i = Some x -> Rollout.item l i = Returns x.
Proof.
  intros H. unfold Rollout.item.
  replace (nth_error l i) with (l !! i); [now rewrite H|].
  revert i H. induction l as [|y l IH]; intros [|i] H; try discriminate; try reflexivity.
  cbn in *. now apply IH.
Qed.

Lemma item_nth {A} (l : list A) i d :
  (i < length l)%nat -> Rollout.item l i = Returns (nth i l d).
Proof.
  intros H. apply item_lookup.
  destruct (lookup_lt_is_Some_2 l i H) as [x Hx].
  now rewrite (nth_lookup_Some _ _ d _ Hx).
Qed.

Lemma lookup_nth {A} (l : list A) i d :
  (i < length l)%nat -> l !! i = Some (nth i l d).
Proof.
  intros H. destruct (lookup_lt_is_Some_2 l i H) as [x Hx].
  now rewrite (nth_lookup_Some _ _ d _ Hx).
Qed.

Lemma slice_length {A} a b (l : list A) :
  (b <= length l)%nat -> length (slice a b l) = (b - a)%nat.
Proof. intros H. unfold slice. rewrite length_take, length_drop. lia. Qed.

Lemma slice_Forall {A} (P : A -> Prop) a b (l : list A) :
  Forall P l -> Forall P (slice a b l).
Proof. intros H. unfold slice. now apply Forall_take, Forall_drop. Qed.

Lemma np_array2_ok D (rows : list (list R)) :
  rows <> [] -> Forall (fun r => length r = D) rows ->
  Rollout.np_array2 rows = Returns (T2 (length rows) D rows).
Proof.
  intros Hne Hrows. destruct rows as [|r rows]; [congruence|].
  unfold Rollout.np_array2.
  assert (Hr : length r = D) by now inversion Hrows.
  rewrite Hr. unfold wf2. rewrite Nat.eqb_refl.
  replace (forallb (wf1 D) (r :: rows)) with true; [reflexivity|].
  symmetry. now apply forallb_wf1.
Qed.

Lemma wf3_Forall N T D (seqs : list (list (list R))) :
  length seqs = N ->
  Forall (fun q => length q = T /\ Forall (fun r => length r = D) q) seqs ->
  wf3 N T D seqs = true.
Proof.
  intros HN Hq. unfold wf3. rewrite HN, Nat.eqb_refl. cbn.
  apply forallb_forall. intros q Hin.
  rewrite List.Forall_forall in Hq. destruct (Hq q Hin) as [HT HD].
  unfold wf2. rewrite HT, Nat.eqb_refl. cbn. now apply forallb_wf1.
Qed.

Lemma np_array3_ok T D (seqs : list (list (list R))) :
  seqs <> [] -> (1 <= T)%nat ->
  Forall (fun q => length q = T /\ Forall (fun r => length r = D) q) seqs ->
  Rollout.np_array3 seqs = Returns (T3 (length seqs) T D seqs).
Proof.
  intros Hne HT Hq. destruct seqs as [|q seqs]; [congruence|].
  assert (Hwf := wf3_Forall (length (q :: seqs)) T D (q :: seqs) eq_refl Hq).
  inversion Hq as [|? ? [Hlen Hrows] _]; subst.
  destruct q as [|r q]; [cbn in HT; lia|].
  inversion Hrows as [|? ? Hr _]; subst.
  unfold Rollout.np_array3. cbn [hd]. now rewrite Hwf.
Qed.

Lemma end_time_le {TrajObs} (trajectories : list (list (list R) * TrajObs * list (list R)))
    start_time max_timesteps traj :
  In traj trajectories ->
  (Rollout.end_time_of trajectories start_time max_timesteps <= length (fst (fst traj)))%nat.
Proof.
  unfold Rollout.end_time_of. induction trajectories as [|x l IH]; intros Hin; [easy|].
  cbn. destruct Hin as [->|Hin]; [lia|]. specialize (IH Hin). lia.
Qed.

Lemma imap_shift {A B} (f : nat -> A -> B) (l : list A) k :
  imap (fun i x => f (k + S i)%nat x) l = imap (fun i x => f (S k + i)%nat x) l.
Proof. apply imap_ext. intros i x _. f_equal. lia. Qed.

Section RolloutProperties.

Context {ObsT Obs TrajObs : Type}.
Variable pf_model : nat -> ParticleFilterNetwork Obs.
Variable obs_at : TrajObs -> nat -> result ObsT.
Variable collate : list ObsT -> Obs.

(** What [obs_at] returns for a trajectory at the timesteps it has. *)
Variable observation : Rollout.Trajectory (TrajObs := TrajObs) -> nat -> ObsT.

Variable trajectories : list (Rollout.Trajectory (TrajObs := TrajObs)).
Variables M D C start_time max_timesteps : nat.
Variable noisy_dynamics : bool.

Let N : nat := length trajectories.
Let end_time : nat := Rollout.end_time_of trajectories start_time max_timesteps.

Hypothesis trajectories_wf : forallb (wf_trajectory D C) trajectories = true.
Hypothesis observations_there :
  forall traj t, In traj trajectories -> (t < length (fst (fst traj)))%nat ->
    obs_at (snd (fst traj)) t = Returns (observation traj t).
Hypothesis some_trajectory : trajectories <> [].
Hypothesis filter_returns :
  forall t p lw o c, particles_ok N M D p ->
    exists est np nlw,
      forward (pf_model t) p lw o c true noisy_dynamics None = Returns (est, np, nlw)
      /\ estimate_ok N D est /\ particles_ok N M D np.

Lemma trajectory_wf traj :
  In traj trajectories ->
  Forall (fun r => length r = D) (fst (fst traj))
  /\ length (snd traj) = length (fst (fst traj))
  /\ Forall (fun r => length r = C) (snd traj).
Proof using All.
  intros Hin. rewrite forallb_forall in trajectories_wf.
  specialize (trajectories_wf traj Hin). unfold wf_trajectory in trajectories_wf.
  apply andb_true_iff in trajectories_wf as [H12 H3].
  apply andb_true_iff in H12 as [H1 H2].
  apply forallb_wf1 in H1. apply forallb_wf1 in H3. apply Nat.eqb_eq in H2.
  auto.
Qed.

Lemma gather_all t (pred : list (list (list R))) (l : list Rollout.Trajectory) :
  forall k s o c,
  (forall i traj, l !! i = Some traj ->
     (k + i < length pred)%nat
     /\ (t - start_time - 1 < length (nth (k + i) pred []))%nat
     /\ obs_at (snd (fst traj)) t = Returns (observation traj t)
     /\ (t < length (snd traj))%nat) ->
  for_each (Rollout.gather obs_at start_time t pred) (s, o, c)
    (imap (fun i x => ((k + i)%nat, x)) l)
  = Returns (s ++ imap (fun i _ => nth (t - start_time - 1) (nth (k + i) pred []) []) l,
             o ++ map (fun traj => observation traj t) l,
             c ++ map (fun traj : Rollout.Trajectory => nth t (snd traj) []) l).
Proof using All.
  induction l as [|traj l IH]; intros k s o c Hl.
  - cbn. now rewrite !app_nil_r.
  - destruct (Hl 0%nat traj eq_refl) as (H1 & H2 & H3 & H4).
    cbn [imap for_each]. unfold Rollout.gather at 1.
    destruct traj as [[states observations] controls]. cbn [fst snd] in H3, H4 |- *.
    rewrite (item_nth pred (k + 0) [] H1). cbn [bind].
    rewrite (item_nth _ _ [] H2). cbn [bind].
    rewrite H3. cbn [bind].
    rewrite (item_nth controls t [] H4). cbn [bind].
    unfold compose.
    rewrite (imap_shift (fun j x => (j, x)) l k).
    rewrite (IH (S k)).
    + f_equal. rewrite <- !app_assoc. cbn [app].
      rewrite (imap_shift (fun j _ => nth (t - start_time - 1) (nth j pred []) []) l k).
      reflexivity.
    + intros i traj' Hi. specialize (Hl (S i) traj' Hi).
      replace (S k + i)%nat with (k + S i)%nat by lia. exact Hl.
Qed.

Local Ltac nlia := unfold N, end_time, Rollout.Trajectory in *; lia.

Lemma append_all est e :
  data est = T2 N D e -> length e = N ->
  forall n a cur, (a + n = N)%nat -> length cur = N ->
  for_each (Rollout.append_estimate est) cur (seq a n)
  = Returns (imap (fun i row => if (a <=? i)%nat then row ++ [nth i e []] else row) cur).
Proof using All.
  intros Hdata He. induction n as [|n IH]; intros a cur Ha Hcur.
  - cbn. f_equal. apply list_eq. intros i. rewrite list_lookup_imap.
    destruct (cur !! i) as [row|] eqn:Hi; [|reflexivity]. cbn -[Nat.leb].
    apply lookup_lt_Some in Hi.
    replace (a <=? i)%nat with false; [reflexivity|].
    symmetry. apply Nat.leb_gt. nlia.
  - cbn [seq for_each]. unfold Rollout.append_estimate at 1, Rollout.estimate_row.
    rewrite Hdata.
    rewrite (item_nth e a []) by nlia. cbn [bind].
    rewrite (item_nth cur a []) by nlia. cbn [bind].
    rewrite IH by (rewrite ?length_insert; nlia).
    f_equal. apply list_eq. intros i. rewrite !list_lookup_imap.
    destruct (decide (i = a)) as [->|Hne].
    + rewrite list_lookup_insert_eq by nlia.
      rewrite (lookup_nth cur a []) by nlia. cbn -[Nat.leb].
      replace (S a <=? a)%nat with false by (symmetry; apply Nat.leb_gt; nlia).
      now rewrite Nat.leb_refl.
    + rewrite list_lookup_insert_ne by congruence.
      destruct (cur !! i) as [row|]; [|reflexivity]. cbn -[Nat.leb].
      destruct (Nat.leb_spec (S a) i), (Nat.leb_spec a i); try reflexivity; nlia.
Qed.

Lemma predicted_from_snoc means ests est e :
  data est = T2 N D e ->
  imap (fun i row => if (0 <=? i)%nat then row ++ [nth i e []] else row)
    (predicted_from means ests)
  = predicted_from means (ests ++ [est]).
Proof using All.
  intros Hdata. unfold predicted_from. apply list_eq. intros i.
  rewrite !list_lookup_imap. destruct (means !! i) as [m|]; [|reflexivity].
  cbn. rewrite map_app. cbn. unfold row_of at 3. now rewrite Hdata.
Qed.

Lemma predicted_from_nth means ests i :
  (i < length means)%nat ->
  nth i (predicted_from means ests) []
  = nth i means [] :: map (fun est => row_of est i) ests.
Proof using All.
  intros Hi. apply nth_lookup_Some. unfold predicted_from.
  now rewrite list_lookup_imap, (lookup_nth means i []).
Qed.

Lemma estimate_row_length est i :
  estimate_ok N D est -> (i < N)%nat -> length (row_of est i) = D.
Proof using All.
  intros (e & Hdata & Hwf) Hi. unfold row_of. rewrite Hdata.
  assert (Hlen := wf2_length _ _ _ Hwf).
  unfold wf2 in Hwf. apply andb_true_iff in Hwf as [_ Hrows].
  apply forallb_wf1 in Hrows. rewrite List.Forall_forall in Hrows.
  apply Hrows. apply nth_In. nlia.
Qed.

Lemma predicted_entry_length means ests i k :
  length means = N -> Forall (fun m => length m = D) means ->
  Forall (estimate_ok N D) ests ->
  (i < N)%nat -> (k <= length ests)%nat ->
  length (nth k (nth i (predicted_from means ests) []) []) = D.
Proof using All.
  intros Hm HD Hests Hi Hk. rewrite predicted_from_nth by nlia.
  destruct k as [|k]; cbn [nth].
  - rewrite List.Forall_forall in HD. apply HD, nth_In. nlia.
  - rewrite (nth_indep _ [] (row_of (constant (T1 0 [])) i))
      by (rewrite length_map; nlia).
    rewrite (map_nth (fun est => row_of est i)).
    apply estimate_row_length; [|exact Hi].
    rewrite List.Forall_forall in Hests. apply Hests, nth_In. nlia.
Qed.

Hypothesis window : (start_time < end_time)%nat.
Hypothesis has_parameters : parameters (pf_model start_time) <> [].

Lemma some_trajectory_length : (0 < length trajectories)%nat.
Proof using All.
  assert (Hne : length trajectories <> 0%nat).
  { intros Hlen. now apply length_zero_iff_nil in Hlen. }
  lia.
Qed.

Lemma lookup_In (l : list (Rollout.Trajectory (TrajObs := TrajObs))) i traj :
  l !! i = Some traj -> In traj l.
Proof using Type.
  intros H. apply list_elem_of_In. eapply list_elem_of_lookup_2. exact H.
Qed.

(** One timestep of the loop: the filter is called on the inputs of
    timestep [t], and every trajectory's prediction grows by its row of the
    estimate. *)
Lemma rollout_timestep means ests p lw t :
  t = (start_time + 1 + length ests)%nat -> (t < end_time)%nat ->
  length means = N -> Forall (fun m => length m = D) means ->
  Forall (estimate_ok N D) ests ->
  particles_ok N M D p ->
  exists est np nlw,
    forward (pf_model t) p lw (fst (inputs_at collate observation trajectories C t)) (snd (inputs_at collate observation trajectories C t))
      true noisy_dynamics None = Returns (est, np, nlw)
    /\ estimate_ok N D est /\ particles_ok N M D np
    /\ Rollout.timestep pf_model obs_at collate trajectories start_time noisy_dynamics
         {| Rollout.particles := p; Rollout.log_weights := lw;
            Rollout.predicted_states := predicted_from means ests |} t
       = Returns {| Rollout.particles := np; Rollout.log_weights := nlw;
                    Rollout.predicted_states := predicted_from means (ests ++ [est]) |}.
Proof using All.
  intros Ht Hend Hm HD Hests Hp.
  destruct (filter_returns t p lw (fst (inputs_at collate observation trajectories C t)) (snd (inputs_at collate observation trajectories C t)) Hp)
    as (est & np & nlw & Hfw & Hest & Hnp).
  exists est, np, nlw. split; [exact Hfw|]. split; [exact Hest|]. split; [exact Hnp|].
  assert (Hpred : length (predicted_from means ests) = N).
  { unfold predicted_from. now rewrite length_imap. }
  unfold Rollout.timestep. cbn [Rollout.predicted_states Rollout.particles Rollout.log_weights].
  change (Rollout.enumerate trajectories)
    with (imap (fun i x => ((0 + i)%nat, x)) trajectories).
  rewrite gather_all.
  2:{ intros i traj Hi. assert (Hin := lookup_In _ _ _ Hi).
      apply lookup_lt_Some in Hi. fold N in Hi.
      destruct (trajectory_wf traj Hin) as (_ & Hc & _).
      assert (Hle := end_time_le trajectories start_time max_timesteps traj Hin).
      fold end_time in Hle.
      split; [rewrite Hpred; nlia|]. split.
      - cbn [Nat.add]. rewrite predicted_from_nth by nlia. cbn [length]. rewrite length_map. nlia.
      - split; [apply observations_there; [exact Hin|nlia]|nlia]. }
  cbn [bind app].
  rewrite (np_array2_ok D).
  2:{ intros Hnil. apply (f_equal length) in Hnil. rewrite length_imap in Hnil.
      now apply length_zero_iff_nil in Hnil. }
  2:{ apply List.Forall_forall. intros r Hr. apply list_elem_of_In in Hr.
      apply list_elem_of_lookup in Hr as [i Hi]. rewrite list_lookup_imap in Hi.
      destruct (trajectories !! i) as [traj|] eqn:Htraj; [|discriminate].
      cbn in Hi. injection Hi as <-. apply lookup_lt_Some in Htraj. fold N in Htraj.
      apply predicted_entry_length; try assumption; nlia. }
  cbn [bind].
  rewrite (np_array2_ok C).
  2:{ intros Hnil. apply (f_equal length) in Hnil. rewrite length_map in Hnil.
      now apply length_zero_iff_nil in Hnil. }
  2:{ apply List.Forall_forall. intros r Hr. apply in_map_iff in Hr as (traj & <- & Hin).
      destruct (trajectory_wf traj Hin) as (_ & Hc & HC).
      assert (Hle := end_time_le trajectories start_time max_timesteps traj Hin).
      fold end_time in Hle.
      rewrite List.Forall_forall in HC. apply HC, nth_In. nlia. }
  cbn [bind]. rewrite length_map.
  unfold inputs_at in Hfw. cbn [fst snd] in Hfw. rewrite Hfw. cbn [bind].
  destruct Hest as (e & Hdata & Hwf).
  unfold range. rewrite Nat.sub_0_r.
  rewrite (append_all est e Hdata (wf2_length _ _ _ Hwf) _ 0%nat) by nlia.
  cbn [bind]. now rewrite (predicted_from_snoc means ests est e Hdata).
Qed.

(** The whole loop: it returns, and its predictions are the initial means
    followed by the rows of the estimates that the filter returns when it is
    applied timestep after timestep. *)
Lemma rollout_loop means :
  length means = N -> Forall (fun m => length m = D) means ->
  forall n ests p lw,
  (start_time + 1 + length ests + n <= end_time)%nat ->
  Forall (estimate_ok N D) ests ->
  particles_ok N M D p ->
  exists later p' lw',
    filter_estimates pf_model (inputs_at collate observation trajectories C) noisy_dynamics p lw
      (seq (start_time + 1 + length ests) n) = Returns later
    /\ length later = n /\ Forall (estimate_ok N D) later
    /\ for_each (Rollout.timestep pf_model obs_at collate trajectories start_time
                   noisy_dynamics)
         {| Rollout.particles := p; Rollout.log_weights := lw;
            Rollout.predicted_states := predicted_from means ests |}
         (seq (start_time + 1 + length ests) n)
       = Returns {| Rollout.particles := p'; Rollout.log_weights := lw';
                    Rollout.predicted_states := predicted_from means (ests ++ later) |}.
Proof using All.
  intros Hm HD. induction n as [|n IH]; intros ests p lw Hend Hests Hp.
  - exists [], p, lw. cbn. rewrite app_nil_r. auto.
  - destruct (rollout_timestep means ests p lw _ eq_refl) as
      (est & np & nlw & Hfw & Hest & Hnp & Hstep); try assumption; [nlia|].
    destruct (IH (ests ++ [est]) np nlw) as (later & p' & lw' & Hfe & Hlen & Hok & Hloop).
    { rewrite length_app. cbn. nlia. }
    { apply Forall_app. auto. }
    { exact Hnp. }
    replace (start_time + 1 + length (ests ++ [est]))%nat
      with (S (start_time + 1 + length ests)) in Hfe, Hloop
      by (rewrite length_app; cbn; lia).
    exists (est :: later), p', lw'.
    cbn [seq filter_estimates for_each]. rewrite Hfw, Hstep. cbn [bind].
    rewrite Hfe, Hloop. cbn [bind length]. rewrite <- app_assoc in *. cbn [app].
    repeat split; try reflexivity; [now rewrite Hlen|now constructor].
Qed.

Lemma predicted_from_rows means ests :
  length means = N -> Forall (fun m => length m = D) means ->
  Forall (estimate_ok N D) ests ->
  Forall (fun q => length q = S (length ests) /\ Forall (fun r => length r = D) q)
    (predicted_from means ests).
Proof using All.
  intros Hm HD Hests. apply Forall_lookup. intros i q Hq.
  unfold predicted_from in Hq. rewrite list_lookup_imap in Hq.
  destruct (means !! i) as [m|] eqn:Hmi; [|discriminate].
  cbn in Hq. injection Hq as <-.
  assert (Hi : (i < N)%nat) by (apply lookup_lt_Some in Hmi; nlia).
  split; [cbn; now rewrite length_map|].
  constructor.
  - eapply (proj1 (Forall_lookup _ _) HD); eassumption.
  - apply Forall_map. eapply Forall_impl; [exact Hests|].
    intros est Hest. cbn. now apply estimate_row_length.
Qed.

Lemma first_state_dim :
  exists first_trajectory first_state,
    Rollout.item
      (map (fun traj : Rollout.Trajectory => slice start_time end_time (fst (fst traj)))
         trajectories) 0 = Returns first_trajectory
    /\ Rollout.item first_trajectory 0 = Returns first_state
    /\ length first_state = D.
Proof using All.
  destruct (lookup_lt_is_Some_2 trajectories 0) as [traj Htraj];
    [exact some_trajectory_length|].
  assert (Hin := lookup_In _ _ _ Htraj).
  destruct (trajectory_wf traj Hin) as (Hstates & _ & _).
  assert (Hle := end_time_le trajectories start_time max_timesteps traj Hin).
  destruct (lookup_lt_is_Some_2 (slice start_time end_time (fst (fst traj))) 0)
    as [first Hfirst].
  { rewrite slice_length by nlia. nlia. }
  exists (slice start_time end_time (fst (fst traj))), first.
  split; [|split].
  - apply item_lookup. now rewrite list_lookup_fmap, Htraj.
  - now apply item_lookup.
  - eapply (proj1 (Forall_lookup _ _) (slice_Forall _ start_time end_time _ Hstates)).
    exact Hfirst.
Qed.

Lemma rect3_of_wf3 N' M' D' (v : list (list (list R))) :
  wf3 N' M' D' v = true ->
  length v = N'
  /\ Forall (fun q => length q = M' /\ Forall (fun r => length r = D') q) v.
Proof using Type.
  intros H. split; [now apply wf3_length in H|].
  unfold wf3 in H. apply andb_true_iff in H as [_ H].
  rewrite forallb_forall in H. apply List.Forall_forall. intros q Hq.
  specialize (H q Hq). unfold wf2 in H. apply andb_true_iff in H as [H1 H2].
  apply Nat.eqb_eq in H1. now apply forallb_wf1 in H2.
Qed.

Lemma Forall_zip_with2 {A B E} (P : A -> Prop) (Q : B -> Prop) (S : E -> Prop)
    (f : A -> B -> E) l k :
  (forall a b, P a -> Q b -> S (f a b)) ->
  Forall P l -> Forall Q k -> Forall S (zip_with f l k).
Proof using Type.
  intros Hf Hl. revert k. induction Hl as [|a l Ha Hl IH]; intros k Hk; [constructor|].
  destruct Hk as [|b k Hb Hk]; cbn; constructor; auto.
Qed.

Lemma wf3_add3 (x y : list (list (list R))) :
  wf3 N M D x = true -> wf3 N M D y = true -> wf3 N M D (Rollout.add3 x y) = true.
Proof using All.
  intros Hx Hy. apply rect3_of_wf3 in Hx as [Hx1 Hx2]. apply rect3_of_wf3 in Hy as [Hy1 Hy2].
  unfold Rollout.add3. apply wf3_Forall; [rewrite length_zip_with; nlia|].
  eapply Forall_zip_with2; [|exact Hx2|exact Hy2].
  intros q q' [Hq Hr] [Hq' Hr']. split; [rewrite length_zip_with; nlia|].
  eapply Forall_zip_with2; [|exact Hr|exact Hr'].
  intros r r' Hlen Hlen'. unfold vadd. rewrite length_zip_with. nlia.
Qed.

Lemma wf3_zeros : wf3 N M D (Rollout.zeros N M D) = true.
Proof using All.
  unfold Rollout.zeros. apply wf3_Forall; [apply repeat_length|].
  apply List.Forall_forall. intros q Hq. apply repeat_spec in Hq. subst q.
  split; [apply repeat_length|].
  apply List.Forall_forall. intros r Hr. apply repeat_spec in Hr. subst r.
  apply repeat_length.
Qed.

Lemma wf3_normal scale z : wf3 N M D (Rollout.normal scale N M D z) = true.
Proof using All.
  unfold Rollout.normal. apply wf3_Forall; [apply tabulate_length|].
  apply Forall_map, Forall_forall. intros n _. cbn.
  split; [apply tabulate_length|].
  apply Forall_map, Forall_forall. intros m _. cbn. apply tabulate_length.
Qed.

Lemma set_initial_all :
  forall n a cur, (a + n <= N)%nat -> wf3 N M D cur = true ->
  exists r, for_each (Rollout.set_initial trajectories M D) cur (seq a n) = Returns r
            /\ wf3 N M D r = true.
Proof using All.
  induction n as [|n IH]; intros a cur Ha Hcur; [cbn; eauto|].
  cbn [seq for_each]. unfold Rollout.set_initial at 1.
  destruct (lookup_lt_is_Some_2 trajectories a) as [traj Htraj]; [nlia|].
  assert (Hin := lookup_In _ _ _ Htraj).
  destruct (trajectory_wf traj Hin) as (Hstates & _ & _).
  assert (Hle := end_time_le trajectories start_time max_timesteps traj Hin).
  destruct (lookup_lt_is_Some_2 (fst (fst traj)) 0) as [first Hfirst]; [nlia|].
  assert (Hlen : length first = D)
    by exact (proj1 (Forall_lookup _ _) Hstates _ _ Hfirst).
  rewrite (item_lookup _ _ _ Htraj). cbn [bind].
  rewrite (item_lookup _ _ _ Hfirst). cbn [bind].
  rewrite Hlen, expandable_same, expand_to_same.
  apply IH; [lia|].
  apply rect3_of_wf3 in Hcur as [Hc1 Hc2].
  apply wf3_Forall; [now rewrite length_insert|].
  apply Forall_insert; [exact Hc2|].
  split; [apply repeat_length|].
  apply List.Forall_forall. intros r Hr. apply repeat_spec in Hr. now subst r.
Qed.

Lemma initial_particles_return true_initial z :
  exists particles0,
    Rollout.initial_particles trajectories N M D true_initial z = Returns particles0
    /\ wf3 N M D particles0 = true.
Proof using All.
  unfold Rollout.initial_particles. destruct true_initial.
  - unfold range.
    destruct (set_initial_all (N - 0) 0 (Rollout.zeros N M D)) as (r & -> & Hr);
      [lia|apply wf3_zeros|].
    cbn [bind]. eexists. split; [reflexivity|]. apply wf3_add3; [exact Hr|apply wf3_normal].
  - eexists. split; [reflexivity|]. apply wf3_add3; [apply wf3_zeros|apply wf3_normal].
Qed.


End RolloutProperties.

Lemma mean_filter_returns N M D noisy_dynamics p lw
    (o : gmap string Tensor) (c : Tensor) :
  particles_ok N M D p ->
  exists est np nlw,
    forward mean_filter p lw o c true noisy_dynamics None = Returns (est, np, nlw)
    /\ estimate_ok N D est /\ particles_ok N M D np.
Proof.
  intros [Hshape Hwf]. cbn [forward mean_filter].
  destruct (data p) as [? ?|? ? ?|N' M' D' v] eqn:Hdata; try discriminate.
  cbn in Hshape. injection Hshape as -> -> ->. cbn [wf] in Hwf.
  do 3 eexists. split; [reflexivity|]. split.
  - eexists. split; [reflexivity|]. unfold wf2.
    rewrite length_map, (wf3_length _ _ _ _ Hwf), Nat.eqb_refl. cbn.
    apply forallb_forall. intros r Hr. apply in_map_iff in Hr as (ps & <- & _).
    unfold wf1, Rollout.particle_mean. rewrite tabulate_length. apply Nat.eqb_refl.
  - split; [reflexivity|exact Hwf].
Qed.



(** * Further properties of the code *)

(** ** The simple dynamics model with noise *)

Lemma scale_cos_sin_short scale (p : list R) :
  (length p <= 2)%nat -> PandaSimpleDynamicsModel.scale_cos_sin scale p = p.
Proof.
  intros H. destruct p as [|a [|b [|c p]]]; cbn in *; try reflexivity; lia.
Qed.

Lemma scale_cos_sin_slice scale (p : list R) :
  slice 2 4 (PandaSimpleDynamicsModel.scale_cos_sin scale p)
  = map (fun x => x / scale) (slice 2 4 p).
Proof. destruct p as [|a [|b [|c [|d p]]]]; reflexivity. Qed.

Lemma scale_cos_sin_length scale (p : list R) :
  length (PandaSimpleDynamicsModel.scale_cos_sin scale p) = length p.
Proof. destruct p as [|a [|b [|c [|d p]]]]; reflexivity. Qed.

(** The simple model called with [noisy=True]: up to the projection it is
    [states_prev + noise]. *)
Lemma simple_forward_noisy (self : PandaSimpleDynamicsModel.t)
    (N M D : nat) (sp : list (list (list R))) (controls : Tensor) (z : Draws) :
  D = length (PandaSimpleDynamicsModel.state_noise_stddev self) ->
  let noised :=
    T3 N M D
      (zip_with (zip_with (zip_with Rplus)) sp
         (tabulate N (fun n => tabulate M (fun m =>
            imap (fun d s => 0 + s * z n m d)
              (PandaSimpleDynamicsModel.state_noise_stddev self))))) in
  tensor_add (T3 N M D sp)
    (normal_sample (PandaSimpleDynamicsModel.state_noise_stddev self) N M z)
  = Returns noised
  /\ PandaSimpleDynamicsModel.forward self (T3 N M D sp) controls true z
     = Returns (PandaSimpleDynamicsModel.divide_cos_sin noised
                  (PandaSimpleDynamicsModel.cos_sin_norm noised)).
Proof.
  intros -> noised.
  assert (Hadd : tensor_add
            (T3 N M (length (PandaSimpleDynamicsModel.state_noise_stddev self)) sp)
            (normal_sample (PandaSimpleDynamicsModel.state_noise_stddev self) N M z)
          = Returns noised).
  { unfold tensor_add, normal_sample. cbn [tensor_zip]. now rewrite !Nat.eqb_refl. }
  split; [exact Hadd|].
  unfold PandaSimpleDynamicsModel.forward.
  cbn [shape length Nat.eqb assert bind]. rewrite Nat.eqb_refl.
  cbn [assert bind]. rewrite shape_is_true by reflexivity.
  cbn [assert bind]. now rewrite Hadd.
Qed.

Lemma map_map_id {A} (f : A -> A) (v : list (list A)) :
  Forall (Forall (fun p => f p = p)) v -> map (map f) v = v.
Proof.
  induction 1 as [|ps v Hps _ IH]; [reflexivity|]. cbn. f_equal; [|exact IH].
  induction Hps as [|p ps Hp _ IHp]; [reflexivity|]. cbn. now rewrite Hp, IHp.
Qed.

Lemma zip3_Forall {A B E} (Q : B -> Prop) (S : E -> Prop) (f : A -> B -> E)
    (x : list (list A)) (y : list (list B)) :
  (forall a b, Q b -> S (f a b)) ->
  Forall (Forall Q) y -> Forall (Forall S) (zip_with (zip_with f) x y).
Proof.
  intros Hf Hy. revert x. induction Hy as [|q y Hq _ IH]; intros [|p x];
    try constructor; [|apply IH].
  revert p. induction Hq as [|b q Hb _ IHq]; intros [|a p]; constructor; auto.
Qed.

Lemma noise_rows (stddev : list R) (N M : nat) (z : Draws) :
  Forall (Forall (fun r : list R => length r = length stddev))
    (tabulate N (fun n => tabulate M (fun m => imap (fun d s => 0 + s * z n m d) stddev))).
Proof.
  unfold tabulate. apply Forall_map, Forall_forall. intros n _. cbn.
  apply Forall_map, Forall_forall. intros m _. cbn. apply length_imap.
Qed.

(** X1: when the state has at most two dimensions (as with the default
    noise tuple) the projection to cosine/sine space has nothing to act on,
    and the noisy forward pass returns exactly [states_prev + noise]. *)
Theorem simple_forward_short_state_is_states_plus_noise
    (self : PandaSimpleDynamicsModel.t) (N M D : nat)
    (sp : list (list (list R))) (controls : Tensor) (z : Draws) :
  D = length (PandaSimpleDynamicsModel.state_noise_stddev self) ->
  (D <= 2)%nat ->
  PandaSimpleDynamicsModel.forward self (T3 N M D sp) controls true z
  = tensor_add (T3 N M D sp)
      (normal_sample (PandaSimpleDynamicsModel.state_noise_stddev self) N M z)
  /\ exists out,
       PandaSimpleDynamicsModel.forward self (T3 N M D sp) controls true z
       = Returns (T3 N M D out).
Proof.
  intros HD Hle.
  destruct (simple_forward_noisy self N M D sp controls z HD) as [Hadd Hfw].
  rewrite Hfw, Hadd. cbn [PandaSimpleDynamicsModel.divide_cos_sin].
  rewrite map_map_id; [split; [reflexivity|eauto]|].
  apply (zip3_Forall (fun r : list R => length r
                        = length (PandaSimpleDynamicsModel.state_noise_stddev self)));
    [|apply noise_rows].
  intros p r Hr. apply scale_cos_sin_short. rewrite length_zip_with. lia.
Qed.

Lemma simple_forward_short_state_is_states_plus_noise_witness :
  PandaSimpleDynamicsModel.forward (PandaSimpleDynamicsModel.init None)
    (T3 1 2 2 [[[1; 2]; [3; 4]]]) (T1 0 []) true (fun _ _ _ => 1)
  = tensor_add (T3 1 2 2 [[[1; 2]; [3; 4]]])
      (normal_sample PandaSimpleDynamicsModel.default_state_noise_stddev 1 2
         (fun _ _ _ => 1)).
Proof.
  exact (proj1 (simple_forward_short_state_is_states_plus_noise
                  (PandaSimpleDynamicsModel.init None) 1 2 2 [[[1; 2]; [3; 4]]]
                  (T1 0 []) (fun _ _ _ => 1) eq_refl ltac:(lia))).
Defined.

Lemma sum_squares_scaled (s : R) (l : list R) :
  s <> 0 ->
  sum (map (fun e => e * e) (map (fun x => x / s) l))
  = sum (map (fun e => e * e) l) / (s * s).
Proof.
  intros Hs. unfold sum. induction l as [|x l IH]; cbn [map fold_right].
  - unfold Rdiv. now rewrite Rmult_0_l.
  - rewrite IH. field. exact Hs.
Qed.

Lemma cos_sin_entries_scaled (s : R) (v : list (list (list R))) :
  concat (concat (map (map (slice 2 4))
                    (map (map (PandaSimpleDynamicsModel.scale_cos_sin s)) v)))
  = map (fun x => x / s) (concat (concat (map (map (slice 2 4)) v))).
Proof.
  rewrite !concat_map. f_equal. f_equal.
  rewrite !map_map. apply map_ext. intros ps.
  rewrite !map_map. apply map_ext. intros p. apply scale_cos_sin_slice.
Qed.

(** X2: the projection of the noisy simple model normalises the whole batch
    at once: whenever the entries 2 and 3 of the noised particles are not all
    zero, their squares over all trajectories and particles of the output add
    up to 1. *)
Theorem simple_forward_normalises_whole_batch
    (self : PandaSimpleDynamicsModel.t) (N M D : nat)
    (sp : list (list (list R))) (controls noised : Tensor) (z : Draws) :
  D = length (PandaSimpleDynamicsModel.state_noise_stddev self) ->
  tensor_add (T3 N M D sp)
    (normal_sample (PandaSimpleDynamicsModel.state_noise_stddev self) N M z)
  = Returns noised ->
  0 < cos_sin_energy noised ->
  exists out,
    PandaSimpleDynamicsModel.forward self (T3 N M D sp) controls true z = Returns out
    /\ shape out = [N; M; D]
    /\ cos_sin_energy out = 1.
Proof.
  intros HD Hnoised Hpos.
  destruct (simple_forward_noisy self N M D sp controls z HD) as [Hadd Hfw].
  rewrite Hadd in Hnoised. injection Hnoised as <-.
  eexists. split; [exact Hfw|]. split; [reflexivity|].
  cbn [PandaSimpleDynamicsModel.divide_cos_sin PandaSimpleDynamicsModel.cos_sin_norm
       cos_sin_energy] in *.
  rewrite cos_sin_entries_scaled. unfold norm.
  set (E := sum (map (fun e => e * e) _)) in *.
  assert (Hs : sqrt E <> 0).
  { intros H0. apply sqrt_eq_0 in H0; lra. }
  rewrite sum_squares_scaled by exact Hs. fold E.
  rewrite sqrt_sqrt by lra. field. lra.
Qed.

Lemma simple_forward_normalises_whole_batch_witness :
  exists out,
    PandaSimpleDynamicsModel.forward
      (PandaSimpleDynamicsModel.init (Some [0.05; 0.05; 0.1; 0.1]))
      (T3 1 2 4 [[[0; 0; 0.6; 0.8]; [0; 0; 0.6; 0.8]]])
      (T2 1 7 [[0; 0; 0; 0; 0; 0; 0]]) true (fun _ _ _ => 1) = Returns out
    /\ shape out = [1; 2; 4]%nat
    /\ cos_sin_energy out = 1.
Proof.
  apply (simple_forward_normalises_whole_batch
           (PandaSimpleDynamicsModel.init (Some [0.05; 0.05; 0.1; 0.1]))
           1 2 4 [[[0; 0; 0.6; 0.8]; [0; 0; 0.6; 0.8]]] _ _ (fun _ _ _ => 1)
           eq_refl eq_refl).
  cbn. unfold sum. cbn. lra.
Defined.

Lemma simple_forward_inversion
    (self : PandaSimpleDynamicsModel.t) (states_prev controls out : Tensor)
    (noisy : bool) (z : Draws) :
  PandaSimpleDynamicsModel.forward self states_prev controls noisy z = Returns out ->
  exists N M sp,
    states_prev = T3 N M (length (PandaSimpleDynamicsModel.state_noise_stddev self)) sp.
Proof.
  intros Hout. unfold PandaSimpleDynamicsModel.forward in Hout.
  destruct states_prev as [? ?|? ? ?|N M D sp]; try discriminate.
  cbn [shape length Nat.eqb assert bind] in Hout.
  destruct (D =? _)%nat eqn:HD; [|discriminate].
  apply Nat.eqb_eq in HD. subst D. now exists N, M, sp.
Qed.

(** X3: the simple dynamics model returns exactly for states of rank 3 whose
    last dimension is the length of the noise tuple, whatever the controls and
    whether noise is asked for or not. *)
Theorem simple_forward_returns_iff
    (self : PandaSimpleDynamicsModel.t) (states_prev controls : Tensor)
    (noisy : bool) (z : Draws) :
  (exists out,
     PandaSimpleDynamicsModel.forward self states_prev controls noisy z = Returns out)
  <-> (exists N M,
         shape states_prev
         = [N; M; length (PandaSimpleDynamicsModel.state_noise_stddev self)]).
Proof.
  split.
  - intros [out Hout].
    destruct (simple_forward_inversion _ _ _ _ _ _ Hout) as (N & M & sp & ->).
    now exists N, M.
  - intros (N & M & Hshape).
    destruct states_prev as [? ?|? ? ?|N' M' D sp]; try discriminate.
    cbn in Hshape. injection Hshape as -> -> ->.
    destruct noisy.
    + destruct (simple_forward_noisy self N M _ sp controls z eq_refl) as [_ ->]. eauto.
    + unfold PandaSimpleDynamicsModel.forward.
      cbn [shape length Nat.eqb assert bind]. rewrite Nat.eqb_refl. eauto.
Qed.

Lemma wf3_scale_cos_sin N M D scale (v : list (list (list R))) :
  wf3 N M D v = true ->
  wf3 N M D (map (map (PandaSimpleDynamicsModel.scale_cos_sin scale)) v) = true.
Proof.
  intros H. apply rect3_of_wf3 in H as [H1 H2].
  apply wf3_Forall; [now rewrite length_map|].
  apply Forall_map. eapply Forall_impl; [exact H2|].
  intros q [Hq Hr]. cbn. split; [now rewrite length_map|].
  apply Forall_map. eapply Forall_impl; [exact Hr|].
  intros r Hlen. cbn. now rewrite scale_cos_sin_length.
Qed.

Lemma wf3_normal_sample (stddev : list R) (N M : nat) (z : Draws) :
  wf (normal_sample stddev N M z) = true.
Proof.
  unfold normal_sample. cbn [wf]. apply wf3_Forall; [apply tabulate_length|].
  apply Forall_map, Forall_forall. intros n _. cbn.
  split; [apply tabulate_length|].
  apply Forall_map, Forall_forall. intros m _. cbn. apply length_imap.
Qed.

Lemma wf3_zip_with (f : R -> R -> R) N M D (x y : list (list (list R))) :
  wf3 N M D x = true -> wf3 N M D y = true ->
  wf3 N M D (zip_with (zip_with (zip_with f)) x y) = true.
Proof.
  intros Hx Hy. apply rect3_of_wf3 in Hx as [Hx1 Hx2]. apply rect3_of_wf3 in Hy as [Hy1 Hy2].
  apply wf3_Forall; [rewrite length_zip_with; lia|].
  eapply Forall_zip_with2; [|exact Hx2|exact Hy2].
  intros q q' [Hq Hr] [Hq' Hr']. split; [rewrite length_zip_with; lia|].
  eapply Forall_zip_with2; [|exact Hr|exact Hr'].
  intros r r' Hlen Hlen'. cbn beta in *. rewrite length_zip_with. lia.
Qed.

(** X4: whatever the simple dynamics model returns has the shape of
    [states_prev], and its entries fill that shape when those of
    [states_prev] do: noise and projection change values only. *)
Theorem simple_forward_keeps_shape
    (self : PandaSimpleDynamicsModel.t) (states_prev controls out : Tensor)
    (noisy : bool) (z : Draws) :
  PandaSimpleDynamicsModel.forward self states_prev controls noisy z = Returns out ->
  shape out = shape states_prev /\ (wf states_prev = true -> wf out = true).
Proof.
  intros Hout.
  destruct (simple_forward_inversion _ _ _ _ _ _ Hout) as (N & M & sp & ->).
  destruct noisy.
  - destruct (simple_forward_noisy self N M _ sp controls z eq_refl) as [_ Hfw].
    rewrite Hfw in Hout. injection Hout as <-.
    split; [reflexivity|]. cbn [wf PandaSimpleDynamicsModel.divide_cos_sin].
    intros Hwf. apply wf3_scale_cos_sin, wf3_zip_with; [exact Hwf|].
    exact (wf3_normal_sample (PandaSimpleDynamicsModel.state_noise_stddev self) N M z).
  - unfold PandaSimpleDynamicsModel.forward in Hout.
    cbn [shape length Nat.eqb assert bind] in Hout. rewrite Nat.eqb_refl in Hout.
    cbn [bind] in Hout. injection Hout as <-. auto.
Qed.

Lemma simple_forward_keeps_shape_witness :
  exists out,
    PandaSimpleDynamicsModel.forward
      (PandaSimpleDynamicsModel.init (Some [0.05; 0.05; 0.1; 0.1]))
      (T3 1 2 4 [[[0; 0; 0.6; 0.8]; [0; 0; 0.6; 0.8]]]) (T1 0 []) true (fun _ _ _ => 1)
    = Returns out
    /\ shape out = [1; 2; 4]%nat /\ wf out = true.
Proof.
  eexists. split; [reflexivity|].
  destruct (simple_forward_keeps_shape
              (PandaSimpleDynamicsModel.init (Some [0.05; 0.05; 0.1; 0.1]))
              (T3 1 2 4 [[[0; 0; 0.6; 0.8]; [0; 0; 0.6; 0.8]]]) (T1 0 []) _ true
              (fun _ _ _ => 1) eq_refl) as [Hs Hw].
  split; [exact Hs|exact (Hw eq_refl)].
Defined.

(** ** The learned dynamics model: what it accepts *)

(** The forward pass on inputs of the shapes it is built for, before the
    particles of a trajectory are told apart. *)
Lemma dynamics_forward_unfolded
    (self : PandaDynamicsModel.t) (N M : nat)
    (sp : list (list (list R))) (c : list (list R)) (noisy : bool) (z : Draws) :
  (PandaDynamicsModel.units self / 2 + PandaDynamicsModel.units self / 2
   = PandaDynamicsModel.units self)%nat ->
  let raw :=
    zip_with (zip_with (zip_with Rplus)) sp
      (map (map (PandaDynamicsModel.shared_layers self))
         (zip_with (zip_with app)
            (map (fun r => repeat r M) (map (PandaDynamicsModel.control_layers self) c))
            (map (map (PandaDynamicsModel.state_layers self)) sp))) in
  PandaDynamicsModel.forward self (T3 N M 2 sp) (T2 N 7 c) noisy z
  = if noisy
    then (check assert (shape_is (normal_sample
              (PandaDynamicsModel.state_noise_stddev self) N M z) [N; M; 2%nat]) "" in
          tensor_add (T3 N M 2 raw)
            (normal_sample (PandaDynamicsModel.state_noise_stddev self) N M z))
    else Returns (T3 N M 2 raw).
Proof.
  intros Heven raw. unfold PandaDynamicsModel.forward.
  cbn [shape length Nat.eqb assert bind apply_net PandaDynamicsModel.control_dim].
  rewrite shape_is_true by reflexivity. cbn [assert bind unsqueeze_expand].
  rewrite !expandable_same. cbn [andb bind].
  rewrite shape_is_true by reflexivity.
  cbn [assert bind apply_net PandaDynamicsModel.state_dim Nat.eqb].
  rewrite shape_is_true by reflexivity. cbn [assert bind cat_dim2].
  rewrite !Nat.eqb_refl. cbn [andb bind].
  rewrite shape_is_true by (cbn [shape]; now rewrite Heven).
  cbn [assert bind apply_net].
  replace (_ + _ =? _)%nat with true by (symmetry; now apply Nat.eqb_eq).
  cbn [bind]. rewrite shape_is_true by reflexivity.
  cbn [assert bind]. unfold tensor_add at 1. cbn [tensor_zip].
  rewrite !Nat.eqb_refl. cbn [andb bind].
  rewrite shape_is_true by reflexivity. cbn [assert bind].
  rewrite expand_to_same.
  rewrite (map_ext (fun r => repeat (expand_to _ _ r) M) (fun r => repeat r M))
    by (intros r; now rewrite expand_to_same).
  reflexivity.
Qed.

Lemma shape_is_inv x s : shape_is x s = true -> shape x = s.
Proof. unfold shape_is. apply bool_decide_eq_true_1. Qed.

Lemma assert_inv {A} cond msg (k : result A) out :
  (check assert cond msg in k) = Returns out -> cond = true /\ k = Returns out.
Proof. destruct cond; cbn; [auto|discriminate]. Qed.

Lemma bind_inv {A B} (e : result A) (k : A -> result B) out :
  bind e k = Returns out -> exists x, e = Returns x /\ k x = Returns out.
Proof. destruct e; cbn; [eauto|discriminate]. Qed.

(** What a returning forward pass of the learned dynamics says of its
    inputs. *)
Lemma dynamics_forward_inversion
    (self : PandaDynamicsModel.t) (states_prev controls out : Tensor)
    (noisy : bool) (z : Draws) :
  PandaDynamicsModel.forward self states_prev controls noisy z = Returns out ->
  exists N M sp c,
    states_prev = T3 N M 2 sp /\ controls = T2 N 7 c
    /\ (PandaDynamicsModel.units self / 2 + PandaDynamicsModel.units self / 2
        = PandaDynamicsModel.units self)%nat
    /\ (noisy = true -> length (PandaDynamicsModel.state_noise_stddev self) = 2%nat).
Proof.
  intros Hout. unfold PandaDynamicsModel.forward in Hout.
  destruct states_prev as [? ?|? ? ?|N M D sp]; try discriminate.
  destruct controls as [? ?|Nc C c|? ? ? ?]; try discriminate.
  cbn [shape length Nat.eqb assert bind apply_net] in Hout.
  destruct (C =? PandaDynamicsModel.control_dim)%nat eqn:HC; [|discriminate].
  apply Nat.eqb_eq in HC. unfold PandaDynamicsModel.control_dim in HC. subst C.
  cbn [bind] in Hout.
  apply assert_inv in Hout as [H1 Hout]. apply shape_is_inv in H1.
  cbn [shape] in H1. injection H1 as ->.
  apply bind_inv in Hout as (cf & Hcf & Hout).
  cbn [unsqueeze_expand] in Hcf. rewrite !expandable_same in Hcf. cbn [andb] in Hcf.
  injection Hcf as <-.
  apply assert_inv in Hout as [_ Hout].
  cbn [apply_net] in Hout.
  destruct (D =? PandaDynamicsModel.state_dim)%nat eqn:HD; [|discriminate].
  apply Nat.eqb_eq in HD. unfold PandaDynamicsModel.state_dim in HD. subst D.
  cbn [bind] in Hout.
  apply assert_inv in Hout as [_ Hout].
  cbn [cat_dim2] in Hout. rewrite !Nat.eqb_refl in Hout. cbn [andb bind] in Hout.
  apply assert_inv in Hout as [H2 Hout]. apply shape_is_inv in H2.
  cbn [shape] in H2. injection H2 as Heven.
  apply bind_inv in Hout as (upd & Hupd & Hout).
  cbn [apply_net] in Hupd.
  destruct (_ =? _)%nat in Hupd; [|discriminate]. injection Hupd as <-.
  apply assert_inv in Hout as [_ Hout].
  apply bind_inv in Hout as (new & Hnew & Hout).
  unfold tensor_add in Hnew. cbn [tensor_zip] in Hnew.
  rewrite !Nat.eqb_refl in Hnew. cbn [andb] in Hnew. injection Hnew as <-.
  apply assert_inv in Hout as [_ Hout].
  exists N, M, sp, c. split; [reflexivity|]. split; [reflexivity|]. split; [exact Heven|].
  intros ->. apply assert_inv in Hout as [H3 _]. apply shape_is_inv in H3.
  unfold normal_sample in H3. cbn [shape] in H3. now injection H3.
Qed.

(** X5: the learned dynamics model returns exactly when the states have
    shape [(N, M, 2)], the controls have shape [(N, 7)] with the same [N],
    [units] is even (the two halves of [units // 2] features must add up to
    [units]) and, with [noisy=True], the noise tuple has 2 entries. *)
Theorem dynamics_forward_returns_iff
    (self : PandaDynamicsModel.t) (states_prev controls : Tensor)
    (noisy : bool) (z : Draws) :
  (exists out,
     PandaDynamicsModel.forward self states_prev controls noisy z = Returns out)
  <-> (exists N M,
         shape states_prev = [N; M; 2%nat] /\ shape controls = [N; 7%nat]
         /\ Nat.even (PandaDynamicsModel.units self) = true
         /\ (noisy = true
             -> length (PandaDynamicsModel.state_noise_stddev self) = 2%nat)).
Proof.
  split.
  - intros [out Hout].
    destruct (dynamics_forward_inversion _ _ _ _ _ _ Hout)
      as (N & M & sp & c & -> & -> & Heven & Hnoise).
    exists N, M. split; [reflexivity|]. split; [reflexivity|]. split; [|exact Hnoise].
    apply Nat.even_spec. exists (PandaDynamicsModel.units self / 2)%nat. lia.
  - intros (N & M & Hs & Hc & Heven & Hnoise).
    destruct states_prev as [? ?|? ? ?|N' M' D sp]; try discriminate.
    destruct controls as [? ?|Nc C c|? ? ? ?]; try discriminate.
    cbn in Hs, Hc. injection Hs as -> -> ->. injection Hc as -> ->.
    assert (Hhalves : (PandaDynamicsModel.units self / 2 + PandaDynamicsModel.units self / 2
                       = PandaDynamicsModel.units self)%nat).
    { apply Nat.even_spec in Heven as [k Hk]. rewrite Hk.
      replace (2 * k)%nat with (k * 2)%nat by lia. rewrite Nat.div_mul by lia. lia. }
    rewrite (dynamics_forward_unfolded self N M sp c noisy z Hhalves).
    destruct noisy; [|eauto].
    unfold normal_sample. rewrite (Hnoise eq_refl).
    rewrite shape_is_true by reflexivity. cbn [assert bind].
    unfold tensor_add. cbn [tensor_zip]. rewrite !Nat.eqb_refl. cbn [andb]. eauto.
Qed.

Lemma wf2_Forall N D (v : list (list R)) :
  wf2 N D v = true -> length v = N /\ Forall (fun r => length r = D) v.
Proof.
  intros H. split; [now apply wf2_length in H|].
  unfold wf2 in H. apply andb_true_iff in H as [_ H]. now apply forallb_wf1.
Qed.

(** The features of every particle, merged and passed through a trunk that
    reads [a + b] features and writes [o]. *)
Lemma wf3_merged_features {a b o i j} (trunk : list R -> list R) (control : Net i a)
    (embed : Net j b) (N M : nat) (c : list (list R)) (sp : list (list (list R))) :
  (forall v, length v = (a + b)%nat -> length (trunk v) = o) ->
  wf2 N i c = true -> wf3 N M j sp = true ->
  wf3 N M o
    (map (map trunk)
       (zip_with (zip_with app) (map (fun r => repeat r M) (map control c))
          (map (map embed) sp))) = true.
Proof.
  intros Htrunk Hc Hsp. apply wf2_Forall in Hc as [Hc1 Hc2].
  apply rect3_of_wf3 in Hsp as [Hs1 Hs2].
  apply wf3_Forall; [rewrite length_map, length_zip_with, !length_map; lia|].
  apply Forall_map.
  eapply (Forall_zip_with2
            (fun q => length q = M /\ Forall (fun r : list R => length r = a) q)
            (fun q => length q = M /\ Forall (fun r : list R => length r = b) q)).
  - intros q q' [Hq Hr] [Hq' Hr']. cbn beta.
    split; [rewrite length_map, length_zip_with; lia|].
    apply Forall_map.
    eapply Forall_zip_with2; [|exact Hr|exact Hr'].
    intros r r' Hlen Hlen'. cbn beta in *. apply Htrunk. rewrite length_app. lia.
  - apply Forall_map, Forall_map. eapply Forall_impl; [exact Hc2|].
    intros r Hr. cbn beta in *. split; [apply repeat_length|].
    apply List.Forall_forall. intros x Hx. apply repeat_spec in Hx. subst x.
    now apply net_len.
  - apply Forall_map. eapply Forall_impl; [exact Hs2|].
    intros q [Hq Hr]. cbn beta. split; [now rewrite length_map|].
    apply Forall_map. eapply Forall_impl; [exact Hr|].
    intros r Hlen. cbn beta in *. now apply net_len.
Qed.

(** X6: on well-formed states and controls, whatever the learned dynamics
    model returns is a well-formed tensor of the shape of [states_prev],
    with or without noise. *)
Theorem dynamics_forward_keeps_shape
    (self : PandaDynamicsModel.t) (states_prev controls out : Tensor)
    (noisy : bool) (z : Draws) :
  PandaDynamicsModel.forward self states_prev controls noisy z = Returns out ->
  wf states_prev = true -> wf controls = true ->
  shape out = shape states_prev /\ wf out = true.
Proof.
  intros Hout Hws Hwc.
  destruct (dynamics_forward_inversion _ _ _ _ _ _ Hout)
    as (N & M & sp & c & -> & -> & Heven & Hnoise).
  rewrite (dynamics_forward_unfolded self N M sp c noisy z Heven) in Hout.
  cbn [wf] in Hws, Hwc.
  assert (Hraw : wf3 N M 2
    (zip_with (zip_with (zip_with Rplus)) sp
      (map (map (PandaDynamicsModel.shared_layers self))
         (zip_with (zip_with app)
            (map (fun r => repeat r M) (map (PandaDynamicsModel.control_layers self) c))
            (map (map (PandaDynamicsModel.state_layers self)) sp)))) = true).
  { apply wf3_zip_with; [exact Hws|].
    apply (wf3_merged_features (PandaDynamicsModel.shared_layers self)
             (PandaDynamicsModel.control_layers self)
             (PandaDynamicsModel.state_layers self)); [|exact Hwc|exact Hws].
    intros v Hv. apply net_len. now rewrite Hv. }
  destruct noisy.
  - apply assert_inv in Hout as [_ Hout].
    unfold tensor_add, normal_sample in Hout. cbn [tensor_zip] in Hout.
    rewrite (Hnoise eq_refl), !Nat.eqb_refl in Hout. cbn [andb] in Hout.
    injection Hout as <-. split; [reflexivity|]. cbn [wf].
    apply wf3_zip_with; [exact Hraw|].
    generalize (wf3_normal_sample (PandaDynamicsModel.state_noise_stddev self) N M z).
    unfold normal_sample. cbn [wf]. now rewrite (Hnoise eq_refl).
  - injection Hout as <-. split; [reflexivity|exact Hraw].
Qed.

Lemma dynamics_forward_keeps_shape_witness :
  exists out,
    PandaDynamicsModel.forward small_dynamics (T3 1 2 2 [[[1; 2]; [3; 4]]])
      (T2 1 7 [[1; 1; 1; 1; 1; 1; 1]]) true (fun _ _ _ => 1) = Returns out
    /\ shape out = [1; 2; 2]%nat /\ wf out = true.
Proof.
  eexists. split; [reflexivity|].
  exact (dynamics_forward_keeps_shape small_dynamics (T3 1 2 2 [[[1; 2]; [3; 4]]])
           (T2 1 7 [[1; 1; 1; 1; 1; 1; 1]]) _ true (fun _ _ _ => 1)
           eq_refl eq_refl eq_refl).
Defined.

(** ** The measurement model: what it accepts, and broadcasting *)

(** The forward pass for observations of batch size [Nb] and states of [N]
    trajectories, [Nb] being [N] or 1. *)
Lemma measurement_forward_unfolded
    (self : PandaMeasurementModel.t) (observations : gmap string Tensor)
    (N M Nb H W : nat) (st imgs : list (list (list R))) (pos sens : list (list R)) :
  observations !! "image"%string = Some (T3 Nb H W imgs) ->
  observations !! "gripper_pos"%string = Some (T2 Nb 3 pos) ->
  observations !! "gripper_sensors"%string = Some (T2 Nb 7 sens) ->
  (H * W = 1024)%nat ->
  expandable N Nb = true ->
  PandaMeasurementModel.forward self observations (T3 N M 2 st)
  = Returns (T2 N M
      (map (map (fun r => nth 0 r 0))
         (map (map (PandaMeasurementModel.shared_layers self))
            (zip_with (zip_with app)
               (map (fun r => repeat r M)
                  (expand_to N Nb (zip3 (trajectory_features self) imgs pos sens)))
               (map (map (PandaMeasurementModel.state_layers self)) st))))).
Proof.
  intros Hi Hp Hs HW Hexp.
  set (u := PandaMeasurementModel.units self).
  unfold PandaMeasurementModel.forward.
  cbn [shape length Nat.eqb assert bind].
  unfold PandaMeasurementModel.getitem. rewrite Hi, Hp, Hs.
  cbn [bind PandaMeasurementModel.observation_image_layers apply_net
       PandaMeasurementModel.obs_pos_dim PandaMeasurementModel.obs_sensors_dim].
  replace (1 * H * W)%nat with 1024%nat by lia.
  rewrite !Nat.eqb_refl. cbn [bind cat_dim1].
  rewrite !Nat.eqb_refl. cbn [andb bind unsqueeze_expand]. fold u.
  replace (u + u + u)%nat with (u * 3)%nat by lia.
  rewrite Hexp, expandable_same. cbn [andb bind].
  rewrite shape_is_true by reflexivity.
  cbn [assert bind apply_net PandaMeasurementModel.state_dim Nat.eqb].
  rewrite shape_is_true by reflexivity. cbn [assert bind cat_dim2].
  rewrite !Nat.eqb_refl. cbn [andb bind].
  replace (u * 3 + u)%nat with (u * 4)%nat by lia.
  rewrite shape_is_true by reflexivity. cbn [assert bind apply_net].
  rewrite Nat.eqb_refl. cbn [bind].
  rewrite shape_is_true by reflexivity. cbn [assert bind squeeze_dim2].
  rewrite (map_ext (fun r => repeat (expand_to _ _ r) M) (fun r => repeat r M))
    by (intros r; now rewrite expand_to_same).
  rewrite (map_map _ (PandaMeasurementModel.image_linear self) imgs).
  rewrite (zip_with_app_map3
             (fun img => PandaMeasurementModel.image_linear self
                           (concat (PandaMeasurementModel.image_conv self img)))).
  reflexivity.
Qed.

Lemma expand_to_single {A} (n : nat) (x : A) : expand_to n 1 [x] = repeat x n.
Proof.
  unfold expand_to. destruct (1 =? n)%nat eqn:Hn.
  - apply Nat.eqb_eq in Hn. now subst n.
  - cbn. apply app_nil_r.
Qed.

Lemma zip_with_repeat_l {A B C} (f : A -> B -> C) (a : A) (l : list B) :
  zip_with f (repeat a (length l)) l = map (f a) l.
Proof. induction l as [|b l IH]; [reflexivity|]. cbn. now rewrite IH. Qed.

(** X7: observations of batch size 1 are accepted for states of any number
    [N] of trajectories: the one feature vector is broadcast, and every
    particle of every trajectory is scored against the same observation. *)
Theorem measurement_forward_broadcasts_single_observation
    (self : PandaMeasurementModel.t) (observations : gmap string Tensor)
    (N M H W : nat) (st : list (list (list R))) (img : list (list R)) (p s : list R) :
  observations !! "image"%string = Some (T3 1 H W [img]) ->
  observations !! "gripper_pos"%string = Some (T2 1 3 [p]) ->
  observations !! "gripper_sensors"%string = Some (T2 1 7 [s]) ->
  (H * W = 1024)%nat ->
  wf3 N M 2 st = true ->
  PandaMeasurementModel.forward self observations (T3 N M 2 st)
  = Returns (T2 N M
      (map (map (particle_score self (trajectory_features self img p s))) st)).
Proof.
  intros Hi Hp Hs HW Hwf.
  rewrite (measurement_forward_unfolded self observations N M 1 H W st [img] [p] [s]
             Hi Hp Hs HW)
    by (unfold expandable; cbn; apply orb_true_r).
  replace (zip3 (trajectory_features self) [img] [p] [s])
    with [trajectory_features self img p s] by reflexivity.
  rewrite expand_to_single.
  rewrite score_all_trajectories by (eapply wf3_rows; eassumption).
  rewrite <- (wf3_length _ _ _ _ Hwf) at 2.
  now rewrite (zip_with_repeat_l
                 (fun f ps => map (fun q => nth 0 (PandaMeasurementModel.shared_layers self
                    (f ++ PandaMeasurementModel.state_layers self q)) 0) ps)).
Qed.

Lemma measurement_forward_broadcasts_single_observation_witness :
  PandaMeasurementModel.forward small_measurement (blank_observations 32 32)
    (T3 2 1 2 [[[1; 2]]; [[3; 4]]])
  = Returns (T2 2 1
      (map (map (particle_score small_measurement
                   (trajectory_features small_measurement (blank_image 32 32)
                      [0; 0; 0] [0; 0; 0; 0; 0; 0; 0])))
         [[[1; 2]]; [[3; 4]]])).
Proof.
  apply (measurement_forward_broadcasts_single_observation small_measurement
           (blank_observations 32 32) 2 1 32 32);
    reflexivity.
Defined.

Lemma getitem_inv (observations : gmap string Tensor) key x :
  PandaMeasurementModel.getitem observations key = Returns x -> observations !! key = Some x.
Proof.
  unfold PandaMeasurementModel.getitem. destruct (observations !! key); [|discriminate].
  now intros [= ->].
Qed.

Lemma expandable_inv n d : expandable n d = true -> d = n \/ d = 1%nat.
Proof.
  unfold expandable. intros H. apply orb_true_iff in H as [H|H];
    apply Nat.eqb_eq in H; auto.
Qed.

(** X8: the measurement model returns exactly when the states have shape
    [(N, M, 2)] and the dictionary holds a rank-3 image of 1024 pixels, a
    gripper position of width 3 and gripper sensors of width 7, all three
    matrices of one batch size that is [N] or 1. *)
Theorem measurement_forward_returns_iff
    (self : PandaMeasurementModel.t) (observations : gmap string Tensor)
    (states : Tensor) :
  (exists out, PandaMeasurementModel.forward self observations states = Returns out)
  <-> (exists N M Nb H W st imgs pos sens,
         states = T3 N M 2 st
         /\ observations !! "image"%string = Some (T3 Nb H W imgs)
         /\ observations !! "gripper_pos"%string = Some (T2 Nb 3 pos)
         /\ observations !! "gripper_sensors"%string = Some (T2 Nb 7 sens)
         /\ (H * W = 1024)%nat
         /\ (Nb = N \/ Nb = 1%nat)).
Proof.
  split.
  - intros [out Hout]. unfold PandaMeasurementModel.forward in Hout.
    destruct states as [? ?|? ? ?|N M D st]; try discriminate.
    cbn [shape length Nat.eqb assert bind] in Hout.
    apply bind_inv in Hout as (image & Himage & Hout). apply getitem_inv in Himage.
    apply bind_inv in Hout as (imf & Himf & Hout).
    destruct image as [? ?|? ? ?|Nb H W imgs]; try discriminate.
    cbn [PandaMeasurementModel.observation_image_layers apply_net] in Himf.
    destruct (1 * H * W =? 1024)%nat eqn:HW; [|discriminate].
    apply Nat.eqb_eq in HW. injection Himf as <-.
    apply bind_inv in Hout as (gp & Hgp & Hout). apply getitem_inv in Hgp.
    apply bind_inv in Hout as (pf & Hpf & Hout).
    apply bind_inv in Hout as (gs & Hgs & Hout). apply getitem_inv in Hgs.
    apply bind_inv in Hout as (sf & Hsf & Hout).
    apply bind_inv in Hout as (obf & Hof & Hout).
    destruct gp as [? ?|Np Cp pos|? ? ? ?]; cbn [apply_net] in Hpf;
      try (destruct (_ =? _)%nat in Hpf; [injection Hpf as <-|]; discriminate).
    destruct (Cp =? PandaMeasurementModel.obs_pos_dim)%nat eqn:HCp; [|discriminate].
    apply Nat.eqb_eq in HCp. subst Cp. injection Hpf as <-.
    destruct gs as [? ?|Ns Cs sens|? ? ? ?]; cbn [apply_net] in Hsf;
      try (destruct (_ =? _)%nat in Hsf; [injection Hsf as <-|]; discriminate).
    destruct (Cs =? PandaMeasurementModel.obs_sensors_dim)%nat eqn:HCs; [|discriminate].
    apply Nat.eqb_eq in HCs. subst Cs. injection Hsf as <-.
    cbn [cat_dim1] in Hof.
    destruct (Nb =? Np)%nat eqn:H1; [|discriminate].
    destruct (Nb =? Ns)%nat eqn:H2; [|discriminate].
    apply Nat.eqb_eq in H1, H2. subst Np Ns. cbn [andb] in Hof. injection Hof as <-.
    apply bind_inv in Hout as (ofe & Hofe & Hout).
    cbn [unsqueeze_expand] in Hofe.
    destruct (expandable N Nb) eqn:Hexp; [|discriminate].
    apply expandable_inv in Hexp.
    destruct (expandable _ _) in Hofe; [|discriminate].
    cbn [andb] in Hofe. injection Hofe as <-.
    apply assert_inv in Hout as [_ Hout].
    cbn [apply_net] in Hout.
    destruct (D =? PandaMeasurementModel.state_dim)%nat eqn:HD; [|discriminate].
    apply Nat.eqb_eq in HD. unfold PandaMeasurementModel.state_dim in HD. subst D.
    exists N, M, Nb, H, W, st, imgs, pos, sens.
    repeat split; try assumption. lia.
  - intros (N & M & Nb & H & W & st & imgs & pos & sens & -> & Hi & Hp & Hs & HW & HNb).
    eexists. apply (measurement_forward_unfolded self observations N M Nb H W);
      try eassumption.
    unfold expandable. destruct HNb as [->| ->]; [now rewrite Nat.eqb_refl|].
    apply orb_true_r.
Qed.

(** ** The initial particle weights *)

Lemma sum_repeat (x : R) (n : nat) : sum (repeat x n) = INR n * x.
Proof.
  unfold sum. induction n as [|n IH]; [cbn; lra|].
  cbn [repeat fold_right]. rewrite IH, S_INR. lra.
Qed.

(** X9: the log-weights that [train_e2e] and [rollout] start from are
    uniform and normalised: for at least one particle, they fill the shape
    [(N, M)] and the weights [exp(log_weight)] of every trajectory add up
    to 1. *)
Theorem uniform_log_weights_normalised (N M : nat) :
  (0 < M)%nat ->
  exists rows,
    uniform_log_weights N M = T2 N M rows
    /\ wf2 N M rows = true
    /\ length rows = N
    /\ Forall (fun row => sum (map exp row) = 1) rows.
Proof.
  intros HM. eexists. split; [reflexivity|].
  assert (Hwf : wf2 N M (repeat (repeat (1 * - ln (INR M)) M) N) = true).
  { unfold wf2. rewrite repeat_length, Nat.eqb_refl. cbn.
    apply forallb_forall. intros r Hr. apply repeat_spec in Hr. subst r.
    unfold wf1. now rewrite repeat_length, Nat.eqb_refl. }
  split; [exact Hwf|]. split; [apply repeat_length|].
  apply List.Forall_forall. intros row Hrow. apply repeat_spec in Hrow. subst row.
  assert (HINR : 0 < INR M) by (apply lt_0_INR; lia).
  rewrite map_repeat, sum_repeat, Rmult_1_l, exp_Ropp, exp_ln by exact HINR.
  field. lra.
Qed.

Lemma uniform_log_weights_normalised_witness :
  exists rows,
    uniform_log_weights 2 100 = T2 2 100 rows
    /\ wf2 2 100 rows = true
    /\ length rows = 2%nat
    /\ Forall (fun row => sum (map exp row) = 1) rows.
Proof. apply uniform_log_weights_normalised. lia. Defined.

(** ** The training loops: optimizer steps, logging and short batches *)

Lemma log_every_inv buddy log_interval scope names buddy' r :
  log_every buddy log_interval scope names = (buddy', r) ->
  optimizer_steps buddy' = optimizer_steps buddy
  /\ minimized buddy' = minimized buddy
  /\ match r with
     | Returns _ =>
         log_interval <> 0%nat
         /\ logged buddy'
            = logged buddy
              ++ (if (optimizer_steps buddy mod log_interval =? 0)%nat
                  then map (fun n => (scope, n)) names else [])
     | Raises e => log_interval = 0%nat /\ e = ZeroDivisionError /\ buddy' = buddy
     end.
Proof.
  unfold log_every. destruct log_interval as [|k].
  - intros [= <- <-]. auto.
  - destruct (_ =? 0)%nat; intros [= <- <-]; cbn;
      (split; [reflexivity|]; split; [reflexivity|]; split; [lia|]).
    + reflexivity.
    + now rewrite app_nil_r.
Qed.

Section TrainingLoops.

Context {Obs BatchObs : Type}.
Variable pf_model : nat -> nat -> ParticleFilterNetwork Obs.
Variable dict_slice : BatchObs -> nat -> result Obs.
Variable gmm_loss : Var -> Var -> Tensor -> list R -> result R.
Variable squared_error : Var -> Tensor -> result R.
Variable recurrent_model : nat -> ParticleFilterNetwork Obs.

(** What one batch of [train_e2e] does to the [Buddy]. *)
Lemma e2e_batch_body_inv args buddy bound batch buddy' r :
  TrainE2E.batch_body pf_model dict_slice gmm_loss squared_error args buddy bound batch
  = (buddy', r) ->
  match r with
  | Returns bound' =>
      TrainE2E.log_interval args <> 0%nat
      /\ bound' <> None
      /\ optimizer_steps buddy' = S (optimizer_steps buddy)
      /\ (exists loss,
            minimized buddy' = minimized buddy ++ [(TrainE2E.optim_name args, loss)])
      /\ logged buddy'
         = logged buddy
           ++ (if (S (optimizer_steps buddy) mod TrainE2E.log_interval args =? 0)%nat
               then map (fun n => (TrainE2E.optim_name args, n)) e2e_log_names else [])
  | Raises e =>
      buddy' = buddy
      \/ (TrainE2E.log_interval args = 0%nat /\ e = ZeroDivisionError
          /\ exists loss, buddy' = minimize buddy loss (TrainE2E.optim_name args))
  end.
Proof.
  unfold TrainE2E.batch_body.
  destruct (TrainE2E.batch_steps _ _ _ _ _ _) as [st|e]; [|intros [= <- <-]; auto].
  destruct (mean_stack _) as [loss|e]; [|intros [= <- <-]; auto].
  cbn zeta.
  destruct (log_every _ _ _ _) as [b [[]|e]] eqn:Hlog; intros [= <- <-];
    apply log_every_inv in Hlog as (Hsteps & Hmin & Hr); cbn in *.
  - destruct Hr as [Hk Hlogged]. split; [exact Hk|]. split; [discriminate|].
    split; [exact Hsteps|]. split; [now exists loss|exact Hlogged].
  - destruct Hr as (Hk & -> & ->). right. eauto.
Qed.

Lemma e2e_loop_inv args dataloader :
  forall buddy bound buddy' r,
  for_each_batch (TrainE2E.batch_body pf_model dict_slice gmm_loss squared_error args)
    buddy bound dataloader = (buddy', r) ->
  (optimizer_steps buddy <= optimizer_steps buddy'
   <= optimizer_steps buddy + length dataloader)%nat
  /\ (forall bound', r = Returns bound' ->
        optimizer_steps buddy' = (optimizer_steps buddy + length dataloader)%nat
        /\ (dataloader <> [] -> TrainE2E.log_interval args <> 0%nat /\ bound' <> None)
        /\ (exists losses,
              length losses = length dataloader
              /\ minimized buddy'
                 = minimized buddy ++ map (fun l => (TrainE2E.optim_name args, l)) losses)).
Proof.
  induction dataloader as [|batch rest IH]; intros buddy bound buddy' r.
  - cbn. intros [= <- <-]. split; [lia|]. intros bound' _.
    split; [lia|]. split; [congruence|]. exists []. cbn. now rewrite app_nil_r.
  - cbn [for_each_batch length].
    destruct (TrainE2E.batch_body _ _ _ _ _ _ _ _) as [b1 [s1|e]] eqn:Hbody;
      apply e2e_batch_body_inv in Hbody.
    + destruct Hbody as (Hk & Hs1 & Hsteps & [loss Hmin] & _). intros Hrest.
      destruct (IH _ _ _ _ Hrest) as [Hbound Hret].
      split; [lia|]. intros bound' ->.
      destruct (Hret bound' eq_refl) as (Hs & Hb & losses & Hlen & Hm).
      split; [lia|]. split.
      * intros _. split; [exact Hk|].
        destruct rest as [|b2 rest']; [|now apply Hb].
        cbn in Hrest. now injection Hrest as _ <-.
      * exists (loss :: losses). cbn. split; [lia|].
        rewrite Hm, Hmin, <- app_assoc. reflexivity.
    + intros [= <- <-]. split.
      * destruct Hbody as [->|(_ & _ & loss & ->)]; cbn; lia.
      * intros bound' [=].
Qed.

(** X10: [train_e2e] takes one optimizer step per batch and never more:
    whatever the outcome, the step count grows by at most the number of
    batches; when the function returns, the data loader was not empty, the
    logging interval is not 0, and the optimizer named [optim_name] has been
    stepped exactly once for each batch. *)
Theorem train_e2e_steps_once_per_batch
    (buddy buddy' : Buddy) (dataloader : list (TrainE2E.Batch (BatchObs := BatchObs)))
    (args : TrainE2E.Args) (r : result unit) :
  TrainE2E.train_e2e pf_model dict_slice gmm_loss squared_error buddy dataloader args
  = (buddy', r) ->
  (optimizer_steps buddy <= optimizer_steps buddy'
   <= optimizer_steps buddy + length dataloader)%nat
  /\ (r = Returns tt ->
      dataloader <> [] /\ TrainE2E.log_interval args <> 0%nat
      /\ optimizer_steps buddy' = (optimizer_steps buddy + length dataloader)%nat
      /\ exists losses,
           length losses = length dataloader
           /\ minimized buddy'
              = minimized buddy ++ map (fun l => (TrainE2E.optim_name args, l)) losses).
Proof.
  unfold TrainE2E.train_e2e.
  destruct (for_each_batch _ buddy None dataloader) as [b [[l|]|e]] eqn:Hloop;
    intros [= <- <-]; destruct (e2e_loop_inv _ _ _ _ _ _ Hloop) as [Hbound Hret];
    (split; [exact Hbound|]); try discriminate.
  intros _. destruct (Hret _ eq_refl) as (Hs & Hb & Hlosses).
  assert (Hne : dataloader <> []).
  { intros ->. cbn in Hloop. discriminate. }
  destruct (Hb Hne) as [Hk _]. auto.
Qed.

(** X11: with [log_interval=0], [train_e2e] never returns: it stops at the
    first batch, either before any optimizer step, or with a
    [ZeroDivisionError] from the logging test right after the one optimizer
    step of that batch has been taken. *)
Theorem train_e2e_zero_log_interval
    (buddy buddy' : Buddy) (dataloader : list (TrainE2E.Batch (BatchObs := BatchObs)))
    (args : TrainE2E.Args) (r : result unit) :
  TrainE2E.log_interval args = 0%nat ->
  TrainE2E.train_e2e pf_model dict_slice gmm_loss squared_error buddy dataloader args
  = (buddy', r) ->
  exists e,
    r = Raises e
    /\ (buddy' = buddy
        \/ (e = ZeroDivisionError
            /\ exists loss, buddy' = minimize buddy loss (TrainE2E.optim_name args))).
Proof.
  intros Hk. unfold TrainE2E.train_e2e.
  destruct dataloader as [|batch rest].
  - cbn. intros [= <- <-]. eauto.
  - cbn [for_each_batch].
    destruct (TrainE2E.batch_body _ _ _ _ _ _ _ _) as [b1 [s1|e]] eqn:Hbody;
      apply e2e_batch_body_inv in Hbody.
    + destruct Hbody as [Hne _]. congruence.
    + intros [= <- <-]. exists e. split; [reflexivity|].
      destruct Hbody as [->|(_ & -> & loss & ->)]; eauto.
Qed.

Lemma shape3_inv x a b c : shape x = [a; b; c] -> exists v, x = T3 a b c v.
Proof. destruct x; intros [=]; subst; eauto. Qed.

Lemma range_empty a b : (b <= a)%nat -> range a b = [].
Proof. intros H. unfold range. now replace (b - a)%nat with 0%nat by lia. Qed.

(** X12: a batch of [train_e2e] whose sequences have fewer than two
    timesteps leaves no loss to stack: for any loss type and any model, the
    filter is not called, [torch.stack] of the empty list raises a
    [RuntimeError], and no optimizer step is taken. *)
Theorem train_e2e_short_batch_raises
    (buddy : Buddy) (args : TrainE2E.Args)
    (batch_particles batch_states batch_controls : Tensor) (batch_obs : BatchObs)
    (rest : list (TrainE2E.Batch (BatchObs := BatchObs)))
    (N M D Ns Ds C timesteps : nat) :
  shape batch_particles = [N; M; D] ->
  shape batch_states = [Ns; timesteps; Ds] ->
  shape batch_controls = [N; timesteps; C] ->
  (timesteps <= 1)%nat ->
  TrainE2E.train_e2e pf_model dict_slice gmm_loss squared_error buddy
    ((batch_particles, batch_states, batch_obs, batch_controls) :: rest) args
  = (buddy, Raises RuntimeError).
Proof.
  intros Hp Hs Hc HT.
  unfold TrainE2E.train_e2e. cbn [for_each_batch].
  unfold TrainE2E.batch_body, TrainE2E.batch_steps.
  rewrite Hc, Hs, Hp. rewrite shape_is_true by exact Hc.
  cbn [assert bind]. rewrite range_empty by exact HT.
  reflexivity.
Qed.

(** What one batch of [train_dynamics_recurrent] does to the [Buddy]. *)
Lemma recurrent_batch_body_inv log_interval loss_type optim_name buddy epoch_losses
    (batch : TrainDynamicsRecurrent.Batch (BatchObs := BatchObs)) buddy' r :
  TrainDynamicsRecurrent.batch_body recurrent_model log_interval loss_type optim_name
    buddy epoch_losses batch = (buddy', r) ->
  match r with
  | Returns _ =>
      log_interval <> 0%nat
      /\ optimizer_steps buddy' = S (optimizer_steps buddy)
      /\ (exists loss, minimized buddy' = minimized buddy ++ [(optim_name, loss)])
  | Raises e =>
      buddy' = buddy
      \/ (log_interval = 0%nat /\ e = ZeroDivisionError
          /\ exists loss, buddy' = minimize buddy loss optim_name)
  end.
Proof.
  unfold TrainDynamicsRecurrent.batch_body.
  destruct (TrainDynamicsRecurrent.batch_loss _ _ _) as [[loss st]|e];
    [|intros [= <- <-]; auto].
  cbn zeta.
  destruct (log_every _ _ _ _) as [b [[]|e]] eqn:Hlog; intros [= <- <-];
    apply log_every_inv in Hlog as (Hsteps & Hmin & Hr); cbn in *.
  - destruct Hr as [Hk _]. split; [exact Hk|]. split; [exact Hsteps|]. now exists loss.
  - destruct Hr as (Hk & -> & ->). right. eauto.
Qed.

Lemma recurrent_loop_inv log_interval loss_type optim_name
    (dataloader : list (TrainDynamicsRecurrent.Batch (BatchObs := BatchObs))) :
  forall buddy epoch_losses buddy' r,
  for_each_batch
    (TrainDynamicsRecurrent.batch_body recurrent_model log_interval loss_type optim_name)
    buddy epoch_losses dataloader = (buddy', r) ->
  (optimizer_steps buddy <= optimizer_steps buddy'
   <= optimizer_steps buddy + length dataloader)%nat
  /\ match r with
     | Returns _ =>
         optimizer_steps buddy' = (optimizer_steps buddy + length dataloader)%nat
         /\ (dataloader <> [] -> log_interval <> 0%nat)
         /\ (exists losses,
               length losses = length dataloader
               /\ minimized buddy'
                  = minimized buddy ++ map (fun l => (optim_name, l)) losses)
     | Raises e =>
         log_interval = 0%nat -> dataloader <> [] ->
         buddy' = buddy
         \/ (e = ZeroDivisionError /\ exists loss, buddy' = minimize buddy loss optim_name)
     end.
Proof.
  induction dataloader as [|batch rest IH]; intros buddy epoch_losses buddy' r.
  - cbn. intros [= <- <-]. split; [lia|].
    split; [lia|]. split; [congruence|]. exists []. cbn. now rewrite app_nil_r.
  - cbn [for_each_batch length].
    destruct (TrainDynamicsRecurrent.batch_body _ _ _ _ _ _ _) as [b1 [s1|e]] eqn:Hbody;
      apply recurrent_batch_body_inv in Hbody.
    + destruct Hbody as (Hk & Hsteps & [loss Hmin]). intros Hrest.
      destruct (IH _ _ _ _ Hrest) as [Hbound Hret].
      split; [lia|]. destruct r as [s'|e].
      * destruct Hret as (Hs & _ & losses & Hlen & Hm).
        split; [lia|]. split; [auto|].
        exists (loss :: losses). cbn. split; [lia|].
        rewrite Hm, Hmin, <- app_assoc. reflexivity.
      * intros H0. congruence.
    + intros [= <- <-]. split.
      * destruct Hbody as [->|(_ & _ & loss & ->)]; cbn; lia.
      * intros _ _. destruct Hbody as [->|(_ & -> & loss & ->)]; eauto.
Qed.

(** X13: [train_dynamics_recurrent] takes one optimizer step per batch and
    never more; when it returns, the loss type is one of the four it knows
    and the optimizer named [optim_name] has been stepped exactly once for
    each batch.  With [log_interval=0] and at least one batch it never
    returns: it stops at the first batch, before any optimizer step or with
    a [ZeroDivisionError] right after the first one. *)
Theorem train_dynamics_recurrent_steps_once_per_batch
    (buddy buddy' : Buddy)
    (dataloader : list (TrainDynamicsRecurrent.Batch (BatchObs := BatchObs)))
    (log_interval : nat) (loss_type optim_name : string) (r : result unit) :
  TrainDynamicsRecurrent.train_dynamics_recurrent recurrent_model buddy dataloader
    log_interval loss_type optim_name = (buddy', r) ->
  (optimizer_steps buddy <= optimizer_steps buddy'
   <= optimizer_steps buddy + length dataloader)%nat
  /\ (r = Returns tt ->
      In loss_type TrainDynamicsRecurrent.loss_types
      /\ (dataloader <> [] -> log_interval <> 0%nat)
      /\ optimizer_steps buddy' = (optimizer_steps buddy + length dataloader)%nat
      /\ exists losses,
           length losses = length dataloader
           /\ minimized buddy' = minimized buddy ++ map (fun l => (optim_name, l)) losses)
  /\ (log_interval = 0%nat -> dataloader <> [] ->
      exists e,
        r = Raises e
        /\ (buddy' = buddy
            \/ (e = ZeroDivisionError
                /\ exists loss, buddy' = minimize buddy loss optim_name))).
Proof.
  unfold TrainDynamicsRecurrent.train_dynamics_recurrent.
  destruct (existsb _ _) eqn:Hin; cbn [negb].
  - apply existsb_exists in Hin as (l & Hl & Heq). apply String.eqb_eq in Heq. subst l.
    destruct (for_each_batch _ buddy [] dataloader) as [b [l|e]] eqn:Hloop;
      intros [= <- <-]; destruct (recurrent_loop_inv _ _ _ _ _ _ _ _ Hloop) as [Hbound Hret];
      (split; [exact Hbound|]); split; try discriminate.
    + intros _. destruct Hret as (Hs & Hk & Hlosses). auto.
    + intros H0 Hne. destruct Hret as (_ & Hk & _). now apply Hk in Hne.
    + intros H0 Hne. exists e. split; [reflexivity|]. now apply Hret.
  - intros [= <- <-]. split; [lia|]. split; [discriminate|]. eauto.
Qed.

(** X14: a first batch of [train_dynamics_recurrent] with a single
    timestep propagates nothing, so [torch.stack] of the empty list of
    losses raises a [RuntimeError]; with no timestep at all, reading the
    first states raises an [IndexError].  Either way the dynamics model is
    not called and no optimizer step is taken. *)
Theorem train_dynamics_recurrent_short_batch_raises
    (buddy : Buddy) (log_interval : nat) (loss_type optim_name : string)
    (batch_states batch_controls : Tensor) (batch_obs : BatchObs)
    (rest : list (TrainDynamicsRecurrent.Batch (BatchObs := BatchObs)))
    (N D C timesteps : nat) :
  In loss_type TrainDynamicsRecurrent.loss_types ->
  shape batch_states = [N; timesteps; D] ->
  shape batch_controls = [N; timesteps; C] ->
  (timesteps <= 1)%nat ->
  TrainDynamicsRecurrent.train_dynamics_recurrent recurrent_model buddy
    ((batch_states, batch_obs, batch_controls) :: rest) log_interval loss_type optim_name
  = (buddy, Raises (if (timesteps =? 0)%nat then IndexError else RuntimeError)).
Proof.
  intros Hin Hs Hc HT.
  unfold TrainDynamicsRecurrent.train_dynamics_recurrent.
  replace (existsb (String.eqb loss_type) TrainDynamicsRecurrent.loss_types) with true.
  2:{ symmetry. apply existsb_exists. exists loss_type. split; [exact Hin|].
      apply String.eqb_refl. }
  cbn [negb for_each_batch].
  unfold TrainDynamicsRecurrent.batch_body, TrainDynamicsRecurrent.batch_loss.
  destruct (shape3_inv _ _ _ _ Hs) as [s ->]. destruct (shape3_inv _ _ _ _ Hc) as [c ->].
  cbn [shape]. rewrite shape_is_true by reflexivity. cbn [assert bind select_dim1].
  destruct timesteps as [|[|T]]; [reflexivity| |lia].
  cbn [Nat.ltb Nat.leb bind]. rewrite shape_is_true by reflexivity.
  cbn [assert bind TrainDynamicsRecurrent.label_deltas].
  rewrite tabulate_length. reflexivity.
Qed.

Lemma div_succ (s k : nat) :
  k <> 0%nat ->
  (S s / k = s / k + (if (S s mod k =? 0)%nat then 1 else 0))%nat.
Proof.
  intros Hk.
  assert (H1 := Nat.div_mod_eq s k). assert (H2 := Nat.div_mod_eq (S s) k).
  assert (H3 := Nat.mod_upper_bound s k Hk).
  assert (H4 := Nat.mod_upper_bound (S s) k Hk).
  destruct (S s mod k =? 0)%nat eqn:H0.
  - apply Nat.eqb_eq in H0. nia.
  - apply Nat.eqb_neq in H0. nia.
Qed.

Lemma e2e_loop_logged args dataloader :
  forall buddy bound buddy' bound',
  for_each_batch (TrainE2E.batch_body pf_model dict_slice gmm_loss squared_error args)
    buddy bound dataloader = (buddy', Returns bound') ->
  exists entries,
    logged buddy' = logged buddy ++ entries
    /\ (length entries + 5 * (optimizer_steps buddy / TrainE2E.log_interval args)
        = 5 * ((optimizer_steps buddy + length dataloader) / TrainE2E.log_interval args))%nat
    /\ Forall (fun entry => fst entry = TrainE2E.optim_name args) entries.
Proof.
  induction dataloader as [|batch rest IH]; intros buddy bound buddy' bound'.
  - cbn [for_each_batch length]. intros [= <- <-]. exists [].
    rewrite Nat.add_0_r, app_nil_r.
    split; [reflexivity|]. split; [reflexivity|constructor].
  - cbn [for_each_batch length].
    destruct (TrainE2E.batch_body _ _ _ _ _ _ _ _) as [b1 [s1|e]] eqn:Hbody;
      [|discriminate].
    apply e2e_batch_body_inv in Hbody as (Hk & _ & Hsteps & _ & Hlogged).
    intros Hrest. destruct (IH _ _ _ _ Hrest) as (entries & Hl & Hcount & Hnames).
    rewrite Hsteps in Hcount.
    replace (S (optimizer_steps buddy) + length rest)%nat
      with (optimizer_steps buddy + S (length rest))%nat in Hcount by lia.
    assert (Hdiv := div_succ (optimizer_steps buddy) _ Hk).
    eexists. split; [rewrite Hl, Hlogged, <- app_assoc; reflexivity|].
    rewrite length_app. split.
    + destruct (_ =? 0)%nat; cbn [length map e2e_log_names] in *; lia.
    + apply Forall_app. split; [|exact Hnames].
      destruct (_ =? 0)%nat; [|constructor].
      apply Forall_map, Forall_forall. now intros.
Qed.

(** X15: [train_e2e] logs its five scalars, under the scope [optim_name],
    each time the step count reaches a multiple of [log_interval]: a run that
    returns after [n] batches, started at step count [s], has added
    [5 * ((s + n) / log_interval - s / log_interval)] entries to the log. *)
Theorem train_e2e_logs_every_interval
    (buddy buddy' : Buddy) (dataloader : list (TrainE2E.Batch (BatchObs := BatchObs)))
    (args : TrainE2E.Args) :
  TrainE2E.train_e2e pf_model dict_slice gmm_loss squared_error buddy dataloader args
  = (buddy', Returns tt) ->
  exists entries,
    logged buddy' = logged buddy ++ entries
    /\ length entries
       = (5 * ((optimizer_steps buddy + length dataloader) / TrainE2E.log_interval args
               - optimizer_steps buddy / TrainE2E.log_interval args))%nat
    /\ Forall (fun entry => fst entry = TrainE2E.optim_name args) entries.
Proof.
  unfold TrainE2E.train_e2e.
  destruct (for_each_batch _ buddy None dataloader) as [b [[l|]|e]] eqn:Hloop;
    intros [= <-].
  destruct (e2e_loop_logged _ _ _ _ _ _ Hloop) as (entries & Hl & Hcount & Hnames).
  exists entries. split; [exact Hl|]. split; [lia|exact Hnames].
Qed.

End TrainingLoops.

Lemma train_e2e_steps_once_per_batch_witness :
  optimizer_steps
    (fst (TrainE2E.train_e2e (fun _ _ => mean_filter) same_observations zero_gmm_loss
            estimate_squared_error fresh_buddy [sample_e2e_batch; sample_e2e_batch]
            TrainE2E.defaults))
  = 2%nat.
Proof.
  exact (proj1 (proj2 (proj2 (proj2
    (train_e2e_steps_once_per_batch (fun _ _ => mean_filter) same_observations
       zero_gmm_loss estimate_squared_error fresh_buddy _
       [sample_e2e_batch; sample_e2e_batch] TrainE2E.defaults _
       (surjective_pairing _)) eq_refl)))).
Defined.

Lemma train_e2e_zero_log_interval_witness :
  exists e,
    snd (TrainE2E.train_e2e (fun _ _ => mean_filter) same_observations zero_gmm_loss
           estimate_squared_error fresh_buddy [sample_e2e_batch]
           {| TrainE2E.log_interval := 0; TrainE2E.loss_type := "mse";
              TrainE2E.optim_name := "e2e"; TrainE2E.resample := false;
              TrainE2E.know_image_blackout := false |})
    = Raises e.
Proof.
  destruct (train_e2e_zero_log_interval (fun _ _ => mean_filter) same_observations
              zero_gmm_loss estimate_squared_error fresh_buddy _ [sample_e2e_batch]
              {| TrainE2E.log_interval := 0; TrainE2E.loss_type := "mse";
                 TrainE2E.optim_name := "e2e"; TrainE2E.resample := false;
                 TrainE2E.know_image_blackout := false |} _
              eq_refl (surjective_pairing _)) as [e [He _]].
  exists e. exact He.
Defined.

Lemma train_e2e_short_batch_raises_witness :
  TrainE2E.train_e2e (fun _ _ => mean_filter) same_observations zero_gmm_loss
    estimate_squared_error fresh_buddy [single_timestep_batch] TrainE2E.defaults
  = (fresh_buddy, Raises RuntimeError).
Proof.
  apply (train_e2e_short_batch_raises (fun _ _ => mean_filter) same_observations
           zero_gmm_loss estimate_squared_error fresh_buddy TrainE2E.defaults
           _ _ _ _ [] 2 2 2 2 2 7 1);
    [reflexivity | reflexivity | reflexivity | lia].
Defined.

Lemma train_dynamics_recurrent_steps_once_per_batch_witness :
  optimizer_steps
    (fst (TrainDynamicsRecurrent.train_dynamics_recurrent (fun _ => mean_filter)
            fresh_buddy [(sample_states, blank_observations 32 32, sample_controls)]
            10 "l1" "dynamics_recurrent"))
  = 1%nat.
Proof.
  exact (proj1 (proj2 (proj2 (proj1 (proj2
    (train_dynamics_recurrent_steps_once_per_batch (fun _ => mean_filter) fresh_buddy _
       [(sample_states, blank_observations 32 32, sample_controls)]
       10 "l1" "dynamics_recurrent" _ (surjective_pairing _))) eq_refl)))).
Defined.

Lemma train_dynamics_recurrent_short_batch_raises_witness :
  TrainDynamicsRecurrent.train_dynamics_recurrent (fun _ => mean_filter) fresh_buddy
    [(T3 2 1 2 [[[0; 0]]; [[0; 1]]], blank_observations 32 32,
      T3 2 1 7 (repeat (repeat (repeat 0 7) 1) 2))]
    10 "l1" "dynamics_recurrent"
  = (fresh_buddy, Raises RuntimeError).
Proof.
  apply (train_dynamics_recurrent_short_batch_raises (fun _ => mean_filter) fresh_buddy
           10 "l1" "dynamics_recurrent" _ _ _ [] 2 2 7 1);
    [now left | reflexivity | reflexivity | lia].
Defined.

Lemma train_e2e_logs_every_interval_witness :
  exists entries,
    logged (fst (TrainE2E.train_e2e (fun _ _ => mean_filter) same_observations
                   zero_gmm_loss estimate_squared_error fresh_buddy
                   [sample_e2e_batch; sample_e2e_batch] TrainE2E.defaults))
    = entries
    /\ length entries = 5%nat.
Proof.
  destruct (train_e2e_logs_every_interval (fun _ _ => mean_filter) same_observations
              zero_gmm_loss estimate_squared_error fresh_buddy
              (fst (TrainE2E.train_e2e (fun _ _ => mean_filter) same_observations
                      zero_gmm_loss estimate_squared_error fresh_buddy
                      [sample_e2e_batch; sample_e2e_batch] TrainE2E.defaults))
              [sample_e2e_batch; sample_e2e_batch] TrainE2E.defaults eq_refl)
    as (entries & Hl & Hlen & _).
  exists entries. split; [exact Hl|exact Hlen].
Defined.

(** ** [rollout]: the errors before the first filter step, and the initial
    particles *)

Section RolloutEdges.

Context {ObsT Obs TrajObs : Type}.
Variable pf_model : nat -> ParticleFilterNetwork Obs.
Variable obs_at : TrajObs -> nat -> result ObsT.
Variable collate : list ObsT -> Obs.

(** X16: without a trajectory, or with a window that holds no timestep
    ([min(shortest length, start_time + max_timesteps) <= start_time]),
    [rollout] raises an [IndexError] where it reads the state dimension off
    [actual_states[0][0]], before the model is touched. *)
Theorem rollout_empty_window_is_index_error
    (trajectories : list (Rollout.Trajectory (TrajObs := TrajObs)))
    (start_time max_timesteps particle_count : nat)
    (noisy_dynamics true_initial : bool) (z : Draws) :
  trajectories = []
  \/ (Rollout.end_time_of trajectories start_time max_timesteps <= start_time)%nat ->
  Rollout.rollout pf_model obs_at collate trajectories start_time max_timesteps
    particle_count noisy_dynamics true_initial z
  = Raises IndexError.
Proof.
  intros H. unfold Rollout.rollout.
  destruct trajectories as [|traj rest]; [reflexivity|].
  destruct H as [H|H]; [discriminate|].
  cbn [map Rollout.item nth_error bind]. unfold slice.
  replace (_ - start_time)%nat with 0%nat by lia. reflexivity.
Qed.

(** X17: with a trajectory and a window of at least one timestep, a model
    that has no parameters makes [rollout] raise [StopIteration], from
    [next(pf_model.parameters())], before any particle is drawn. *)
Theorem rollout_without_parameters_stops
    (trajectories : list (Rollout.Trajectory (TrajObs := TrajObs)))
    (start_time max_timesteps particle_count : nat)
    (noisy_dynamics true_initial : bool) (z : Draws) :
  trajectories <> [] ->
  (start_time < Rollout.end_time_of trajectories start_time max_timesteps)%nat ->
  parameters (pf_model start_time) = [] ->
  Rollout.rollout pf_model obs_at collate trajectories start_time max_timesteps
    particle_count noisy_dynamics true_initial z
  = Raises StopIteration.
Proof.
  intros Hne Hwin Hpar. unfold Rollout.rollout.
  destruct trajectories as [|traj rest]; [congruence|].
  cbn [map Rollout.item nth_error bind].
  assert (Hle := end_time_le (traj :: rest) start_time max_timesteps traj
                   ltac:(now left)).
  assert (Hlen := slice_length start_time
                    (Rollout.end_time_of (traj :: rest) start_time max_timesteps)
                    (fst (fst traj)) Hle).
  destruct (slice _ _ _) as [|first_state window];
    [cbn [length] in Hlen; unfold Rollout.Trajectory in *; lia|].
  cbn [nth_error bind]. now rewrite Hpar.
Qed.

End RolloutEdges.

Lemma rollout_empty_window_is_index_error_witness :
  Rollout.rollout (fun _ => mean_filter) same_observations first_of
    sample_trajectories 7 300 2 true false (fun _ _ _ => 0)
  = Raises IndexError.
Proof.
  apply rollout_empty_window_is_index_error. right. cbn. lia.
Defined.

Lemma rollout_without_parameters_stops_witness :
  Rollout.rollout
    (fun _ => {| parameters := [];
                 dynamics_model := dynamics_model mean_filter;
                 forward := forward mean_filter |})
    same_observations first_of sample_trajectories 0 300 2 true false (fun _ _ _ => 0)
  = Raises StopIteration.
Proof.
  apply rollout_without_parameters_stops; [discriminate | cbn; lia | reflexivity].
Defined.

(** Setting the particles of the trajectories [a, a + n) to their first
    states. *)
Lemma set_initial_from {TrajObs}
    (trajectories : list (Rollout.Trajectory (TrajObs := TrajObs))) (M D : nat)
    (particles : list (list (list R))) :
  length particles = length trajectories ->
  Forall (fun traj : Rollout.Trajectory =>
            length (hd [] (fst (fst traj))) = D /\ fst (fst traj) <> []) trajectories ->
  forall n a, (a + n = length trajectories)%nat ->
  for_each (Rollout.set_initial trajectories M D)
    (map (fun traj : Rollout.Trajectory => repeat (hd [] (fst (fst traj))) M)
       (take a trajectories) ++ drop a particles)
    (seq a n)
  = Returns (map (fun traj : Rollout.Trajectory => repeat (hd [] (fst (fst traj))) M)
               trajectories).
Proof.
  intros Hlen Hall. induction n as [|n IH]; intros a Ha.
  - cbn. rewrite Nat.add_0_r in Ha. subst a.
    rewrite firstn_all, <- Hlen, drop_all. now rewrite app_nil_r.
  - cbn [seq for_each]. unfold Rollout.set_initial at 1.
    destruct (lookup_lt_is_Some_2 trajectories a) as [traj Htraj]; [lia|].
    rewrite (item_lookup _ _ _ Htraj). cbn [bind].
    destruct (proj1 (Forall_lookup _ _) Hall _ _ Htraj) as [HD Hstates].
    destruct (fst (fst traj)) as [|first later] eqn:Hst; [congruence|].
    cbn [Rollout.item nth_error bind hd] in *.
    rewrite HD, expandable_same, expand_to_same.
    destruct (lookup_lt_is_Some_2 particles a) as [old Hold]; [lia|].
    rewrite (drop_S _ _ _ Hold).
    rewrite insert_app_r_alt by (rewrite length_map, length_take; lia).
    replace (a - length _)%nat with 0%nat by (rewrite length_map, length_take; lia).
    cbn [list_insert].
    specialize (IH (S a) ltac:(lia)).
    rewrite (take_S_r _ _ _ Htraj), map_app, <- app_assoc in IH. cbn [map app] in IH.
    rewrite Hst in IH. exact IH.
Qed.

(** X18: with [true_initial=True] the particles of every trajectory are
    drawn around the first state [states[0]] of the whole trajectory (the
    start time plays no part), with standard deviation 0.1; with
    [true_initial=False] they are standard normal draws that ignore the
    trajectories. *)
Theorem initial_particles_centred_on_first_state {TrajObs}
    (trajectories : list (Rollout.Trajectory (TrajObs := TrajObs))) (M D : nat)
    (z : Draws) :
  Forall (fun traj : Rollout.Trajectory =>
            length (hd [] (fst (fst traj))) = D /\ fst (fst traj) <> []) trajectories ->
  Rollout.initial_particles trajectories (length trajectories) M D true z
  = Returns (Rollout.add3
               (map (fun traj : Rollout.Trajectory => repeat (hd [] (fst (fst traj))) M)
                  trajectories)
               (Rollout.normal 0.1 (length trajectories) M D z))
  /\ Rollout.initial_particles trajectories (length trajectories) M D false z
     = Returns (Rollout.add3 (Rollout.zeros (length trajectories) M D)
                  (Rollout.normal 1.0 (length trajectories) M D z)).
Proof.
  intros Hall. split; [|reflexivity].
  unfold Rollout.initial_particles, range. rewrite Nat.sub_0_r.
  assert (Hz : length (Rollout.zeros (length trajectories) M D) = length trajectories)
    by apply repeat_length.
  assert (Hset := set_initial_from trajectories M D _ Hz Hall (length trajectories) 0 eq_refl).
  rewrite take_0, drop_0 in Hset. cbn [map app] in Hset. rewrite Hset. reflexivity.
Qed.

Lemma initial_particles_centred_on_first_state_witness :
  Rollout.initial_particles sample_trajectories 2 1 2 true (fun _ _ _ => 0)
  = Returns (Rollout.add3 [[[0; 0]]; [[0; 1]]] (Rollout.normal 0.1 2 1 2 (fun _ _ _ => 0))).
Proof.
  apply (initial_particles_centred_on_first_state sample_trajectories 1 2).
  repeat constructor; discriminate.
Defined.

(** ** [train_dynamics] and [train_measurement] *)

Lemma first_of_singletons {A B} (g : A -> list R -> B) (d : B) (c : list A)
    (l : list (list R)) :
  map (fun r => nth 0 r d) (zip_with (fun cn ps => map (g cn) ps) c (map (fun r => [r]) l))
  = zip_with g c l.
Proof.
  revert l. induction c as [|cn c IH]; intros [|p l]; try reflexivity.
  cbn. f_equal. apply IH.
Qed.

Lemma singletons_rows (l : list (list R)) :
  Forall (fun ps : list (list R) => length ps = 1%nat) (map (fun r => [r]) l).
Proof. apply Forall_map, Forall_forall. now intros. Qed.

(** X19: [train_dynamics] with the learned dynamics model, on previous
    states of shape [(N, 2)], controls of shape [(N, 7)] and targets of shape
    [(N, 2)]: every sample gets noise of standard deviation 0.05 added to its
    previous state, the prediction for it is the noised state plus the delta
    that the model predicts from its control and the noised state, and the
    loss handed to the optimizer is the mean squared error between the [N]
    predictions and the untouched targets. *)
Theorem train_dynamics_loss_with_learned_model {Obs BatchObs : Type}
    (broadcast : Tensor -> Tensor -> result R) (model : ParticleFilterNetwork Obs)
    (self : PandaDynamicsModel.t) (z0 : Draws) (z : nat -> nat -> R) (N : nat)
    (prev c target : list (list R)) (batch_obs : BatchObs) :
  (forall states controls,
     dynamics_model model states controls false
     = PandaDynamicsModel.forward self states controls false z0) ->
  Nat.even (PandaDynamicsModel.units self) = true ->
  let noised := TrainDynamics.add_noise N 2 prev z in
  let pred := zip_with (fun cn p => vadd p (predicted_delta self cn p)) c noised in
  TrainDynamics.batch_loss broadcast model z
    ((N, 2%nat, prev), batch_obs, T2 N 7 c, T2 N 2 target)
  = Returns (T2 N 2 pred, mse_loss (T2 N 2 pred) (T2 N 2 target)).
Proof.
  intros Hmodel Heven noised pred.
  assert (Hhalves : (PandaDynamicsModel.units self / 2 + PandaDynamicsModel.units self / 2
                     = PandaDynamicsModel.units self)%nat).
  { apply Nat.even_spec in Heven as [k Hk]. rewrite Hk.
    replace (2 * k)%nat with (k * 2)%nat by lia. rewrite Nat.div_mul by lia. lia. }
  unfold TrainDynamics.batch_loss. fold noised. cbn [unsqueeze_dim1 bind].
  rewrite Hmodel, (dynamics_forward_unfolded self N 1 _ c false z0 Hhalves).
  rewrite fuse_all_trajectories by apply singletons_rows.
  cbn [bind squeeze_dim1].
  rewrite (first_of_singletons
             (fun cn p => vadd p (PandaDynamicsModel.shared_layers self
                (PandaDynamicsModel.control_layers self cn
                 ++ PandaDynamicsModel.state_layers self p)))).
  fold (predicted_delta self). unfold mean_squared_error. cbn [shape].
  rewrite bool_decide_eq_true_2 by reflexivity. reflexivity.
Qed.

Lemma train_dynamics_loss_with_learned_model_witness :
  exists pred loss,
    TrainDynamics.batch_loss no_broadcast learned_filter (fun _ _ => 1)
      sample_dynamics_batch
    = Returns (T2 2 2 pred, loss)
    /\ length pred = 2%nat.
Proof.
  eexists _, _. split.
  - exact (train_dynamics_loss_with_learned_model no_broadcast learned_filter
             small_dynamics (fun _ _ _ => 0) (fun _ _ => 1) 2 [[0; 0]; [1; 1]]
             (repeat (repeat 0 7) 2) [[1; 0]; [0; 2]] (blank_observations 32 32)
             (fun _ _ => eq_refl) eq_refl).
  - reflexivity.
Defined.

Lemma wf3_singletons N D (v : list (list R)) :
  wf2 N D v = true -> wf3 N 1 D (map (fun r => [r]) v) = true.
Proof.
  intros H. apply wf2_Forall in H as [H1 H2].
  apply wf3_Forall; [now rewrite length_map|].
  apply Forall_map. eapply Forall_impl; [exact H2|].
  intros r Hr. cbn. split; [reflexivity|]. now constructor.
Qed.

(** X20: [train_measurement] with the Panda measurement model, on noisy
    states of shape [(N, 2)], observations for the [N] samples and labels of
    shape [(N,)]: each state is scored as the single particle of its own
    trajectory against the features of its own observation, the scores are
    squeezed to shape [(N,)], and the loss is their mean squared error to the
    labels. *)
Theorem train_measurement_loss_with_panda_model {Extra : Type}
    (broadcast : Tensor -> Tensor -> result R) (self : nat -> PandaMeasurementModel.t)
    (steps N H W : nat) (observations : gmap string Tensor)
    (noisy_states pos sens : list (list R)) (imgs : list (list (list R)))
    (labels : list R) (extra : Extra) :
  observations !! "image"%string = Some (T3 N H W imgs) ->
  observations !! "gripper_pos"%string = Some (T2 N 3 pos) ->
  observations !! "gripper_sensors"%string = Some (T2 N 7 sens) ->
  (H * W = 1024)%nat ->
  wf2 N 2 noisy_states = true ->
  let scores :=
    zip_with (particle_score (self steps))
      (zip3 (trajectory_features (self steps)) imgs pos sens) noisy_states in
  TrainMeasurement.batch_loss (fun k => PandaMeasurementModel.forward (self k)) broadcast
    steps ((N, 2%nat, noisy_states), observations, T1 N labels, extra)
  = Returns (T1 N scores, mse_loss (T1 N scores) (T1 N labels)).
Proof.
  intros Hi Hp Hs HW Hwf scores.
  unfold TrainMeasurement.batch_loss. cbn [unsqueeze_dim1 bind].
  rewrite (measurement_forward_scores (self steps) observations N 1 H W _ imgs pos sens
             Hi Hp Hs HW (wf3_singletons _ _ _ Hwf)).
  cbn [bind shape length Nat.eqb assert squeeze_dim1].
  rewrite (first_of_singletons (particle_score (self steps))).
  fold scores. unfold mean_squared_error. cbn [shape].
  rewrite bool_decide_eq_true_2 by reflexivity. reflexivity.
Qed.

Lemma train_measurement_loss_with_panda_model_witness :
  exists scores loss,
    TrainMeasurement.batch_loss
      (fun _ => PandaMeasurementModel.forward small_measurement) no_broadcast 0
      ((1%nat, 2%nat, [[1; 2]]), blank_observations 32 32, T1 1 [0], tt)
    = Returns (T1 1 scores, loss)
    /\ length scores = 1%nat.
Proof.
  eexists _, _. split.
  - exact (train_measurement_loss_with_panda_model no_broadcast
             (fun _ => small_measurement) 0 1 32 32 (blank_observations 32 32)
             [[1; 2]] [[0; 0; 0]] [[0; 0; 0; 0; 0; 0; 0]] [blank_image 32 32] [0] tt
             eq_refl eq_refl eq_refl eq_refl eq_refl).
  - reflexivity.
Defined.

(** A loop over batches whose body takes one optimizer step when it returns,
    and at most one when it raises. *)
Lemma for_each_batch_counts {S A} (body : Buddy -> S -> A -> Buddy * result S)
    (log_interval : nat) (optim_name : string) :
  (forall b s x b' r, body b s x = (b', r) ->
     match r with
     | Returns _ =>
         log_interval <> 0%nat
         /\ optimizer_steps b' = Datatypes.S (optimizer_steps b)
         /\ (exists loss, minimized b' = minimized b ++ [(optim_name, loss)])
     | Raises e =>
         b' = b
         \/ (log_interval = 0%nat /\ e = ZeroDivisionError
             /\ exists loss, b' = minimize b loss optim_name)
     end) ->
  forall xs buddy st buddy' r,
  for_each_batch body buddy st xs = (buddy', r) ->
  (optimizer_steps buddy <= optimizer_steps buddy'
   <= optimizer_steps buddy + length xs)%nat
  /\ match r with
     | Returns _ =>
         optimizer_steps buddy' = (optimizer_steps buddy + length xs)%nat
         /\ (xs <> [] -> log_interval <> 0%nat)
         /\ (exists losses,
               length losses = length xs
               /\ minimized buddy'
                  = minimized buddy ++ map (fun l => (optim_name, l)) losses)
     | Raises e =>
         log_interval = 0%nat ->
         buddy' = buddy
         \/ (e = ZeroDivisionError /\ exists loss, buddy' = minimize buddy loss optim_name)
     end.
Proof.
  intros Hbody. induction xs as [|x rest IH]; intros buddy st buddy' r.
  - cbn. intros [= <- <-]. split; [lia|].
    split; [lia|]. split; [congruence|]. exists []. cbn. now rewrite app_nil_r.
  - cbn [for_each_batch length].
    destruct (body buddy st x) as [b1 [s1|e]] eqn:Hb; apply Hbody in Hb.
    + destruct Hb as (Hk & Hsteps & [loss Hmin]). intros Hrest.
      destruct (IH _ _ _ _ Hrest) as [Hbound Hret].
      split; [lia|]. destruct r as [s'|e].
      * destruct Hret as (Hs & _ & losses & Hlen & Hm).
        split; [lia|]. split; [auto|].
        exists (loss :: losses). cbn. split; [lia|].
        rewrite Hm, Hmin, <- app_assoc. reflexivity.
      * intros H0. congruence.
    + intros [= <- <-]. split.
      * destruct Hb as [->|(_ & _ & loss & ->)]; cbn; lia.
      * intros _. destruct Hb as [->|(_ & -> & loss & ->)]; eauto.
Qed.

Section Measurement.

Context {Obs Extra : Type}.
Variable measurement_model : nat -> Obs -> Tensor -> result Tensor.
Variable broadcast : Tensor -> Tensor -> result R.

Lemma measurement_batch_body_inv log_interval optim_name buddy losses
    (batch : TrainMeasurement.Batch (Obs := Obs) (Extra := Extra)) buddy' r :
  TrainMeasurement.batch_body measurement_model broadcast log_interval optim_name
    buddy losses batch = (buddy', r) ->
  match r with
  | Returns _ =>
      log_interval <> 0%nat
      /\ optimizer_steps buddy' = S (optimizer_steps buddy)
      /\ (exists loss, minimized buddy' = minimized buddy ++ [(optim_name, loss)])
  | Raises e =>
      buddy' = buddy
      \/ (log_interval = 0%nat /\ e = ZeroDivisionError
          /\ exists loss, buddy' = minimize buddy loss optim_name)
  end.
Proof.
  unfold TrainMeasurement.batch_body.
  destruct (TrainMeasurement.batch_loss _ _ _ _) as [[pred loss]|e];
    [|intros [= <- <-]; auto].
  cbn zeta.
  destruct (log_every _ _ _ _) as [b [[]|e]] eqn:Hlog; intros [= <- <-];
    apply log_every_inv in Hlog as (Hsteps & Hmin & Hr); cbn in *.
  - destruct Hr as [Hk _]. split; [exact Hk|]. split; [exact Hsteps|]. now exists loss.
  - destruct Hr as (Hk & -> & ->). right. eauto.
Qed.

(** X21: [train_measurement] takes one optimizer step per batch and never
    more, and never steps for a batch on which the measurement model does
    not return a matrix: a prediction of another rank fails the assertion
    before the loss is computed.  When the function returns, the optimizer
    named [optim_name] has been stepped exactly once for each batch. *)
Theorem train_measurement_steps_once_per_batch
    (buddy buddy' : Buddy)
    (dataloader : list (TrainMeasurement.Batch (Obs := Obs) (Extra := Extra)))
    (log_interval : nat) (optim_name : string) (r : result unit) :
  TrainMeasurement.train_measurement measurement_model broadcast buddy dataloader
    log_interval optim_name = (buddy', r) ->
  (optimizer_steps buddy <= optimizer_steps buddy'
   <= optimizer_steps buddy + length dataloader)%nat
  /\ (r = Returns tt ->
      (dataloader <> [] -> log_interval <> 0%nat)
      /\ optimizer_steps buddy' = (optimizer_steps buddy + length dataloader)%nat
      /\ exists losses,
           length losses = length dataloader
           /\ minimized buddy' = minimized buddy ++ map (fun l => (optim_name, l)) losses)
  /\ (forall N D noisy_states observations log_likelihoods extra rest pred,
        dataloader = ((N, D, noisy_states), observations, log_likelihoods, extra) :: rest ->
        measurement_model (optimizer_steps buddy) observations
          (T3 N 1 D (map (fun row => [row]) noisy_states)) = Returns pred ->
        length (shape pred) <> 2%nat ->
        buddy' = buddy /\ r = Raises (AssertionError "")).
Proof.
  unfold TrainMeasurement.train_measurement. intros Htrain. split; [|split].
  - destruct (for_each_batch _ buddy [] dataloader) as [b res] eqn:Hloop.
    destruct (for_each_batch_counts _ log_interval optim_name
                (measurement_batch_body_inv log_interval optim_name) _ _ _ _ _ Hloop)
      as [Hbound _].
    destruct res; injection Htrain as <- <-; exact Hbound.
  - intros ->.
    destruct (for_each_batch _ buddy [] dataloader) as [b res] eqn:Hloop.
    destruct (for_each_batch_counts _ log_interval optim_name
                (measurement_batch_body_inv log_interval optim_name) _ _ _ _ _ Hloop)
      as [_ Hret].
    destruct res; [|discriminate]. injection Htrain as <-.
    destruct Hret as (Hs & Hk & Hlosses). auto.
  - intros N D noisy_states observations log_likelihoods extra rest pred -> Hpred Hrank.
    cbn [for_each_batch] in Htrain.
    unfold TrainMeasurement.batch_body, TrainMeasurement.batch_loss in Htrain.
    cbn [unsqueeze_dim1 bind] in Htrain. rewrite Hpred in Htrain. cbn [bind] in Htrain.
    apply Nat.eqb_neq in Hrank. rewrite Hrank in Htrain. cbn in Htrain.
    now injection Htrain as <- <-.
Qed.

End Measurement.

Lemma train_measurement_steps_once_per_batch_witness :
  optimizer_steps
    (fst (TrainMeasurement.train_measurement
            (fun _ => PandaMeasurementModel.forward small_measurement) no_broadcast
            fresh_buddy [sample_measurement_batch; sample_measurement_batch]
            10 "measurement"))
  = 2%nat.
Proof.
  exact (proj1 (proj2 (proj1 (proj2
    (train_measurement_steps_once_per_batch
       (fun _ => PandaMeasurementModel.forward small_measurement) no_broadcast
       fresh_buddy _ [sample_measurement_batch; sample_measurement_batch]
       10 "measurement" _ (surjective_pairing _))) eq_refl))).
Defined.

Section RolloutControls.

Context {ObsT Obs TrajObs : Type}.
Variable pf_model : nat -> ParticleFilterNetwork Obs.
Variable obs_at : TrajObs -> nat -> result ObsT.
Variable collate : list ObsT -> Obs.


End RolloutControls.


(** ** [train_dynamics_recurrent] with the simple dynamics model *)

Section RecurrentIdentity.

Context {Obs BatchObs : Type}.
Variable model : ParticleFilterNetwork Obs.
Variable self : PandaSimpleDynamicsModel.t.
Variable z0 : Draws.
Hypothesis model_is_simple :
  forall states controls,
    dynamics_model model states controls false
    = PandaSimpleDynamicsModel.forward self states controls false z0.

Variables N T C : nat.
Variables s c : list (list (list R)).
Variable loss_type : string.
Hypothesis implemented : In loss_type ["l1"; "l2"; "huber"]%string.

Let D : nat := length (PandaSimpleDynamicsModel.state_noise_stddev self).
Let first_states : Tensor := T2 N D (map (fun r => nth 0 r []) s).
Let states_at (t : nat) : Tensor := T2 N D (map (fun r => nth t r []) s).

Lemma identity_timestep st t :
  (1 <= t < T)%nat ->
  TrainDynamicsRecurrent.prev_states st = first_states ->
  exists moved,
    TrainDynamicsRecurrent.timestep loss_type model (T3 N T D s) (T3 N T C c) N D st t
    = Returns
        {| TrainDynamicsRecurrent.prev_states := first_states;
           TrainDynamicsRecurrent.losses :=
             TrainDynamicsRecurrent.losses st
             ++ [recurrent_timestep_loss loss_type first_states (states_at t)];
           TrainDynamicsRecurrent.magnitude_losses :=
             TrainDynamicsRecurrent.magnitude_losses st;
           TrainDynamicsRecurrent.direction_losses :=
             TrainDynamicsRecurrent.direction_losses st;
           TrainDynamicsRecurrent.pred_deltas :=
             TrainDynamicsRecurrent.pred_deltas st ++ [moved] |}.
Proof using All.
  intros Ht Hprev. unfold TrainDynamicsRecurrent.timestep. rewrite Hprev.
  unfold first_states. cbn [select_dim1 unsqueeze_dim1].
  replace (t <? T)%nat with true by (symmetry; apply Nat.ltb_lt; lia).
  replace (t - 1 <? T)%nat with true by (symmetry; apply Nat.ltb_lt; lia).
  cbn [bind]. rewrite model_is_simple.
  unfold PandaSimpleDynamicsModel.forward.
  cbn [shape length Nat.eqb assert bind]. fold D. rewrite Nat.eqb_refl.
  cbn [assert bind squeeze_dim1].
  rewrite (map_map (fun r => [r]) (fun r => nth 0 r [])). cbn [nth].
  rewrite map_id.
  rewrite shape_is_true by reflexivity. cbn [assert bind].
  unfold tensor_sub. cbn [tensor_zip]. rewrite !Nat.eqb_refl. cbn [andb bind].
  rewrite !shape_is_true by reflexivity. cbn [assert bind].
  eexists. unfold recurrent_timestep_loss, states_at.
  destruct implemented as [<-|[<-|[<-|[]]]]; reflexivity.
Qed.

Lemma identity_timesteps ts :
  Forall (fun t => (1 <= t < T)%nat) ts ->
  forall st, TrainDynamicsRecurrent.prev_states st = first_states ->
  exists st',
    for_each
      (TrainDynamicsRecurrent.timestep loss_type model (T3 N T D s) (T3 N T C c) N D) st ts
    = Returns st'
    /\ TrainDynamicsRecurrent.prev_states st' = first_states
    /\ TrainDynamicsRecurrent.losses st'
       = TrainDynamicsRecurrent.losses st
         ++ map (fun t => recurrent_timestep_loss loss_type first_states (states_at t)) ts
    /\ length (TrainDynamicsRecurrent.pred_deltas st')
       = (length (TrainDynamicsRecurrent.pred_deltas st) + length ts)%nat.
Proof using All.
  induction 1 as [|t ts Ht _ IH]; intros st Hprev.
  - exists st. cbn. rewrite app_nil_r. auto with arith.
  - cbn [for_each]. destruct (identity_timestep st t Ht Hprev) as [moved ->].
    cbn [bind].
    match goal with
    | |- context [for_each _ ?st1 ts] =>
        destruct (IH st1 eq_refl) as (st' & -> & Hp & Hl & Hd)
    end.
    exists st'. split; [reflexivity|]. split; [exact Hp|].
    cbn in Hl, Hd. rewrite Hl, Hd, <- app_assoc, length_app. cbn. split; [reflexivity|lia].
Qed.

(** X23: [train_dynamics_recurrent] feeds the model its own output: with
    the simple dynamics model, which returns its input, the states carried
    through the timesteps stay the first states of the batch, and the loss
    of a batch of [T >= 2] timesteps is the mean over [t = 1 .. T - 1] of the
    loss between the first states and the states at [t]. *)
Theorem recurrent_loss_with_identity_model (batch_obs : BatchObs) :
  (2 <= T)%nat ->
  exists st,
    TrainDynamicsRecurrent.batch_loss loss_type model
      (T3 N T D s, batch_obs, T3 N T C c)
    = Returns
        (mean (map (fun t => recurrent_timestep_loss loss_type first_states (states_at t))
                 (range 1 T)),
         st)
    /\ TrainDynamicsRecurrent.prev_states st = first_states
    /\ length (TrainDynamicsRecurrent.losses st) = (T - 1)%nat.
Proof using All.
  intros HT. unfold TrainDynamicsRecurrent.batch_loss.
  cbn [shape]. rewrite shape_is_true by reflexivity. cbn [assert bind select_dim1].
  replace (0 <? T)%nat with true by (symmetry; apply Nat.ltb_lt; lia).
  cbn [bind]. rewrite shape_is_true by reflexivity.
  cbn [assert bind TrainDynamicsRecurrent.label_deltas].
  rewrite tabulate_length, Nat.eqb_refl. cbn [assert bind].
  assert (Hts : Forall (fun t => (1 <= t < T)%nat) (range 1 T)).
  { apply List.Forall_forall. intros t Hin. unfold range in Hin.
    apply in_seq in Hin. lia. }
  destruct (identity_timesteps _ Hts
              {| TrainDynamicsRecurrent.prev_states := first_states;
                 TrainDynamicsRecurrent.losses := [];
                 TrainDynamicsRecurrent.magnitude_losses := [];
                 TrainDynamicsRecurrent.direction_losses := [];
                 TrainDynamicsRecurrent.pred_deltas := [] |} eq_refl)
    as (st & Hfor & Hp & Hl & Hd).
  fold first_states. rewrite Hfor. cbn [bind].
  cbn in Hl, Hd. unfold range in Hd. rewrite length_seq in Hd.
  rewrite Hd, Nat.eqb_refl. cbn [assert bind]. rewrite Hl.
  rewrite (range_cons 1 T) by lia. cbn [map mean_stack bind].
  exists st. split; [reflexivity|]. split; [exact Hp|].
  rewrite Hl, length_map. unfold range. now rewrite length_seq.
Qed.

End RecurrentIdentity.

Lemma recurrent_loss_with_identity_model_witness :
  exists st,
    TrainDynamicsRecurrent.batch_loss "l1" mean_filter
      (sample_states, blank_observations 32 32, sample_controls)
    = Returns
        (mean [l1_loss (T2 2 2 [[0; 0]; [0; 1]]) (T2 2 2 [[1; 0]; [0; 2]]);
               l1_loss (T2 2 2 [[0; 0]; [0; 1]]) (T2 2 2 [[2; 0]; [0; 3]])],
         st).
Proof.
  destruct (recurrent_loss_with_identity_model mean_filter
              (PandaSimpleDynamicsModel.init None) (fun _ _ _ => 0)
              (fun _ _ => eq_refl) 2 3 7
              [[[0; 0]; [1; 0]; [2; 0]]; [[0; 1]; [0; 2]; [0; 3]]]
              (repeat (repeat (repeat 0 7) 3) 2) "l1" ltac:(now left)
              (blank_observations 32 32) ltac:(lia))
    as (st & Hloss & _).
  exists st. exact Hloss.
Defined.
